(** * Audit analysis engine of the Auditor Bot (src/main.py)

    A shallow embedding of the analytical core of [src/main.py]: the
    failure-keyword matcher, the SLA calculator, the identifier extractor,
    the per-file statistics, the pair-key derivation, the pairing engine
    and the reconciliation engine, followed by the properties that the
    specification states about them.

    Conventions of the embedding.
    - Python [str] values are Stdlib strings, read as texts of the ASCII
      range: case folding and whitespace are the ASCII ones (code units
      above 127 are left alone).  [derive_pair_key], which slices a name
      at an index found in its lowered copy, is also given on sequences
      of code points (module [Uni]), where [str.lower] can lengthen a
      text; the two versions agree on the ASCII range.
    - Python [int] is [Z]; an index result of [str.find] is a [Z] with
      [-1] for "not found", as in Python.
    - A table is one that [pd.read_csv] builds: its columns are of dtype
      [object], [int64], [float64] or [bool] (the date-typed columns that
      a workbook can have are left out).  A cell is [option string]:
      [None] is a missing value (NaN / None), [Some s] a value that its
      column prints as [s] under [astype(str)].  The dtypes of the columns
      decide how a row of [df.iterrows()] prints the same value.
    - A function of the engine is first given by what it returns.  The
      one exception that the analysis of a table can run into, the
      [TypeError] of pandas on tz-aware and tz-naive dates in
      [compute_sla_metrics], is in module [Exn], whose functions return
      an outcome: a value or an exception.
    - Python sets of strings are [gset string], dicts are [gmap]s, except
      where the iteration order of a dict is observable, in which case an
      association list in insertion order is used.
    - A dict with a fixed set of string keys is a record; a key that one
      return path leaves out is an [option] field that is [None] there.
    - The clock is passed explicitly: a function that calls
      [datetime.utcnow()] takes the instant it reads as the argument [now].
    - The pandas and float routines whose results the engine only passes
      on ([pd.to_datetime], the rounded mean, the formatting of a rate) and
      the configured overdue threshold are parameters of the engine. *)

From Stdlib Require Import ZArith Ascii String List Bool Lia.
From Stdlib Require Import Floats DecimalString.
From stdpp Require Import base gmap sets list strings sorting.

Local Open Scope Z_scope.

(** ** Python string primitives used by the engine *)

Module Py.

(** [str.lower] on one ASCII code unit. *)
Definition lower_ascii (c : ascii) : ascii :=
  let n := nat_of_ascii c in
  if ((65 <=? n)%nat && (n <=? 90)%nat)%bool then ascii_of_nat (n + 32) else c.

(** [s.lower()] *)
Fixpoint lower (s : string) : string :=
  match s with
  | EmptyString => EmptyString
  | String c s' => String (lower_ascii c) (lower s')
  end.

(** [s.startswith(p)] *)
Fixpoint startswith (p s : string) : bool :=
  match p, s with
  | EmptyString, _ => true
  | String _ _, EmptyString => false
  | String a p', String b s' => if Ascii.eqb a b then startswith p' s' else false
  end.

(** The scan of [s.find(sub)]: [i] is the index of the head of [s] in the
    string the search started on. *)
Fixpoint find_from (sub s : string) (i : Z) : Z :=
  if startswith sub s then i
  else match s with
       | EmptyString => -1
       | String _ s' => find_from sub s' (i + 1)
       end.

(** [s.find(sub)]: lowest index at which [sub] occurs, [-1] if none. *)
Definition find (s sub : string) : Z := find_from sub s 0.

(** [sub in s] *)
Definition contains (s sub : string) : bool := negb (find s sub =? -1).

(** [s.rfind(c)] for a single character [c]: highest index, [-1] if none. *)
Fixpoint rfind_char_from (c : ascii) (s : string) (i best : Z) : Z :=
  match s with
  | EmptyString => best
  | String a s' => rfind_char_from c s' (i + 1) (if Ascii.eqb a c then i else best)
  end.

Definition rfind_char (s : string) (c : ascii) : Z := rfind_char_from c s 0 (-1).

Fixpoint take (n : nat) (s : string) : string :=
  match n, s with
  | O, _ => EmptyString
  | S _, EmptyString => EmptyString
  | S n', String c s' => String c (take n' s')
  end.

Fixpoint drop (n : nat) (s : string) : string :=
  match n, s with
  | O, _ => s
  | S _, EmptyString => EmptyString
  | S n', String _ s' => drop n' s'
  end.

(** [s[:i]] and [s[i:]] for an index [0 <= i]. *)
Definition slice_to (s : string) (i : Z) : string := take (Z.to_nat i) s.
Definition slice_from (s : string) (i : Z) : string := drop (Z.to_nat i) s.

(** [s[i:i+1]] *)
Definition char_at (s : string) (i : Z) : string := take 1 (drop (Z.to_nat i) s).

Fixpoint mem_ascii (c : ascii) (chars : string) : bool :=
  match chars with
  | EmptyString => false
  | String a chars' => if Ascii.eqb a c then true else mem_ascii c chars'
  end.

Definition is_empty (s : string) : bool :=
  match s with EmptyString => true | String _ _ => false end.

(** Removal of the trailing (leading) characters that satisfy [p]. *)
Fixpoint rstrip_by (p : ascii -> bool) (s : string) : string :=
  match s with
  | EmptyString => EmptyString
  | String c s' =>
      let r := rstrip_by p s' in
      if (is_empty r && p c)%bool then EmptyString else String c r
  end.

Fixpoint lstrip_by (p : ascii -> bool) (s : string) : string :=
  match s with
  | EmptyString => EmptyString
  | String c s' => if p c then lstrip_by p s' else s
  end.

(** [s.rstrip(chars)] *)
Definition rstrip (s chars : string) : string :=
  rstrip_by (fun c => mem_ascii c chars) s.

(** ASCII characters for which [str.isspace] holds. *)
Definition isspace (c : ascii) : bool :=
  let n := nat_of_ascii c in
  (((9 <=? n)%nat && (n <=? 13)%nat) || ((28 <=? n)%nat && (n <=? 32)%nat))%bool.

(** [s.strip()] *)
Definition strip (s : string) : string := rstrip_by isspace (lstrip_by isspace s).

(** [x or y] on strings: the empty string is falsy. *)
Definition str_or (x y : string) : string := if is_empty x then y else x.

(** [sep.join(parts)] *)
Fixpoint join (sep : string) (parts : list string) : string :=
  match parts with
  | [] => EmptyString
  | [p] => p
  | p :: rest => p +:+ sep +:+ join sep rest
  end.

(** The loop of [genericpath._splitext] that skips the leading dots of
    the file name: [n] is the number of indices left before the last
    dot.  It answers whether a character other than a dot was met. *)
Fixpoint splitext_scan (p : string) (filenameIndex : Z) (n : nat) : bool :=
  match n with
  | O => false
  | S n' =>
      if negb (String.eqb (char_at p filenameIndex) ".") then true
      else splitext_scan p (filenameIndex + 1) n'
  end.

(** [os.path.splitext(p)] (posixpath: separator [/], no alternative
    separator). *)
Definition splitext (p : string) : string * string :=
  let sepIndex := rfind_char p "/" in
  let dotIndex := rfind_char p "." in
  if (sepIndex <? dotIndex)
     && splitext_scan p (sepIndex + 1) (Z.to_nat (dotIndex - (sepIndex + 1)))
  then (slice_to p dotIndex, slice_from p dotIndex)
  else (p, EmptyString).

End Py.

(** ** File-name rules *)

Definition determine_template_type (file_name : string) : string :=
  let lowered := Py.lower file_name in
  if Py.contains lowered "unsigned" then "unsigned"
  else if Py.contains lowered "signed" then "signed"
  else "mixed".

Definition pair_key_markers : list string :=
  [ "_signedordertemplate";
    "_unsignedordertemplate";
    "_signedorder";
    "_unsignedorder";
    "_signed";
    "_unsigned";
    "_ordertemplate" ].

(** The [for marker in markers] loop of [derive_pair_key]. *)
Fixpoint derive_pair_key_loop (base_name lowered : string) (markers : list string) : string :=
  match markers with
  | [] => base_name
  | marker :: rest =>
      let idx := Py.find lowered marker in
      if negb (idx =? -1)
      then Py.str_or (Py.rstrip (Py.slice_to base_name idx) "-_ ") base_name
      else derive_pair_key_loop base_name lowered rest
  end.

Definition derive_pair_key (file_name : string) : string :=
  let base_name := fst (Py.splitext file_name) in
  let lowered := Py.lower base_name in
  derive_pair_key_loop base_name lowered pair_key_markers.

(** ** File names as sequences of code points *)

Module Uni.

(** A Python [str] as the sequence of its code points. *)
Definition ustring : Type := list Z.

(** The code points of a text written in the ASCII range. *)
Definition of_string (s : string) : ustring :=
  map (fun c => Z.of_nat (nat_of_ascii c)) (list_ascii_of_string s).

Section Lower.

(** The lower-case code point of a code point outside the ASCII range,
    other than U+0130 and U+212A, given the code points before and after
    it (the capital sigma depends on them). *)
Variable lower_other : ustring -> Z -> ustring -> Z.

(** What [str.lower] puts in the place of one code point: the capital
    letters of the ASCII range become small, U+0130 (capital I with a dot
    above) becomes a small i followed by the combining dot U+0307, and
    U+212A (the Kelvin sign) becomes a small k. *)
Definition lower_point (before : ustring) (c : Z) (after : ustring) : ustring :=
  if ((65 <=? c) && (c <=? 90))%bool then [c + 32]
  else if c <? 128 then [c]
  else if c =? 304 then [105; 775]
  else if c =? 8490 then [107]
  else [lower_other before c after].

Fixpoint lower_from (before s : ustring) : ustring :=
  match s with
  | [] => []
  | c :: rest => lower_point before c rest ++ lower_from (before ++ [c]) rest
  end.

(** [s.lower()] *)
Definition lower (s : ustring) : ustring := lower_from [] s.

End Lower.

(** [s.startswith(p)] *)
Fixpoint startswith (p s : ustring) : bool :=
  match p, s with
  | [], _ => true
  | _ :: _, [] => false
  | a :: p', b :: s' => if a =? b then startswith p' s' else false
  end.

Fixpoint find_from (sub s : ustring) (i : Z) : Z :=
  if startswith sub s then i
  else match s with
       | [] => -1
       | _ :: s' => find_from sub s' (i + 1)
       end.

(** [s.find(sub)] *)
Definition find (s sub : ustring) : Z := find_from sub s 0.

Fixpoint rfind_from (c : Z) (s : ustring) (i best : Z) : Z :=
  match s with
  | [] => best
  | a :: s' => rfind_from c s' (i + 1) (if a =? c then i else best)
  end.

(** [s.rfind(c)] for a single code point [c]. *)
Definition rfind (s : ustring) (c : Z) : Z := rfind_from c s 0 (-1).

(** [s[:i]] and [s[i:]] for an index [0 <= i]. *)
Definition slice_to (s : ustring) (i : Z) : ustring := take (Z.to_nat i) s.
Definition slice_from (s : ustring) (i : Z) : ustring := drop (Z.to_nat i) s.

Fixpoint rstrip_by (p : Z -> bool) (s : ustring) : ustring :=
  match s with
  | [] => []
  | c :: s' =>
      match rstrip_by p s' with
      | [] => if p c then [] else [c]
      | r => c :: r
      end
  end.

(** [s.rstrip(chars)] *)
Definition rstrip (s chars : ustring) : ustring :=
  rstrip_by (fun c => existsb (Z.eqb c) chars) s.

(** [x or y] *)
Definition str_or (x y : ustring) : ustring :=
  match x with [] => y | _ => x end.

(** The loop of [genericpath._splitext] over the leading dots. *)
Fixpoint splitext_scan (p : ustring) (filenameIndex : Z) (n : nat) : bool :=
  match n with
  | O => false
  | S n' =>
      match slice_from p filenameIndex with
      | c :: _ => if c =? 46 then splitext_scan p (filenameIndex + 1) n' else true
      | [] => true
      end
  end.

(** [os.path.splitext(p)] *)
Definition splitext (p : ustring) : ustring * ustring :=
  let sepIndex := rfind p 47 in
  let dotIndex := rfind p 46 in
  if ((sepIndex <? dotIndex)
      && splitext_scan p (sepIndex + 1) (Z.to_nat (dotIndex - (sepIndex + 1))))%bool
  then (slice_to p dotIndex, slice_from p dotIndex)
  else (p, []).

(** The markers of [derive_pair_key], in its order. *)
Definition markers : list ustring := map of_string pair_key_markers.

Fixpoint derive_pair_key_loop (base_name lowered : ustring) (markers : list ustring)
    : ustring :=
  match markers with
  | [] => base_name
  | marker :: rest =>
      let idx := find lowered marker in
      if negb (idx =? -1)
      then str_or (rstrip (slice_to base_name idx) (of_string "-_ ")) base_name
      else derive_pair_key_loop base_name lowered rest
  end.

(** [derive_pair_key(file_name)] *)
Definition derive_pair_key (lower_other : ustring -> Z -> ustring -> Z)
    (file_name : ustring) : ustring :=
  let base_name := (splitext file_name).1 in
  let lowered := lower lower_other base_name in
  derive_pair_key_loop base_name lowered markers.

(** *** The pair key in the words of the specification *)

(** A code point that is the small letter [m] or its capital. *)
Definition same_letter (m c : Z) : bool :=
  ((c =? m) || ((65 <=? c) && (c <=? 90) && (c + 32 =? m)))%bool.

(** The marker stands at the head of [s], whatever the case of the
    letters of [s]. *)
Fixpoint occurs_at (marker s : ustring) : bool :=
  match marker, s with
  | [], _ => true
  | _ :: _, [] => false
  | m :: marker', c :: s' => (same_letter m c && occurs_at marker' s')%bool
  end.

(** The first place of [s] at which the marker occurs. *)
Fixpoint first_occurrence (marker s : ustring) : option nat :=
  if occurs_at marker s then Some O
  else match s with
       | [] => None
       | _ :: s' => option_map S (first_occurrence marker s')
       end.

Fixpoint take_while (p : Z -> bool) (s : ustring) : ustring :=
  match s with
  | [] => []
  | c :: s' => if p c then c :: take_while p s' else []
  end.

Fixpoint drop_while (p : Z -> bool) (s : ustring) : ustring :=
  match s with
  | [] => []
  | c :: s' => if p c then drop_while p s' else s
  end.

(** The part of [s] after the last [c], all of [s] without a [c]. *)
Definition after_last (c : Z) (s : ustring) : ustring :=
  reverse (take_while (fun a => negb (a =? c)) (reverse s)).

(** The name without its extension: the extension starts at the last dot
    of the last path component, unless only dots come before it there. *)
Definition stem (file_name : ustring) : ustring :=
  let body := drop_while (Z.eqb 46) (after_last 47 file_name) in
  if existsb (Z.eqb 46) body
  then take (length file_name - length (after_last 46 body) - 1) file_name
  else file_name.

(** [s] without the separators at its end. *)
Definition strip_trailing (seps s : ustring) : ustring :=
  reverse (drop_while (fun c => bool_decide (c ∈ seps)) (reverse s)).

(** The base name cut at the first marker of the list that occurs in it. *)
Fixpoint cut_at_first_marker (base_name : ustring) (markers : list ustring)
    : option ustring :=
  match markers with
  | [] => None
  | marker :: rest =>
      match first_occurrence marker base_name with
      | Some i => Some (take i base_name)
      | None => cut_at_first_marker base_name rest
      end
  end.

(** The pair key as the specification words it: the name without its
    extension, cut at the first marker of the priority list that occurs in
    it, whatever the case of its letters, with the ['-'], ['_'] and spaces
    at the end of what is left removed; the name without its extension
    when nothing is left or when no marker occurs. *)
Definition pair_key_spec (file_name : ustring) : ustring :=
  let base_name := stem file_name in
  match cut_at_first_marker base_name markers with
  | None => base_name
  | Some head =>
      match strip_trailing (of_string "-_ ") head with
      | [] => base_name
      | key => key
      end
  end.

(** A code point of a marker: in the ASCII range, not a capital letter,
    and not the small k. *)
Definition marker_point (m : Z) : Prop := m < 128 /\ (m < 65 \/ 90 < m) /\ m <> 107.

End Uni.

(** ** Tables *)

(** A cell of a table: [None] is a missing value, [Some s] a value that
    its column prints as [s]. *)
Definition cell : Type := option string.

(** The dtype of a column, among those that [pd.read_csv] infers: text
    and mixed values, whole numbers, floats (the dtype of a numeric column
    with missing values), truth values. *)
Inductive Dtype : Type :=
  | dtype_object
  | dtype_int64
  | dtype_float64
  | dtype_bool.

(** A [pandas.DataFrame] with the default range index: the column labels
    (distinct, as [pd.read_csv] makes them), the dtype of each column, and
    the rows, each row holding one cell per column.  The index label of a
    row is its position. *)
Record DataFrame : Type := mkDataFrame {
  columns : list string;
  dtypes : list Dtype;
  rows : list (list cell)
}.

(** The dtype that holds values of the two given dtypes: whole numbers go
    with floats as floats, and any other mix is kept as objects. *)
Definition common_type (a b : Dtype) : Dtype :=
  match a, b with
  | dtype_int64, dtype_int64 => dtype_int64
  | dtype_float64, dtype_float64
  | dtype_int64, dtype_float64
  | dtype_float64, dtype_int64 => dtype_float64
  | dtype_bool, dtype_bool => dtype_bool
  | _, _ => dtype_object
  end.

(** [find_common_type] of pandas over the dtypes of a table: the dtype of
    [df.values], hence of every row that [df.iterrows()] yields. *)
Definition find_common_type (dts : list Dtype) : Dtype :=
  match dts with
  | [] => dtype_object
  | dt :: rest => fold_left common_type rest dt
  end.

(** [len(df)] *)
Definition df_len (df : DataFrame) : Z := Z.of_nat (length (rows df)).

(** [df.empty]: one of the two axes has length zero. *)
Definition df_empty (df : DataFrame) : bool :=
  match columns df, rows df with
  | [], _ | _, [] => true
  | _, _ => false
  end.

(** [column in df.columns] *)
Definition has_column (df : DataFrame) (column : string) : bool :=
  bool_decide (column ∈ columns df).

Fixpoint column_position (column : string) (cols : list string) : option nat :=
  match cols with
  | [] => None
  | c :: cols' =>
      if String.eqb c column then Some O
      else option_map S (column_position column cols')
  end.

(** [row[column]] for a row of [df]. *)
Definition row_get (df : DataFrame) (row : list cell) (column : string) : cell :=
  match column_position column (columns df) with
  | Some i => default None (row !! i)
  | None => None
  end.

(** [df[column]] *)
Definition df_column (df : DataFrame) (column : string) : list cell :=
  map (fun row => row_get df row column) (rows df).

(** [series[mask]] *)
Fixpoint select {A : Type} (mask : list bool) (xs : list A) : list A :=
  match mask, xs with
  | true :: mask', x :: xs' => x :: select mask' xs'
  | false :: mask', _ :: xs' => select mask' xs'
  | _, _ => []
  end.

(** [series.dropna()] *)
Definition dropna {A : Type} (xs : list (option A)) : list A := omap id xs.

(** [series.fillna("").astype(str)] on one cell. *)
Definition fillna_str (c : cell) : string := default EmptyString c.

(** [pd.notna(c)] *)
Definition notna {A : Type} (c : option A) : bool :=
  match c with Some _ => true | None => false end.

(** [int(mask.sum())] *)
Definition mask_sum (mask : list bool) : Z :=
  Z.of_nat (length (filter (fun b => b = true) mask)).

(** [mask.any()] *)
Definition mask_any (mask : list bool) : bool := existsb id mask.

(** [mask |= other] *)
Definition mask_or (mask other : list bool) : list bool := zip_with orb mask other.

(** ** Column matcher *)

(** The compiled pattern: [re.escape] turns every keyword into a literal,
    so the pattern is the case-insensitive alternation of the keywords. *)
Record Pattern : Type := mkPattern { alternatives : list string }.

(** [sorted(s)] for a set of strings. *)
Definition py_sorted (s : gset string) : list string :=
  merge_sort String.le (elements s).

Definition compile_failure_pattern (keywords_tuple : list string) : Pattern :=
  mkPattern keywords_tuple.

(** [pattern.search(text) is not None].  The alternation of no keyword at
    all is the empty pattern, which matches at index 0 of every text. *)
Definition pattern_search (pattern : Pattern) (text : string) : bool :=
  match alternatives pattern with
  | [] => true
  | alts => existsb (fun k => Py.contains (Py.lower text) (Py.lower k)) alts
  end.

(** [values.str.contains(pattern, na=False)] *)
Definition str_contains (pattern : Pattern) (values : list string) : list bool :=
  map (pattern_search pattern) values.

(** One round of the loop over [status_columns]. *)
Definition build_failure_mask_step (df : DataFrame) (compiled_pattern : Pattern)
    (st : list bool * list string) (column : string) : list bool * list string :=
  let '(mask, inspected_columns) := st in
  if has_column df column then
    let column_values := map fillna_str (df_column df column) in
    (mask_or mask (str_contains compiled_pattern column_values),
     inspected_columns ++ [column])
  else st.

Definition build_failure_mask (df : DataFrame) (keywords status_columns : list string)
    : list bool * list string * Pattern :=
  if df_empty df then
    ([], [], compile_failure_pattern (py_sorted (list_to_set keywords)))
  else
    let mask := map (fun _ => false) (rows df) in
    let compiled_pattern := compile_failure_pattern (py_sorted (list_to_set keywords)) in
    let '(mask, inspected_columns) :=
      fold_left (build_failure_mask_step df compiled_pattern) status_columns (mask, []) in
    let row_text := map (fun row => Py.join " " (map fillna_str row)) (rows df) in
    (mask_or mask (str_contains compiled_pattern row_text), inspected_columns, compiled_pattern).

(** ** Identifier extractor *)

Definition IDENTIFIER_COLUMNS : list string := ["OrderId"; "Order Number"; "Document Id"].
Definition SIGNATURE_COLUMN : string := "Signed By Physician Date".
Definition SENT_TO_PHYSICIAN_COLUMN : string := "Sent To Physician Date".

Fixpoint extract_order_identifiers_loop (df : DataFrame) (candidates : list string)
    : gset string :=
  match candidates with
  | [] => ∅
  | column :: rest =>
      if has_column df column
      then list_to_set (map Py.strip (dropna (df_column df column)))
      else extract_order_identifiers_loop df rest
  end.

Definition extract_order_identifiers (df : DataFrame) : gset string :=
  extract_order_identifiers_loop df IDENTIFIER_COLUMNS.

(** ** SLA calculator and statistics *)

Record SlaMetrics : Type := mkSlaMetrics {
  average_days_to_sign : option float;
  max_days_to_sign : option Z;
  min_days_to_sign : option Z;
  pending_overdue_count : option Z
}.

(** The dict returned by [calculate_stats].  The key [failure_details] is
    an [option]: the return path for a table without rows leaves it out. *)
Record FileStats : Type := mkFileStats {
  total_rows : Z;
  success_rate : string;
  failure_rate : string;
  signed_count : Z;
  unsigned_count : Z;
  failure_count : Z;
  success_count : Z;
  unique_failure_reasons : list string;
  failure_reason_counts : gmap string Z;
  failure_details : option (gmap string (list string));
  inspected_status_columns : list string;
  sla_metrics : SlaMetrics
}.

Record AgencyConfig : Type := mkAgencyConfig {
  failure_keywords : list string;
  status_columns : list string
}.

Definition DEFAULT_FAILURE_KEYWORDS : list string :=
  ["not valid"; "failed"; "error"; "mandatory"; "missing"].

Definition DEFAULT_STATUS_COLUMNS : list string :=
  [ "Remarks";
    "Sent To Physician Status";
    "WAV Document Upload Status";
    "Signed By Physician Status";
    "Uploaded Signed Order Status";
    "Order Upload Status" ].

(** [AGENCY_CONFIG.get(key)] *)
Definition AGENCY_CONFIG (key : string) : option AgencyConfig :=
  if String.eqb key "axxess" then
    Some (mkAgencyConfig (DEFAULT_FAILURE_KEYWORDS ++ ["no patient"; "non da"])
                         DEFAULT_STATUS_COLUMNS)
  else if String.eqb key "kinnser" then
    Some (mkAgencyConfig DEFAULT_FAILURE_KEYWORDS
                         (DEFAULT_STATUS_COLUMNS ++ ["Order Upload Status"]))
  else None.

Definition resolve_agency_config (agency : string) : AgencyConfig :=
  match AGENCY_CONFIG (Py.lower agency) with
  | Some config => config
  | None => mkAgencyConfig DEFAULT_FAILURE_KEYWORDS DEFAULT_STATUS_COLUMNS
  end.

(** Nanoseconds in a day: instants are counted in nanoseconds, the
    resolution of a pandas timestamp. *)
Definition NS_PER_DAY : Z := 86400 * 1000000000.

(** [(a - b).days]: whole days of a time difference, rounded down;
    missing as soon as one side is. *)
Definition timedelta_days (a b : option Z) : option Z :=
  match a, b with
  | Some x, Some y => Some ((x - y) / NS_PER_DAY)
  | _, _ => None
  end.

(** [series.max()] and [series.min()] of a series of whole numbers. *)
Definition series_max (xs : list Z) : Z :=
  match xs with [] => 0 | x :: xs' => fold_left Z.max xs' x end.
Definition series_min (xs : list Z) : Z :=
  match xs with [] => 0 | x :: xs' => fold_left Z.min xs' x end.

(** [combined.unique().tolist()] and [list(dict.fromkeys(xs))]: first
    occurrences, in order. *)
Fixpoint unique_from (seen xs : list string) : list string :=
  match xs with
  | [] => []
  | x :: xs' =>
      if bool_decide (x ∈ seen) then unique_from seen xs'
      else x :: unique_from (x :: seen) xs'
  end.
Definition unique (xs : list string) : list string := unique_from [] xs.

(** [combined.value_counts().to_dict()] *)
Definition value_counts (xs : list string) : gmap string Z :=
  fold_left (fun counts x => <[x := default 0 (counts !! x) + 1]> counts) xs ∅.

(** [failure_details[reason].append(identifier)] on a [defaultdict(list)]. *)
Definition details_append (details : gmap string (list string))
    (reason identifier : string) : gmap string (list string) :=
  <[reason := default [] (details !! reason) ++ [identifier]]> details.

(** [str(n)] for a whole number. *)
Definition str_of_Z (n : Z) : string := NilZero.string_of_int (Z.to_int n).

(** [float(n)] for a row count. *)
Definition float_of_Z (n : Z) : float := PrimFloat.of_uint63 (Uint63.of_Z n).

(** [str(c).strip() if pd.notna(c) else ""] *)
Definition cell_text (c : cell) : string :=
  match c with Some s => Py.strip s | None => EmptyString end.

(** [df.loc[failure_mask, column].dropna().astype(str).str.strip()] with
    the empty strings removed. *)
Definition failing_values (df : DataFrame) (failure_mask : list bool) (column : string)
    : list string :=
  List.filter (fun v => negb (Py.is_empty v))
    (map Py.strip (dropna (select failure_mask (df_column df column)))).

(** One round of the frequency pass over [inspected_columns]. *)
Definition collect_column (df : DataFrame) (failure_mask : list bool) (pattern : Pattern)
    (collected_series : list (list string)) (column : string) : list (list string) :=
  if (String.eqb column "Remarks" || negb (has_column df column))%bool then collected_series
  else
    let column_values := failing_values df failure_mask column in
    match column_values with
    | [] => collected_series
    | _ =>
        let column_values := List.filter (pattern_search pattern) column_values in
        match column_values with
        | [] => collected_series
        | _ => collected_series ++ [column_values]
        end
    end.

(** The frequency pass: the list of collected series. *)
Definition collect_series (df : DataFrame) (failure_mask : list bool)
    (inspected_columns : list string) (pattern : Pattern) : list (list string) :=
  let collected_series :=
    if has_column df "Remarks" then
      match failing_values df failure_mask "Remarks" with
      | [] => []
      | remarks => [remarks]
      end
    else [] in
  fold_left (collect_column df failure_mask pattern) inspected_columns collected_series.

(** The identifier of a failing row: the first usable identifier column,
    else the spreadsheet row number. *)
Fixpoint row_identifier_loop (df : DataFrame) (row : list cell) (candidates : list string)
    (identifier : string) : string :=
  match candidates with
  | [] => identifier
  | col :: rest =>
      if (has_column df col && notna (row_get df row col))%bool then
        let val := cell_text (row_get df row col) in
        if negb (Py.is_empty val) then val
        else row_identifier_loop df row rest identifier
      else row_identifier_loop df row rest identifier
  end.

Definition row_identifier (df : DataFrame) (idx : Z) (row : list cell) : string :=
  row_identifier_loop df row IDENTIFIER_COLUMNS ("Row " +:+ str_of_Z (idx + 2)).

(** One round of the inner loop of the detail pass. *)
Definition detail_column (df : DataFrame) (pattern : Pattern) (row : list cell)
    (identifier : string) (details : gmap string (list string)) (column : string)
    : gmap string (list string) :=
  if (String.eqb column "Remarks" || negb (has_column df column))%bool then details
  else
    let val := cell_text (row_get df row column) in
    if (negb (Py.is_empty val) && pattern_search pattern val)%bool
    then details_append details val identifier
    else details.

(** The body of the detail pass for one failing row. *)
Definition detail_row (df : DataFrame) (inspected_columns : list string) (pattern : Pattern)
    (details : gmap string (list string)) (ir : Z * list cell) : gmap string (list string) :=
  let '(idx, row) := ir in
  let identifier := row_identifier df idx row in
  let details :=
    if has_column df "Remarks" then
      let remark := cell_text (row_get df row "Remarks") in
      if negb (Py.is_empty remark) then details_append details remark identifier
      else details
    else details in
  fold_left (detail_column df pattern row identifier) inspected_columns details.

(** The whole number that a text writes in decimal digits, with a minus
    sign for a negative one. *)
Definition digit_value (c : ascii) : option Z :=
  let n := nat_of_ascii c in
  if ((48 <=? n)%nat && (n <=? 57)%nat)%bool then Some (Z.of_nat n - 48) else None.

Fixpoint digits_value (acc : Z) (s : string) : option Z :=
  match s with
  | EmptyString => Some acc
  | String c s' =>
      match digit_value c with
      | Some d => digits_value (10 * acc + d) s'
      | None => None
      end
  end.

Definition whole_number (s : string) : option Z :=
  match s with
  | EmptyString => None
  | String c s' =>
      if Ascii.eqb c "-"
      then (if Py.is_empty s' then None else option_map Z.opp (digits_value 0 s'))
      else digits_value 0 s
  end.

(** [float(n)] for a whole number [0 <= n]: the nearest number with 53
    significant bits, the even one of two that are equally near. *)
Definition float_of_whole (n : Z) : Z :=
  let bits := Z.log2 n + 1 in
  if bits <=? 53 then n
  else
    let e := bits - 53 in
    let q := Z.shiftr n e in
    let r := n - Z.shiftl q e in
    let half := Z.shiftl 1 (e - 1) in
    let q' := if ((half <? r) || ((r =? half) && Z.odd q))%bool then q + 1 else q in
    Z.shiftl q' e.

(** Whether the decimal number [c] reads back as the float [x], for a
    float [x] of at least [2 ^ 53]: [c] lies between the midpoints to the
    neighbours of [x], the midpoints included when the significand of [x]
    is even. *)
Definition round_trips (x c : Z) : bool :=
  let e := Z.log2 x + 1 - 53 in
  let m := Z.shiftr x e in
  let high := x + Z.shiftl 1 (e - 1) in
  let low :=
    if m =? Z.shiftl 1 52 then x - Z.shiftl 1 (e - 2) else x - Z.shiftl 1 (e - 1) in
  if Z.even m then ((low <=? c) && (c <=? high))%bool else ((low <? c) && (c <? high))%bool.

(** The number with the fewest significant digits that reads back as [x],
    the nearest to [x] if there are two: [p] is the weight of the last
    digit that is tried. *)
Fixpoint shortest_from (x p : Z) (fuel : nat) : Z :=
  match fuel with
  | O => x
  | S fuel' =>
      let lo := (x / p) * p in
      let hi := lo + p in
      match round_trips x lo, round_trips x hi with
      | true, true => if (x - lo) <=? (hi - x) then lo else hi
      | true, false => lo
      | false, true => hi
      | false, false => shortest_from x (p / 10) fuel'
      end
  end.

Fixpoint strip_zeros (c : Z) (fuel : nat) : Z :=
  match fuel with
  | O => c
  | S fuel' => if c mod 10 =? 0 then strip_zeros (c / 10) fuel' else c
  end.

(** [str(numpy.float64(n))] for a whole number [0 <= n] of an [int64]
    column: the digits of the float and [".0"] below [10 ^ 16], the
    shortest digits that read back as the float and an exponent from there
    on. *)
Definition float64_text_abs (n : Z) : string :=
  let x := float_of_whole n in
  if x <? 10 ^ 16 then str_of_Z x +:+ ".0"
  else
    let c := shortest_from x (10 ^ (Z.of_nat (String.length (str_of_Z x)) - 1)) 20 in
    let exponent := str_of_Z (Z.of_nat (String.length (str_of_Z c)) - 1) in
    match str_of_Z (strip_zeros c 20) with
    | EmptyString => EmptyString
    | String d EmptyString => String d EmptyString +:+ "e+" +:+ exponent
    | String d rest => String d EmptyString +:+ "." +:+ rest +:+ "e+" +:+ exponent
    end.

Definition float64_text (n : Z) : string :=
  if n <? 0 then "-" +:+ float64_text_abs (- n) else float64_text_abs n.

(** The cell of a column of dtype [dt] as a row of dtype [row_dtype] holds
    it: in a row of floats the whole number of an [int64] column has
    become a float, and prints as one. *)
Definition row_cell (row_dtype dt : Dtype) (c : cell) : cell :=
  match row_dtype, dt with
  | dtype_float64, dtype_int64 =>
      option_map (fun s => match whole_number s with
                           | Some n => float64_text n
                           | None => s
                           end) c
  | _, _ => c
  end.

(** A row of [df] as [df.iterrows()] yields it: a series of the common
    dtype of the columns. *)
Definition row_values (df : DataFrame) (row : list cell) : list cell :=
  imap (fun j c => row_cell (find_common_type (dtypes df))
                            (default dtype_object (dtypes df !! j)) c) row.

(** [df.iterrows()]: the rows with their index labels. *)
Definition iterrows (df : DataFrame) : list (Z * list cell) :=
  imap (fun i row => (Z.of_nat i, row_values df row)) (rows df).

(** Whether the rows that [df.iterrows()] yields hold the whole numbers of
    an [int64] column as floats: the columns are all numeric and some, but
    not all, are of dtype [float64]. *)
Definition upcasts_rows (df : DataFrame) : bool :=
  match find_common_type (dtypes df) with
  | dtype_float64 =>
      existsb (fun dt => match dt with dtype_int64 => true | _ => false end) (dtypes df)
  | _ => false
  end.

(** The detail pass over [df[failure_mask]]. *)
Definition collect_details (df : DataFrame) (failure_mask : list bool)
    (inspected_columns : list string) (pattern : Pattern) : gmap string (list string) :=
  fold_left (detail_row df inspected_columns pattern)
    (select failure_mask (iterrows df)) ∅.

Section Engine.

(** The values of [pd.to_datetime(series, errors="coerce")]: one instant
    per cell, in nanoseconds since the epoch, [None] (NaT) where the cell
    is missing or does not parse. *)
Variable to_datetime : list cell -> list (option Z).

(** [settings.pending_overdue_threshold_days] *)
Variable PENDING_OVERDUE_THRESHOLD_DAYS : Z.

(** [round(latency.mean(), 2)] *)
Variable mean_round2 : list Z -> float.

(** The formatting [f"{rate:.1f}%"] of a rate. *)
Variable format_rate : float -> string.

(** The metrics that [compute_sla_metrics(df)] returns, run when
    [datetime.utcnow()] reads [now].  ([Exn.compute_sla_metrics] below
    tells when it returns.) *)
Definition compute_sla_metrics (now : Z) (df : DataFrame) : SlaMetrics :=
  if (negb (has_column df SIGNATURE_COLUMN)
      || negb (has_column df SENT_TO_PHYSICIAN_COLUMN))%bool
  then mkSlaMetrics None None None None
  else
    let sent_dates := to_datetime (df_column df SENT_TO_PHYSICIAN_COLUMN) in
    let signed_dates := to_datetime (df_column df SIGNATURE_COLUMN) in
    let latency := dropna (zip_with timedelta_days signed_dates sent_dates) in
    let pending_mask :=
      zip_with (fun sg st => (negb (notna sg) && notna st)%bool) signed_dates sent_dates in
    let pending_overdue_count :=
      if mask_any pending_mask then
        let pending_days :=
          map (timedelta_days (Some now)) (select pending_mask sent_dates) in
        mask_sum (map (fun d => match d with
                                | Some days => PENDING_OVERDUE_THRESHOLD_DAYS <? days
                                | None => false
                                end) pending_days)
      else 0 in
    match latency with
    | [] => mkSlaMetrics None None None (Some pending_overdue_count)
    | _ => mkSlaMetrics (Some (mean_round2 latency))
                        (Some (series_max latency))
                        (Some (series_min latency))
                        (Some pending_overdue_count)
    end.

(** The record that [calculate_stats(df, agency_config)] returns, run
    when the clock reads [now]. *)
Definition calculate_stats (now : Z) (df : DataFrame) (agency_config : AgencyConfig)
    : FileStats :=
  let total_rows := df_len df in
  if total_rows =? 0 then
    {| total_rows := 0;
       success_rate := "0.0%";
       failure_rate := "0.0%";
       signed_count := 0;
       unsigned_count := 0;
       failure_count := 0;
       success_count := 0;
       unique_failure_reasons := [];
       failure_reason_counts := ∅;
       failure_details := None;
       inspected_status_columns := [];
       sla_metrics := compute_sla_metrics now df |}
  else
    let '(failure_mask, inspected_columns, pattern) :=
      build_failure_mask df (failure_keywords agency_config) (status_columns agency_config) in
    let failure_count := mask_sum failure_mask in
    let success_count := total_rows - failure_count in
    let signed_count :=
      if has_column df SIGNATURE_COLUMN
      then mask_sum (map notna (to_datetime (df_column df SIGNATURE_COLUMN)))
      else 0 in
    let unsigned_count := total_rows - signed_count in
    let success_rate :=
      PrimFloat.mul (PrimFloat.div (float_of_Z success_count) (float_of_Z total_rows))
                    (float_of_Z 100) in
    let failure_rate := PrimFloat.sub (float_of_Z 100) success_rate in
    let collected_series :=
      if negb (failure_count =? 0)
      then collect_series df failure_mask inspected_columns pattern
      else [] in
    let combined := concat collected_series in
    let unique_failure_reasons :=
      match collected_series with [] => [] | _ => unique combined end in
    let failure_reason_counts :=
      match collected_series with [] => ∅ | _ => value_counts combined end in
    let failure_details :=
      if negb (failure_count =? 0)
      then collect_details df failure_mask inspected_columns pattern
      else ∅ in
    {| total_rows := total_rows;
       success_rate := format_rate success_rate;
       failure_rate := format_rate failure_rate;
       signed_count := signed_count;
       unsigned_count := unsigned_count;
       failure_count := failure_count;
       success_count := success_count;
       unique_failure_reasons := unique_failure_reasons;
       failure_reason_counts := failure_reason_counts;
       failure_details := Some failure_details;
       inspected_status_columns := inspected_columns;
       sla_metrics := compute_sla_metrics now df |}.

End Engine.

(** ** The exceptions of the SLA calculator *)

Module Exn.

(** The exception that the engine can run into on a table. *)
Inductive Exception : Type := TypeError.

(** What a call comes to: a returned value or a raised exception. *)
Inductive Outcome (A : Type) : Type :=
  | Returns (value : A)
  | Raises (exn : Exception).

Arguments Returns {A} value.
Arguments Raises {A} exn.

(** A raised exception ends the run of the steps that follow. *)
#[global] Instance Outcome_bind : MBind Outcome :=
  fun (A B : Type) (f : A -> Outcome B) (m : Outcome A) =>
    match m with
    | Returns value => f value
    | Raises exn => Raises exn
    end.

(** The series that [pd.to_datetime(series, errors="coerce")] returns: its
    dtype is [datetime64[ns]] or, when the texts carry a UTC offset,
    [datetime64[ns, tz]]; its values are instants in nanoseconds since the
    epoch, [None] (NaT) where the cell is missing or does not parse.  (A
    column whose texts carry different offsets is not parsed to a series
    of either dtype, and is left out.) *)
Record DatetimeSeries : Type := mkDatetimeSeries {
  tz_aware : bool;
  stamps : list (option Z)
}.

(** [(a - b).dt.days]: pandas refuses to subtract a tz-aware series and a
    tz-naive one, whatever they hold. *)
Definition sub_days (a b : DatetimeSeries) : Outcome (list (option Z)) :=
  if Bool.eqb (tz_aware a) (tz_aware b)
  then Returns (zip_with timedelta_days (stamps a) (stamps b))
  else Raises TypeError.

(** [(datetime.utcnow() - s).dt.days]: the instant that
    [datetime.utcnow()] returns is tz-naive. *)
Definition utcnow_sub_days (now : Z) (s : DatetimeSeries) : Outcome (list (option Z)) :=
  if tz_aware s then Raises TypeError
  else Returns (map (timedelta_days (Some now)) (stamps s)).

(** [s[mask]] *)
Definition series_select (mask : list bool) (s : DatetimeSeries) : DatetimeSeries :=
  mkDatetimeSeries (tz_aware s) (select mask (stamps s)).

Section Engine.

Variable to_datetime : list cell -> DatetimeSeries.
Variable PENDING_OVERDUE_THRESHOLD_DAYS : Z.
Variable mean_round2 : list Z -> float.
Variable format_rate : float -> string.

(** [compute_sla_metrics(df)], run when [datetime.utcnow()] reads [now],
    with the exceptions of its two subtractions. *)
Definition compute_sla_metrics (now : Z) (df : DataFrame) : Outcome SlaMetrics :=
  if (negb (has_column df SIGNATURE_COLUMN)
      || negb (has_column df SENT_TO_PHYSICIAN_COLUMN))%bool
  then Returns (mkSlaMetrics None None None None)
  else
    let sent_dates := to_datetime (df_column df SENT_TO_PHYSICIAN_COLUMN) in
    let signed_dates := to_datetime (df_column df SIGNATURE_COLUMN) in
    days ← sub_days signed_dates sent_dates;
    let latency := dropna days in
    let pending_mask :=
      zip_with (fun sg st => (negb (notna sg) && notna st)%bool)
               (stamps signed_dates) (stamps sent_dates) in
    pending_overdue_count ←
      (if mask_any pending_mask then
         pending_days ← utcnow_sub_days now (series_select pending_mask sent_dates);
         Returns (mask_sum (map (fun d => match d with
                                          | Some days => PENDING_OVERDUE_THRESHOLD_DAYS <? days
                                          | None => false
                                          end) pending_days))
       else Returns 0);
    match latency with
    | [] => Returns (mkSlaMetrics None None None (Some pending_overdue_count))
    | _ => Returns (mkSlaMetrics (Some (mean_round2 latency))
                                 (Some (series_max latency))
                                 (Some (series_min latency))
                                 (Some pending_overdue_count))
    end.

(** [calculate_stats(df, agency_config)] with its exceptions: the call of
    [compute_sla_metrics] is the one step of it that can raise, and the
    record is otherwise the one that [calculate_stats] above describes. *)
Definition calculate_stats (now : Z) (df : DataFrame) (agency_config : AgencyConfig)
    : Outcome FileStats :=
  _ ← compute_sla_metrics now df;
  Returns (calculate_stats (fun col => stamps (to_datetime col))
             PENDING_OVERDUE_THRESHOLD_DAYS mean_round2 format_rate now df agency_config).

End Engine.

End Exn.

(** ** Pairing and reconciliation *)

(** The dict built by [analyze_file]. *)
Record FileAnalysis : Type := mkFileAnalysis {
  agency : string;
  ehr : string;
  file_name : string;
  template_type : string;
  pair_key : string;
  stats : FileStats;
  fa_unique_failure_reasons : list string;
  fa_failure_reason_counts : gmap string Z;
  order_ids : gset string
}.

Record CombinedSummary : Type := mkCombinedSummary {
  documents_processed_signed : Z;
  documents_processed_unsigned : Z;
  failure_rate_unsigned : option string;
  failure_rate_signed : option string;
  success_rate_unsigned : option string;
  success_rate_signed : option string;
  pending_signature_orders : list string;
  signed_without_unsigned_source : list string;
  dominant_failure_reasons : list string
}.

Record PairResult : Type := mkPairResult {
  pr_pair_key : string;
  pr_agency : string;
  pr_signed : option FileAnalysis;
  pr_unsigned : option FileAnalysis;
  combined_summary : CombinedSummary
}.

(** [_coerce_order_ids(entry.get("order_ids")) if entry else set()]: the
    identifiers are strings already, so [str(item)] leaves them as they
    are, and a missing entry or an empty set gives the empty set. *)
Definition coerce_order_ids (entry : option FileAnalysis) : gset string :=
  match entry with
  | Some e => order_ids e
  | None => ∅
  end.

Definition summarize_pair_entries (signed unsigned : option FileAnalysis) : CombinedSummary :=
  let signed_stats := option_map stats signed in
  let unsigned_stats := option_map stats unsigned in
  let signed_ids := coerce_order_ids signed in
  let unsigned_ids := coerce_order_ids unsigned in
  let combined_failures :=
    match unsigned with Some u => fa_unique_failure_reasons u | None => [] end
    ++ match signed with Some s => fa_unique_failure_reasons s | None => [] end in
  {| documents_processed_signed :=
       match signed_stats with Some st => total_rows st | None => 0 end;
     documents_processed_unsigned :=
       match unsigned_stats with Some st => total_rows st | None => 0 end;
     failure_rate_unsigned := option_map failure_rate unsigned_stats;
     failure_rate_signed := option_map failure_rate signed_stats;
     success_rate_unsigned := option_map success_rate unsigned_stats;
     success_rate_signed := option_map success_rate signed_stats;
     pending_signature_orders := py_sorted (unsigned_ids ∖ signed_ids);
     signed_without_unsigned_source := py_sorted (signed_ids ∖ unsigned_ids);
     dominant_failure_reasons := firstn 5 (unique combined_failures) |}.

(** The two slots of a bucket of [pair_map]. *)
Record PairSlots : Type := mkPairSlots {
  slot_signed : option FileAnalysis;
  slot_unsigned : option FileAnalysis
}.

(** One round of the bucketing loop of [build_pair_results]. *)
Definition pair_step (st : gmap (string * string) PairSlots * list (string * string))
    (entry : FileAnalysis) : gmap (string * string) PairSlots * list (string * string) :=
  let '(pair_map, ordered_keys) := st in
  let pair_key := Py.str_or (pair_key entry) (derive_pair_key (file_name entry)) in
  let composite_key := (agency entry, pair_key) in
  let '(pair_map, ordered_keys) :=
    match pair_map !! composite_key with
    | None => (<[composite_key := mkPairSlots None None]> pair_map,
               ordered_keys ++ [composite_key])
    | Some _ => (pair_map, ordered_keys)
    end in
  let template_type := Py.str_or (template_type entry) "mixed" in
  let slots := default (mkPairSlots None None) (pair_map !! composite_key) in
  let slots :=
    if String.eqb template_type "signed"
    then mkPairSlots (Some entry) (slot_unsigned slots)
    else mkPairSlots (slot_signed slots) (Some entry) in
  (<[composite_key := slots]> pair_map, ordered_keys).

(** One round of the second loop of [build_pair_results]. *)
Definition pair_emit (pair_map : gmap (string * string) PairSlots)
    (composite_key : string * string) : list PairResult :=
  let payload := default (mkPairSlots None None) (pair_map !! composite_key) in
  let signed_entry := slot_signed payload in
  let unsigned_entry := slot_unsigned payload in
  match signed_entry, unsigned_entry with
  | None, None => []
  | _, _ =>
      [ {| pr_pair_key := snd composite_key;
           pr_agency := fst composite_key;
           pr_signed := signed_entry;
           pr_unsigned := unsigned_entry;
           combined_summary := summarize_pair_entries signed_entry unsigned_entry |} ]
  end.

Definition build_pair_results (results : list FileAnalysis) : list PairResult :=
  let '(pair_map, ordered_keys) := fold_left pair_step results (∅, []) in
  concat (map (pair_emit pair_map) ordered_keys).

Record ReconciliationEntry : Type := mkReconciliationEntry {
  re_agency : string;
  unsigned_total : Z;
  signed_total : Z;
  re_pending_signature_orders : list string;
  re_signed_without_unsigned_source : list string
}.

(** The value of a bucket of [grouped]: the signed and the unsigned set. *)
Record Grouped : Type := mkGrouped {
  g_signed : gset string;
  g_unsigned : gset string
}.

(** [grouped[agency] = f(grouped[agency])] on the [defaultdict], kept as
    an association list in insertion order: a new agency goes last. *)
Fixpoint grouped_update (f : Grouped -> Grouped) (agency : string)
    (grouped : list (string * Grouped)) : list (string * Grouped) :=
  match grouped with
  | [] => [(agency, f (mkGrouped ∅ ∅))]
  | (a, payload) :: rest =>
      if String.eqb a agency then (a, f payload) :: rest
      else (a, payload) :: grouped_update f agency rest
  end.

(** One round of the grouping loop of [build_reconciliation_summary]. *)
Definition reconcile_step (grouped : list (string * Grouped)) (entry : FileAnalysis)
    : list (string * Grouped) :=
  if String.eqb (template_type entry) "signed" then
    grouped_update
      (fun g => mkGrouped (g_signed g ∪ order_ids entry) (g_unsigned g))
      (agency entry) grouped
  else if String.eqb (template_type entry) "unsigned" then
    grouped_update
      (fun g => mkGrouped (g_signed g) (g_unsigned g ∪ order_ids entry))
      (agency entry) grouped
  else grouped.

Definition reconcile_emit (item : string * Grouped) : ReconciliationEntry :=
  let '(agency, payload) := item in
  {| re_agency := agency;
     unsigned_total := Z.of_nat (size (g_unsigned payload));
     signed_total := Z.of_nat (size (g_signed payload));
     re_pending_signature_orders := py_sorted (g_unsigned payload ∖ g_signed payload);
     re_signed_without_unsigned_source := py_sorted (g_signed payload ∖ g_unsigned payload) |}.

Definition build_reconciliation_summary (results : list FileAnalysis)
    : list ReconciliationEntry :=
  match results with
  | [] => []
  | _ => map reconcile_emit (fold_left reconcile_step results [])
  end.

(** ** Stand-ins for the library functions, used in the worked examples *)

(** Days from the epoch to a day of the Gregorian calendar. *)
Definition days_from_civil (y m d : Z) : Z :=
  let y' := if m <=? 2 then y - 1 else y in
  let era := y' / 400 in
  let yoe := y' - era * 400 in
  let mp := (m + 9) mod 12 in
  let doy := (153 * mp + 2) / 5 + d - 1 in
  let doe := yoe * 365 + yoe / 4 - yoe / 100 + doy in
  era * 146097 + doe - 719468.

(** The instant [datetime(y, m, d)], in nanoseconds since the epoch. *)
Definition midnight (y m d : Z) : Z := days_from_civil y m d * NS_PER_DAY.

Definition days_in_month (y m : Z) : Z :=
  if m =? 2 then
    (if (((y mod 4 =? 0) && negb (y mod 100 =? 0)) || (y mod 400 =? 0))%bool then 29 else 28)
  else if ((m =? 4) || (m =? 6) || (m =? 9) || (m =? 11))%bool then 30
  else 31.

(** The number written by the [n] digits of [s] from index [i] on. *)
Definition number_at (s : string) (i n : nat) : option Z :=
  let t := Py.take n (Py.drop i s) in
  if Nat.eqb (String.length t) n then digits_value 0 t else None.

Definition char_is (s : string) (i : nat) (c : ascii) : bool :=
  String.eqb (Py.take 1 (Py.drop i s)) (String c EmptyString).

(** A pandas timestamp counts nanoseconds in 64 bits. *)
Definition in_timestamp_bounds (ns : Z) : option Z :=
  if ((- 2 ^ 63 <? ns) && (ns <? 2 ^ 63))%bool then Some ns else None.

(** The instant of a text of the form [YYYY-MM-DD]. *)
Definition parse_date (s : string) : option Z :=
  if (Nat.eqb (String.length s) 10 && char_is s 4 "-" && char_is s 7 "-")%bool then
    match number_at s 0 4, number_at s 5 2, number_at s 8 2 with
    | Some y, Some m, Some d =>
        if ((1 <=? m) && (m <=? 12) && (1 <=? d) && (d <=? days_in_month y m))%bool
        then in_timestamp_bounds (midnight y m d)
        else None
    | _, _, _ => None
    end
  else None.

(** The instant of a text of the form [YYYY-MM-DDTHH:MM:SSZ]. *)
Definition parse_instant (s : string) : option Z :=
  if (Nat.eqb (String.length s) 20 && char_is s 10 "T" && char_is s 13 ":"
      && char_is s 16 ":" && char_is s 19 "Z")%bool then
    match parse_date (Py.take 10 s), number_at s 11 2, number_at s 14 2, number_at s 17 2 with
    | Some day, Some h, Some mi, Some sec =>
        if ((h <? 24) && (mi <? 60) && (sec <? 60))%bool
        then in_timestamp_bounds (day + ((h * 60 + mi) * 60 + sec) * 1000000000)
        else None
    | _, _, _, _ => None
    end
  else None.

(** The format that pandas infers for a column of texts, from its first
    cell that is not missing. *)
Inductive DateFormat : Type := format_date | format_instant.

Fixpoint guess_format (col : list cell) : option DateFormat :=
  match col with
  | [] => None
  | None :: col' => guess_format col'
  | Some s :: _ =>
      if notna (parse_date s) then Some format_date
      else if notna (parse_instant s) then Some format_instant
      else None
  end.

(** [pd.to_datetime(series, errors="coerce")] on the date columns of the
    worked examples: columns of texts whose first cell that is not missing
    is a date [YYYY-MM-DD] or a UTC instant [YYYY-MM-DDTHH:MM:SSZ], and
    columns that hold no date at all.  The first such cell sets the format
    of the column; a text that is not in that format, and a missing cell,
    give NaT.  Instants with the suffix [Z] make a tz-aware series. *)
Definition sample_to_datetime_tz (col : list cell) : Exn.DatetimeSeries :=
  match guess_format col with
  | Some format_date =>
      Exn.mkDatetimeSeries false (map (fun c : cell => c ≫= parse_date) col)
  | Some format_instant =>
      Exn.mkDatetimeSeries true (map (fun c : cell => c ≫= parse_instant) col)
  | None => Exn.mkDatetimeSeries false (map (fun _ => None) col)
  end.

(** The instants of the parsed column. *)
Definition sample_to_datetime (col : list cell) : list (option Z) :=
  Exn.stamps (sample_to_datetime_tz col).

(** The mean of the latencies, left unrounded. *)
Definition sample_mean_round2 (xs : list Z) : float :=
  PrimFloat.div (float_of_Z (fold_left Z.add xs 0)) (float_of_Z (Z.of_nat (length xs))).

(** A rate shown as its whole part only, for rates from 0 to 100. *)
Definition sample_format_rate (x : float) : string :=
  let fix go (n : nat) (k : Z) : Z :=
    match n with
    | O => k
    | S n' => if PrimFloat.ltb x (float_of_Z (k + 1)) then k else go n' (k + 1)
    end in
  str_of_Z (go 100%nat 0) +:+ "%".

(** The configuration of an agency without rules of its own. *)
Definition sample_config : AgencyConfig := resolve_agency_config "Luna Vista".

(** A table of three orders: one sent on the first of March 2024 and
    signed three days later, one sent on the second of March and still
    unsigned, one with a failed upload. *)
Definition sample_table : DataFrame :=
  mkDataFrame
    ["OrderId"; "Remarks"; "Order Upload Status"; "Sent To Physician Date"; "Signed By Physician Date"]
    [dtype_object; dtype_object; dtype_object; dtype_object; dtype_object]
    [ [Some "A-1"; None; Some "Uploaded"; Some "2024-03-01"; Some "2024-03-04"];
      [Some "A-2"; None; Some "Uploaded"; Some "2024-03-02"; None];
      [Some "A-3"; Some "Patient missing"; Some "Upload failed"; Some "n/a"; None] ].

(** Two readings of the clock: two days and twenty-nine days after the
    unsigned order was sent. *)
Definition sample_now : Z := midnight 2024 3 4.
Definition sample_later : Z := midnight 2024 3 31.

(** The orders of an export that writes its dates as UTC instants: the
    first was signed, the second is still unsigned. *)
Definition utc_dates_table : DataFrame :=
  mkDataFrame ["OrderId"; "Sent To Physician Date"; "Signed By Physician Date"]
    [dtype_object; dtype_object; dtype_object]
    [ [Some "A-1"; Some "2024-03-01T09:00:00Z"; Some "2024-03-04T15:30:00Z"];
      [Some "A-2"; Some "2024-03-02T09:00:00Z"; None] ].

(** An export with UTC instants in which no order is signed yet: the
    signature column is empty. *)
Definition utc_unsigned_table : DataFrame :=
  mkDataFrame ["OrderId"; "Sent To Physician Date"; "Signed By Physician Date"]
    [dtype_object; dtype_object; dtype_float64]
    [ [Some "A-1"; Some "2024-03-01T09:00:00Z"; None];
      [Some "A-2"; Some "2024-03-02T09:00:00Z"; None] ].

(** The statistics with the one clock-dependent field blanked out. *)
Definition forget_pending_overdue (s : FileStats) : FileStats :=
  {| total_rows := total_rows s;
     success_rate := success_rate s;
     failure_rate := failure_rate s;
     signed_count := signed_count s;
     unsigned_count := unsigned_count s;
     failure_count := failure_count s;
     success_count := success_count s;
     unique_failure_reasons := unique_failure_reasons s;
     failure_reason_counts := failure_reason_counts s;
     failure_details := failure_details s;
     inspected_status_columns := inspected_status_columns s;
     sla_metrics :=
       {| average_days_to_sign := average_days_to_sign (sla_metrics s);
          max_days_to_sign := max_days_to_sign (sla_metrics s);
          min_days_to_sign := min_days_to_sign (sla_metrics s);
          pending_overdue_count := None |} |}.

(** A row that counts as overdue when the clock reads [now]: it has a
    sent date, no signed date, and more than [threshold] whole days have
    passed since it was sent. *)
Definition overdue (threshold now : Z) (dates : option Z * option Z) : bool :=
  match dates with
  | (None, Some sent) => threshold <? (now - sent) / NS_PER_DAY
  | _ => false
  end.

(** The rows of the two parsed date columns, side by side. *)
Definition date_pairs (to_datetime : list cell -> list (option Z)) (df : DataFrame)
    : list (option Z * option Z) :=
  zip (to_datetime (df_column df SIGNATURE_COLUMN))
      (to_datetime (df_column df SENT_TO_PHYSICIAN_COLUMN)).

(** A table with two identifier columns; the second order has only blanks
    in ["OrderId"], the third has nothing there. *)
Definition blank_identifier_table : DataFrame :=
  mkDataFrame ["OrderId"; "Order Number"] [dtype_object; dtype_object]
    [ [Some " 1001 "; Some "N-1"];
      [Some "   "; Some "N-2"];
      [None; Some "N-3"] ].

(** The bucket key of an analysis in [build_pair_results], and whether it
    goes to the signed slot. *)
Definition composite_key_of (entry : FileAnalysis) : string * string :=
  (agency entry, Py.str_or (pair_key entry) (derive_pair_key (file_name entry))).

Definition in_signed_slot (entry : FileAnalysis) : bool :=
  String.eqb (Py.str_or (template_type entry) "mixed") "signed".

(** An analysis with the given agency, template type and identifiers, of a
    file without rows. *)
Definition sample_analysis (agency file_name template_type : string) (ids : list string)
    : FileAnalysis :=
  {| agency := agency;
     ehr := "Unknown";
     file_name := file_name;
     template_type := template_type;
     pair_key := derive_pair_key file_name;
     stats := calculate_stats sample_to_datetime 5 sample_mean_round2 sample_format_rate sample_now
                (mkDataFrame [] [] []) sample_config;
     fa_unique_failure_reasons := [];
     fa_failure_reason_counts := ∅;
     order_ids := list_to_set ids |}.

(** What the bucketing loop keeps in the two slots of a key: analyses of
    the batch that belong to that key and to that slot. *)
Definition slots_from (results : list FileAnalysis)
    (pair_map : gmap (string * string) PairSlots) : Prop :=
  forall key slots, pair_map !! key = Some slots ->
    (forall s, slot_signed slots = Some s ->
       s ∈ results /\ composite_key_of s = key /\ in_signed_slot s = true)
    /\ (forall u, slot_unsigned slots = Some u ->
         u ∈ results /\ composite_key_of u = key /\ in_signed_slot u = false).

(** The identifiers of all the files of [results] with the given template
    type and agency. *)
Fixpoint ids_of (template agency_name : string) (results : list FileAnalysis) : gset string :=
  match results with
  | [] => ∅
  | entry :: rest =>
      (if (String.eqb (template_type entry) template
           && String.eqb (agency entry) agency_name)%bool
       then order_ids entry else ∅)
      ∪ ids_of template agency_name rest
  end.

(** The analyses that reconciliation looks at. *)
Definition reconciled (entry : FileAnalysis) : bool :=
  (String.eqb (template_type entry) "signed"
   || String.eqb (template_type entry) "unsigned")%bool.

(** [grouped[agency]] read without creating the bucket. *)
Fixpoint grouped_get (agency_name : string) (grouped : list (string * Grouped)) : Grouped :=
  match grouped with
  | [] => mkGrouped ∅ ∅
  | (a, payload) :: rest =>
      if String.eqb a agency_name then payload else grouped_get agency_name rest
  end.

(** The state of the grouping loop after the files [processed]. *)
Definition grouped_from (processed : list FileAnalysis) (grouped : list (string * Grouped))
    : Prop :=
  map fst grouped = unique (map agency (List.filter reconciled processed))
  /\ forall a, g_signed (grouped_get a grouped) = ids_of "signed" a processed
              /\ g_unsigned (grouped_get a grouped) = ids_of "unsigned" a processed.

(** The occurrences of the reason [v] in a list of reasons. *)
Definition hits (v : string) (reasons : list string) : list string :=
  List.filter (String.eqb v) reasons.

(** The matched values of one row: its remark when there is one, then, for
    every inspected column other than ["Remarks"], its text when that text
    matches the failure pattern by itself. *)
Definition remark_reasons (df : DataFrame) (row : list cell) : list string :=
  if has_column df "Remarks" then
    let remark := cell_text (row_get df row "Remarks") in
    if Py.is_empty remark then [] else [remark]
  else [].

Definition column_reasons (df : DataFrame) (pattern : Pattern) (row : list cell)
    (column : string) : list string :=
  if (String.eqb column "Remarks" || negb (has_column df column))%bool then []
  else
    let val := cell_text (row_get df row column) in
    if (negb (Py.is_empty val) && pattern_search pattern val)%bool then [val] else [].

Definition row_reasons (df : DataFrame) (inspected_columns : list string) (pattern : Pattern)
    (row : list cell) : list string :=
  remark_reasons df row ++ flat_map (column_reasons df pattern row) inspected_columns.

(** The identifiers attributed to the reason [v]: row after row of the
    failing rows, the identifier of the row once for each time [v] is
    among its matched values. *)
Definition attributed_identifiers (df : DataFrame) (failure_mask : list bool)
    (inspected_columns : list string) (pattern : Pattern) (v : string) : list string :=
  flat_map (fun ir : Z * list cell =>
              map (fun _ => row_identifier df ir.1 ir.2)
                  (hits v (row_reasons df inspected_columns pattern ir.2)))
           (select failure_mask (iterrows df)).

(** No reason is mapped to an empty list of identifiers. *)
Definition no_empty_entry (details : gmap string (list string)) : Prop :=
  forall v ids, details !! v = Some ids -> ids <> [].

(** Every count held by a [value_counts] dict is positive. *)
Definition positive_counts (counts : gmap string Z) : Prop :=
  forall w n, counts !! w = Some n -> 0 < n.


(** ** Further file-name rules and the file analyzer *)

Definition infer_ehr_from_filename (file_name : string) : string :=
  let lowered := Py.lower file_name in
  if Py.contains lowered "axxess" then "Axxess"
  else if Py.contains lowered "kinnser" then "Kinnser"
  else if Py.contains lowered "athena" then "Athena"
  else "Unknown".

(** The EHR names of the pattern
    [(?:Axxess|Kinnser|Athena|WellSky|HCHB)-([^_]+)], in its order. *)
Definition EHR_PREFIXES : list string := ["Axxess"; "Kinnser"; "Athena"; "WellSky"; "HCHB"].

(** The longest run of characters other than ['_'] at the head of [s]: what
    the greedy [[^_]+] takes. *)
Fixpoint span_not_underscore (s : string) : string :=
  match s with
  | EmptyString => EmptyString
  | String c s' => if Ascii.eqb c "_" then EmptyString else String c (span_not_underscore s')
  end.

(** A match of the pattern that starts at the head of [s]: one of the
    names, whatever the case of its letters, a hyphen, and at least one
    character other than ['_'].  The answer is group 1. *)
Fixpoint match_agency_here (s : string) (names : list string) : option string :=
  match names with
  | [] => None
  | name :: rest =>
      if Py.startswith (Py.lower (name +:+ "-")) (Py.lower s) then
        let group := span_not_underscore (Py.drop (String.length name + 1) s) in
        if Py.is_empty group then match_agency_here s rest else Some group
      else match_agency_here s rest
  end.

(** [re.search(pattern, s, re.IGNORECASE)]: the match at the leftmost
    position that has one. *)
Fixpoint search_agency (s : string) : option string :=
  match match_agency_here s EHR_PREFIXES with
  | Some group => Some group
  | None =>
      match s with
      | EmptyString => None
      | String _ s' => search_agency s'
      end
  end.

(** [s.replace('-', ' ')] *)
Fixpoint replace_hyphens (s : string) : string :=
  match s with
  | EmptyString => EmptyString
  | String c s' => String (if Ascii.eqb c "-" then " "%char else c) (replace_hyphens s')
  end.

Definition infer_agency_from_filename (file_name : string) : string :=
  match search_agency file_name with
  | Some group => replace_hyphens group
  | None =>
      let lowered := Py.lower file_name in
      if Py.contains lowered "axxess" then "Axxess"
      else if Py.contains lowered "kinnser" then "Kinnser"
      else if Py.contains lowered "athena" then "Athena"
      else "Unknown"
  end.

(** [analyze_file(df, file_name, agency)], run when the clock reads [now]. *)
Definition analyze_file (to_datetime : list cell -> list (option Z)) (threshold : Z)
    (mean_round2 : list Z -> float) (format_rate : float -> string)
    (now : Z) (df : DataFrame) (file_name agency : string) : FileAnalysis :=
  let agency_config := resolve_agency_config agency in
  let stats := calculate_stats to_datetime threshold mean_round2 format_rate now df agency_config in
  {| agency := agency;
     ehr := infer_ehr_from_filename file_name;
     file_name := file_name;
     template_type := determine_template_type file_name;
     pair_key := derive_pair_key file_name;
     stats := stats;
     fa_unique_failure_reasons := unique_failure_reasons stats;
     fa_failure_reason_counts := failure_reason_counts stats;
     order_ids := extract_order_identifiers df |}.

(** The EHR that [AuditHistoryRepository.fetch_recent] (src/db.py) shows
    for a stored run. *)
Definition fetch_recent_ehr (file_name : string) : string :=
  if Py.contains (Py.lower file_name) "axxess" then "Axxess"
  else if Py.contains (Py.lower file_name) "kinnser" then "Kinnser"
  else "Unknown".

(** ** Comma-separated settings (src/config.py, and the recipients list of
    src/main.py) *)

(** [s.split(sep)] for a one-character separator. *)
Fixpoint split_char (sep : ascii) (s : string) : list string :=
  match s with
  | EmptyString => [EmptyString]
  | String c s' =>
      if Ascii.eqb c sep then EmptyString :: split_char sep s'
      else match split_char sep s' with
           | [] => [String c EmptyString]
           | piece :: pieces => String c piece :: pieces
           end
  end.

(** [[item.strip() for item in s.split(",") if item.strip()]] *)
Definition csv_items (s : string) : list string :=
  map Py.strip (List.filter (fun item => negb (Py.is_empty (Py.strip item))) (split_char "," s)).

(** The raw value handed to [Settings._split_csv]. *)
Inductive CsvValue : Type :=
  | CsvNone
  | CsvList (items : list string)
  | CsvStr (text : string).

Definition _split_csv (value : CsvValue) : list string :=
  match value with
  | CsvNone => []
  | CsvList items => items
  | CsvStr text => csv_items text
  end.

(** [EMAIL_SMTP_RECIPIENTS], from [settings.audit_email_recipients]. *)
Definition EMAIL_SMTP_RECIPIENTS (audit_email_recipients : option string) : list string :=
  csv_items (default EmptyString audit_email_recipients).

(** An item as [csv_items] returns them: not empty, without blanks around
    it and without a comma. *)
Definition clean_item (item : string) : Prop :=
  item <> EmptyString /\ Py.strip item = item /\ Py.mem_ascii "," item = false.

(** The whole-row text of [build_failure_mask]: every cell of the row,
    missing ones as the empty string, joined by single spaces. *)
Definition row_text (row : list cell) : string := Py.join " " (map fillna_str row).

(** ** Descriptions of the pairing loop *)

(** The first occurrences of the elements of a list, in order. *)
Fixpoint first_seen_from {A : Type} `{EqDecision A} (seen xs : list A) : list A :=
  match xs with
  | [] => []
  | x :: xs' =>
      if bool_decide (x ∈ seen) then first_seen_from seen xs'
      else x :: first_seen_from (x :: seen) xs'
  end.

Definition first_seen {A : Type} `{EqDecision A} (xs : list A) : list A :=
  first_seen_from [] xs.

(** The last analysis of the batch that is bucketed under [key] in the
    signed slot ([true]) or in the unsigned slot ([false]). *)
Definition last_in_slot (signed_slot : bool) (key : string * string)
    (results : list FileAnalysis) : option FileAnalysis :=
  last (List.filter (fun e => (bool_decide (composite_key_of e = key)
                               && Bool.eqb (in_signed_slot e) signed_slot)%bool) results).

(** The state of the bucketing loop after the files [processed]. *)
Definition pair_state (processed : list FileAnalysis)
    (st : gmap (string * string) PairSlots * list (string * string)) : Prop :=
  st.2 = first_seen (map composite_key_of processed)
  /\ forall k, st.1 !! k
               = if bool_decide (k ∈ st.2)
                 then Some (mkPairSlots (last_in_slot true k processed)
                                        (last_in_slot false k processed))
                 else None.

(** ** A table of numbers *)

(** Two orders with a numeric identifier, a numeric status code and an
    amount; the amounts make the third column a column of floats. *)
Definition numeric_table : DataFrame :=
  mkDataFrame ["OrderId"; "Status Code"; "Amount"]
    [dtype_int64; dtype_int64; dtype_float64]
    [ [Some "1001"; Some "500"; Some "12.5"];
      [Some "1002"; Some "200"; Some "80.0"] ].

(** Rules that look for the status code 500 in the column of the codes. *)
Definition numeric_config : AgencyConfig := mkAgencyConfig ["500"] ["Status Code"].

(** ** The cells of numeric columns *)

(** Every character of [s] satisfies [p]. *)
Fixpoint all_chars (p : ascii -> bool) (s : string) : bool :=
  match s with
  | EmptyString => true
  | String c s' => (p c && all_chars p s')%bool
  end.

(** The characters with which a number is printed: digits, signs, the
    point, the exponent mark and the letters of [inf]. *)
Definition numeric_char (c : ascii) : bool := Py.mem_ascii c "0123456789.-+einf".

(** The characters of the whole-row text of a row of numbers. *)
Definition numeric_or_space (c : ascii) : bool := (numeric_char c || Ascii.eqb c " ")%bool.

Definition numeric_dtype (dt : Dtype) : bool :=
  match dt with
  | dtype_int64 | dtype_float64 => true
  | _ => false
  end.

(** A cell that fits the dtype of its column, as far as the characters of
    a number go. *)
Definition typed_cell (dt : Dtype) (c : cell) : bool :=
  match c with
  | Some s => if numeric_dtype dt then all_chars numeric_char s else true
  | None => true
  end.

Fixpoint typed_row (dts : list Dtype) (row : list cell) : bool :=
  match dts, row with
  | [], [] => true
  | dt :: dts', c :: row' => (typed_cell dt c && typed_row dts' row')%bool
  | _, _ => false
  end.

(** Every row has one cell per column, and the cells of the [int64] and
    [float64] columns are printed numbers. *)
Definition numeric_cells (df : DataFrame) : bool := forallb (typed_row (dtypes df)) (rows df).

(** * Properties *)

(** ** Masks and counts *)

Lemma mask_sum_bounds (mask : list bool) :
  0 <= mask_sum mask <= Z.of_nat (length mask).
Proof.
  unfold mask_sum. split; [lia|].
  apply inj_le. apply length_filter.
Qed.

Lemma mask_or_length (m1 m2 : list bool) :
  (length (mask_or m1 m2) <= length m2)%nat.
Proof.
  unfold mask_or. rewrite length_zip_with. lia.
Qed.

Lemma build_failure_mask_length df keywords status_columns :
  (length (build_failure_mask df keywords status_columns).1.1 <= length (rows df))%nat.
Proof.
  unfold build_failure_mask.
  destruct (df_empty df); simpl; [lia|].
  destruct (fold_left _ _ _) as [mask inspected]. simpl.
  etransitivity; [apply mask_or_length|].
  unfold str_contains. rewrite !length_map. lia.
Qed.

(** ** Count invariants of the statistics *)

Lemma sample_to_datetime_length (col : list cell) :
  length (sample_to_datetime col) = length col.
Proof.
  unfold sample_to_datetime, sample_to_datetime_tz.
  destruct (guess_format col) as [[|]|]; simpl; apply length_map.
Qed.

(** C1.  For a table with at least one row, read by a date parser that
    returns one result per cell, the counts of [calculate_stats] add up:
    successes plus failures, and signed plus unsigned, both give the number
    of rows, and none of the four counts is negative. *)
Theorem calculate_stats_counts_add_up
    (to_datetime : list cell -> list (option Z)) (threshold : Z)
    (mean_round2 : list Z -> float) (format_rate : float -> string)
    (now : Z) (df : DataFrame) (agency_config : AgencyConfig) :
  (forall col, length (to_datetime col) = length col) ->
  rows df <> [] ->
  let s := calculate_stats to_datetime threshold mean_round2 format_rate now df agency_config in
  total_rows s = df_len df
  /\ success_count s + failure_count s = total_rows s
  /\ signed_count s + unsigned_count s = total_rows s
  /\ 0 <= success_count s /\ 0 <= failure_count s
  /\ 0 <= signed_count s /\ 0 <= unsigned_count s.
Proof.
  intros Hlen Hrows s. subst s. unfold calculate_stats.
  assert (Hpos : (df_len df =? 0) = false).
  { apply Z.eqb_neq. unfold df_len. destruct (rows df); [done | simpl; lia]. }
  rewrite Hpos.
  pose proof (build_failure_mask_length df (failure_keywords agency_config)
                (status_columns agency_config)) as Hmask.
  destruct (build_failure_mask _ _ _) as [[failure_mask inspected] pattern].
  simpl in Hmask. cbn [total_rows success_count failure_count signed_count unsigned_count].
  pose proof (mask_sum_bounds failure_mask) as Hf.
  assert (Hs : 0 <= (if has_column df SIGNATURE_COLUMN
                     then mask_sum (map notna (to_datetime (df_column df SIGNATURE_COLUMN)))
                     else 0) <= df_len df).
  { destruct (has_column df SIGNATURE_COLUMN); [|unfold df_len; lia].
    pose proof (mask_sum_bounds (map notna (to_datetime (df_column df SIGNATURE_COLUMN)))) as Hb.
    rewrite length_map, Hlen in Hb. unfold df_column in *. rewrite length_map in Hb.
    unfold df_len. lia. }
  unfold df_len in *. repeat split; lia.
Qed.

Lemma calculate_stats_counts_add_up_witness :
  let s := calculate_stats sample_to_datetime 5 sample_mean_round2 sample_format_rate
             sample_now sample_table sample_config in
  total_rows s = 3
  /\ success_count s + failure_count s = total_rows s
  /\ signed_count s + unsigned_count s = total_rows s
  /\ 0 <= success_count s /\ 0 <= failure_count s
  /\ 0 <= signed_count s /\ 0 <= unsigned_count s.
Proof.
  apply (calculate_stats_counts_add_up sample_to_datetime 5 sample_mean_round2
           sample_format_rate sample_now sample_table sample_config).
  - apply sample_to_datetime_length.
  - discriminate.
Defined.

(** ** The keyword set decides the mask *)

(** C10.  Two keyword lists with the same elements, in any order and with
    any repetitions, give the same failure mask, the same list of inspected
    columns and the same compiled pattern. *)
Theorem build_failure_mask_keyword_set (df : DataFrame)
    (keywords1 keywords2 status_columns : list string) :
  (forall k, k ∈ keywords1 <-> k ∈ keywords2) ->
  build_failure_mask df keywords1 status_columns
  = build_failure_mask df keywords2 status_columns.
Proof.
  intros Hsame.
  assert (Hset : (list_to_set keywords1 : gset string) = list_to_set keywords2).
  { apply set_eq. intros k. rewrite !elem_of_list_to_set. apply Hsame. }
  unfold build_failure_mask. rewrite Hset. reflexivity.
Qed.

Lemma build_failure_mask_keyword_set_witness :
  build_failure_mask sample_table ["failed"; "error"; "failed"; "missing"] ["Remarks"]
  = build_failure_mask sample_table ["missing"; "failed"; "error"] ["Remarks"].
Proof.
  apply (build_failure_mask_keyword_set sample_table
           ["failed"; "error"; "failed"; "missing"] ["missing"; "failed"; "error"] ["Remarks"]).
  intros k. rewrite !list_elem_of_In. simpl. tauto.
Defined.


(** ** SLA metrics *)

Lemma series_max_spec (x : Z) (xs : list Z) :
  series_max (x :: xs) ∈ x :: xs /\ forall y, y ∈ x :: xs -> y <= series_max (x :: xs).
Proof.
  unfold series_max. revert x.
  induction xs as [|z xs IH]; intros x; simpl.
  - split; [left|]. intros y Hy. apply list_elem_of_singleton in Hy. lia.
  - destruct (IH (Z.max x z)) as [Hin Hub]. split.
    + apply elem_of_cons in Hin as [Heq | Hin].
      * rewrite Heq. destruct (Z.max_spec x z) as [[_ ->] | [_ ->]];
          [right; left | left].
      * right. right. exact Hin.
    + intros y Hy. apply elem_of_cons in Hy as [-> | Hy].
      * specialize (Hub (Z.max x z)). etransitivity; [|apply Hub; left]. lia.
      * apply elem_of_cons in Hy as [-> | Hy].
        -- specialize (Hub (Z.max x z)). etransitivity; [|apply Hub; left]. lia.
        -- apply Hub. right. exact Hy.
Qed.

Lemma series_min_spec (x : Z) (xs : list Z) :
  series_min (x :: xs) ∈ x :: xs /\ forall y, y ∈ x :: xs -> series_min (x :: xs) <= y.
Proof.
  unfold series_min. revert x.
  induction xs as [|z xs IH]; intros x; simpl.
  - split; [left|]. intros y Hy. apply list_elem_of_singleton in Hy. lia.
  - destruct (IH (Z.min x z)) as [Hin Hlb]. split.
    + apply elem_of_cons in Hin as [Heq | Hin].
      * rewrite Heq. destruct (Z.min_spec x z) as [[_ ->] | [_ ->]];
          [left | right; left].
      * right. right. exact Hin.
    + intros y Hy. apply elem_of_cons in Hy as [-> | Hy].
      * specialize (Hlb (Z.min x z)). etransitivity; [apply Hlb; left|]. lia.
      * apply elem_of_cons in Hy as [-> | Hy].
        -- specialize (Hlb (Z.min x z)). etransitivity; [apply Hlb; left|]. lia.
        -- apply Hlb. right. exact Hy.
Qed.

(** The latencies are those of the rows whose two dates both parsed. *)
Lemma latency_elem_of (signed_dates sent_dates : list (option Z)) (d : Z) :
  d ∈ dropna (zip_with timedelta_days signed_dates sent_dates)
  <-> exists a b, (Some a, Some b) ∈ zip signed_dates sent_dates
                  /\ d = (a - b) / NS_PER_DAY.
Proof.
  unfold dropna. revert sent_dates.
  induction signed_dates as [|sg signed_dates IH]; intros [|st sent_dates]; simpl.
  1-3: split; [intros H; inversion H | intros (a & b & H & _); inversion H].
  split.
  - intros H.
    destruct sg as [a|], st as [b|]; simpl in H.
    1: apply elem_of_cons in H as [-> | H]; [exists a, b; split; [left | reflexivity] |].
    all: apply IH in H as (a' & b' & Hin & ->); exists a', b'; split; [right; exact Hin | reflexivity].
  - intros (a & b & Hin & ->).
    apply elem_of_cons in Hin as [Heq | Hin].
    + inversion Heq; subst. simpl. left.
    + assert (Htl : (a - b) / NS_PER_DAY ∈ omap id (zip_with timedelta_days signed_dates sent_dates)).
      { apply IH. exists a, b. split; [exact Hin | reflexivity]. }
      destruct sg as [a'|], st as [b'|]; simpl; [right|..]; exact Htl.
Qed.

Lemma mask_any_false_zip {A B : Type} (f : A -> B -> bool) (xs : list A) (ys : list B) :
  (forall x y, (x, y) ∈ zip xs ys -> f x y = false) ->
  mask_any (zip_with f xs ys) = false.
Proof.
  unfold mask_any. revert ys.
  induction xs as [|x xs IH]; intros [|y ys] H; simpl; try reflexivity.
  rewrite (H x y) by left. simpl. apply IH. intros x' y' Hin. apply H. right. exact Hin.
Qed.

Lemma latency_nil_iff (signed_dates sent_dates : list (option Z)) :
  dropna (zip_with timedelta_days signed_dates sent_dates) = []
  <-> forall sg st, (sg, st) ∈ zip signed_dates sent_dates -> sg = None \/ st = None.
Proof.
  split.
  - intros Hnil sg st Hin.
    destruct sg as [a|]; [|left; reflexivity].
    destruct st as [b|]; [|right; reflexivity].
    assert (Hel : (a - b) / NS_PER_DAY ∈ dropna (zip_with timedelta_days signed_dates sent_dates)).
    { apply latency_elem_of. exists a, b. split; [exact Hin | reflexivity]. }
    rewrite Hnil in Hel. inversion Hel.
  - intros Hall.
    destruct (dropna (zip_with timedelta_days signed_dates sent_dates)) as [|d l] eqn:E;
      [reflexivity|].
    assert (Hel : d ∈ dropna (zip_with timedelta_days signed_dates sent_dates)).
    { rewrite E. left. }
    apply latency_elem_of in Hel as (a & b & Hin & _).
    destruct (Hall _ _ Hin); discriminate.
Qed.

(** The metrics that [compute_sla_metrics] returns when it returns.  The
    four SLA fields are all null exactly when one of the two date columns
    is missing from the table.  With both columns there, the overdue count
    is always a number (zero when no row has a sent date without a signed
    date), whether or not any row gives a latency; the latency fields are
    null exactly when no row has both dates parsed, and otherwise the
    maximum and the minimum are taken over the rows whose two dates
    parsed, the others being left out. *)
Lemma sla_metrics_null_handling
    (to_datetime : list cell -> list (option Z)) (threshold : Z)
    (mean_round2 : list Z -> float) (now : Z) (df : DataFrame) :
  let m := compute_sla_metrics to_datetime threshold mean_round2 now df in
  let parsed (a b : Z) := (Some a, Some b) ∈ date_pairs to_datetime df in
  ((average_days_to_sign m = None /\ max_days_to_sign m = None
    /\ min_days_to_sign m = None /\ pending_overdue_count m = None)
   <-> (has_column df SIGNATURE_COLUMN = false
        \/ has_column df SENT_TO_PHYSICIAN_COLUMN = false))
  /\ (has_column df SIGNATURE_COLUMN = true ->
      has_column df SENT_TO_PHYSICIAN_COLUMN = true ->
      (exists n, pending_overdue_count m = Some n /\ 0 <= n)
      /\ ((forall sg st, (sg, st) ∈ date_pairs to_datetime df -> sg = None -> st = None) ->
          pending_overdue_count m = Some 0)
      /\ ((forall sg st, (sg, st) ∈ date_pairs to_datetime df -> sg = None \/ st = None)
          <-> (average_days_to_sign m = None /\ max_days_to_sign m = None
               /\ min_days_to_sign m = None))
      /\ (forall x, max_days_to_sign m = Some x ->
            (exists a b, parsed a b /\ x = (a - b) / NS_PER_DAY)
            /\ forall a b, parsed a b -> (a - b) / NS_PER_DAY <= x)
      /\ (forall x, min_days_to_sign m = Some x ->
            (exists a b, parsed a b /\ x = (a - b) / NS_PER_DAY)
            /\ forall a b, parsed a b -> x <= (a - b) / NS_PER_DAY)).
Proof.
  intros m parsed. subst m parsed. unfold compute_sla_metrics, date_pairs.
  destruct (has_column df SIGNATURE_COLUMN) eqn:Hsig;
    destruct (has_column df SENT_TO_PHYSICIAN_COLUMN) eqn:Hsent; simpl.
  2-4: split; [split; [intros _; auto | intros _; auto] | intros; discriminate].
  set (signed_dates := to_datetime (df_column df SIGNATURE_COLUMN)).
  set (sent_dates := to_datetime (df_column df SENT_TO_PHYSICIAN_COLUMN)).
  set (pending_mask :=
    zip_with (fun sg st : option Z => (negb (notna sg) && notna st)%bool) signed_dates sent_dates).
  set (count := if mask_any pending_mask then _ else 0).
  pose proof (latency_nil_iff signed_dates sent_dates) as Hnil.
  pose proof (latency_elem_of signed_dates sent_dates) as Hel.
  assert (Hcount : 0 <= count).
  { subst count. destruct (mask_any pending_mask); [apply mask_sum_bounds | lia]. }
  assert (Hzero : (forall sg st, (sg, st) ∈ zip signed_dates sent_dates -> sg = None -> st = None)
                  -> count = 0).
  { intros Hnone. subst count pending_mask.
    rewrite mask_any_false_zip; [reflexivity|].
    intros sg st Hin. destruct sg as [a|]; [reflexivity|].
    rewrite (Hnone _ _ Hin eq_refl). reflexivity. }
  destruct (dropna (zip_with timedelta_days signed_dates sent_dates)) as [|d latency] eqn:E.
  - split.
    + split; [intros (_ & _ & _ & H); discriminate | intros [H | H]; discriminate].
    + intros _ _. cbn. split; [|split; [|split; [|split]]].
      * exists count. split; [reflexivity | exact Hcount].
      * intros Hnone. rewrite (Hzero Hnone). reflexivity.
      * split; [intros _; auto | intros _; apply Hnil; reflexivity].
      * intros x Hx. discriminate.
      * intros x Hx. discriminate.
  - split.
    + split; [intros (H & _); discriminate | intros [H | H]; discriminate].
    + intros _ _. cbn. split; [|split; [|split; [|split]]].
      * exists count. split; [reflexivity | exact Hcount].
      * intros Hnone. rewrite (Hzero Hnone). reflexivity.
      * split; [intros Hall; apply Hnil in Hall; discriminate | intros (H & _); discriminate].
      * intros x Hx. injection Hx as <-.
        destruct (series_max_spec d latency) as [Hin Hub]. split.
        -- apply Hel. exact Hin.
        -- intros a b Hab. apply Hub. apply Hel. exists a, b. split; [exact Hab | reflexivity].
      * intros x Hx. injection Hx as <-.
        destruct (series_min_spec d latency) as [Hin Hlb]. split.
        -- apply Hel. exact Hin.
        -- intros a b Hab. apply Hlb. apply Hel. exists a, b. split; [exact Hab | reflexivity].
Qed.

Lemma mask_any_zip_iff {A B : Type} (f : A -> B -> bool) (xs : list A) (ys : list B) :
  mask_any (zip_with f xs ys) = true <-> exists x y, (x, y) ∈ zip xs ys /\ f x y = true.
Proof.
  split.
  - intros Hany. destruct (mask_any (zip_with f xs ys)) eqn:E; [|discriminate].
    unfold mask_any in E. apply existsb_exists in E as (b & Hin & Hb).
    unfold id in Hb. subst b.
    revert ys Hin. induction xs as [|x xs IH]; intros [|y ys] Hin; simpl in Hin; try contradiction.
    destruct Hin as [Heq | Hin].
    + exists x, y. split; [left | exact Heq].
    + destruct (IH ys Hin) as (x' & y' & Hz & Hf). exists x', y'. split; [right|]; assumption.
  - intros (x & y & Hin & Hf).
    destruct (mask_any (zip_with f xs ys)) eqn:E; [reflexivity|]. exfalso.
    revert ys Hin E. induction xs as [|x' xs IH]; intros [|y' ys] Hin E;
      try (simpl in Hin; inversion Hin; fail).
    unfold mask_any in E. simpl in E. apply orb_false_iff in E as [E1 E2].
    simpl in Hin. apply elem_of_cons in Hin as [Heq | Hin].
    + injection Heq as -> ->. unfold id in E1. congruence.
    + exact (IH ys Hin E2).
Qed.

(** When the run of [compute_sla_metrics] returns, it returns the metrics
    that the calculator gives for the instants of the parsed columns. *)
Lemma compute_sla_metrics_returns
    (to_datetime : list cell -> Exn.DatetimeSeries) (threshold : Z)
    (mean_round2 : list Z -> float) (now : Z) (df : DataFrame) (m : SlaMetrics) :
  Exn.compute_sla_metrics to_datetime threshold mean_round2 now df = Exn.Returns m ->
  m = compute_sla_metrics (fun col => Exn.stamps (to_datetime col)) threshold mean_round2 now df.
Proof.
  unfold Exn.compute_sla_metrics, compute_sla_metrics, Exn.sub_days, Exn.utcnow_sub_days.
  destruct (_ || _)%bool; [intros H; injection H as <-; reflexivity|].
  destruct (Bool.eqb _ _); [|discriminate]. cbn [mbind Exn.Outcome_bind].
  destruct (mask_any _).
  - cbn [Exn.series_select Exn.tz_aware Exn.stamps].
    destruct (Exn.tz_aware (to_datetime (df_column df SENT_TO_PHYSICIAN_COLUMN)));
      [discriminate|]. cbn [mbind Exn.Outcome_bind].
    destruct (dropna _); intros H; injection H as <-; reflexivity.
  - cbn [mbind Exn.Outcome_bind].
    destruct (dropna _); intros H; injection H as <-; reflexivity.
Qed.

(** With both date columns in the table, the run raises exactly when one
    parsed column is tz-aware and the other is not, or when both are
    tz-aware and some row has a sent date without a signed date. *)
Lemma compute_sla_metrics_raises_iff
    (to_datetime : list cell -> Exn.DatetimeSeries) (threshold : Z)
    (mean_round2 : list Z -> float) (now : Z) (df : DataFrame) :
  has_column df SIGNATURE_COLUMN = true ->
  has_column df SENT_TO_PHYSICIAN_COLUMN = true ->
  let sent_dates := to_datetime (df_column df SENT_TO_PHYSICIAN_COLUMN) in
  let signed_dates := to_datetime (df_column df SIGNATURE_COLUMN) in
  Exn.compute_sla_metrics to_datetime threshold mean_round2 now df = Exn.Raises Exn.TypeError
  <-> (Exn.tz_aware signed_dates <> Exn.tz_aware sent_dates
       \/ (Exn.tz_aware sent_dates = true
           /\ exists st, (None, Some st) ∈ zip (Exn.stamps signed_dates) (Exn.stamps sent_dates))).
Proof.
  intros Hsig Hsent sent_dates signed_dates.
  unfold Exn.compute_sla_metrics, Exn.sub_days, Exn.utcnow_sub_days.
  rewrite Hsig, Hsent. cbn [negb orb]. fold sent_dates. fold signed_dates.
  set (pending_mask := zip_with _ (Exn.stamps signed_dates) (Exn.stamps sent_dates)).
  assert (Hpending : mask_any pending_mask = true
                     <-> exists st, (None, Some st) ∈ zip (Exn.stamps signed_dates)
                                                        (Exn.stamps sent_dates)).
  { subst pending_mask. rewrite mask_any_zip_iff. split.
    - intros (sg & st & Hin & Hf). destruct sg as [a|]; [discriminate|].
      destruct st as [b|]; [|discriminate]. exists b. exact Hin.
    - intros (st & Hin). exists None, (Some st). split; [exact Hin | reflexivity]. }
  destruct (Bool.eqb (Exn.tz_aware signed_dates) (Exn.tz_aware sent_dates)) eqn:Eflags.
  - apply eqb_prop in Eflags. cbn [mbind Exn.Outcome_bind].
    destruct (mask_any pending_mask) eqn:Eany.
    + cbn [Exn.series_select Exn.tz_aware Exn.stamps].
      destruct (Exn.tz_aware sent_dates) eqn:Eaware.
      * cbn [mbind Exn.Outcome_bind]. split; [intros _ | reflexivity].
        right. split; [reflexivity | apply Hpending; reflexivity].
      * cbn [mbind Exn.Outcome_bind]. split.
        -- destruct (dropna _); discriminate.
        -- intros [Hne | [Habs _]]; [contradiction | discriminate].
    + cbn [mbind Exn.Outcome_bind]. split.
      * destruct (dropna _); discriminate.
      * intros [Hne | [_ Hex]]; [contradiction|].
        apply Hpending in Hex. discriminate.
  - apply eqb_false_iff in Eflags. cbn [mbind Exn.Outcome_bind].
    split; [intros _; left; exact Eflags | reflexivity].
Qed.

Lemma select_all_false {A : Type} (mask : list bool) (xs : list A) :
  mask_any mask = false -> select mask xs = [].
Proof.
  unfold mask_any. revert xs. induction mask as [|b mask IH]; intros xs Hany; [reflexivity|].
  simpl in Hany. apply orb_false_iff in Hany as [Hb Hany]. unfold id in Hb. subst b.
  destruct xs as [|x xs]; [reflexivity|]. simpl. apply IH. exact Hany.
Qed.

(** The overdue count is the number of overdue rows. *)
Lemma pending_count_closed_form (threshold now : Z) (signed_dates sent_dates : list (option Z)) :
  let pending_mask :=
    zip_with (fun sg st : option Z => (negb (notna sg) && notna st)%bool)
             signed_dates sent_dates in
  (if mask_any pending_mask then
     mask_sum (map (fun d => match d with
                             | Some days => threshold <? days
                             | None => false
                             end)
                   (map (timedelta_days (Some now)) (select pending_mask sent_dates)))
   else 0)
  = Z.of_nat (length (List.filter (overdue threshold now) (zip signed_dates sent_dates))).
Proof.
  intros pending_mask.
  assert (Hsum :
    mask_sum (map (fun d => match d with
                            | Some days => threshold <? days
                            | None => false
                            end)
                  (map (timedelta_days (Some now)) (select pending_mask sent_dates)))
    = Z.of_nat (length (List.filter (overdue threshold now) (zip signed_dates sent_dates)))).
  { subst pending_mask. unfold mask_sum. f_equal. revert sent_dates.
    induction signed_dates as [|sg signed_dates IH]; intros [|st sent_dates]; try reflexivity.
    cbn [zip_with zip List.filter]. destruct sg as [a|], st as [t|]; cbn [notna negb andb select overdue].
    1, 2, 4: apply IH.
    cbn [map timedelta_days].
    destruct (threshold <? (now - t) / NS_PER_DAY).
    - rewrite filter_cons_True by reflexivity. cbn [length]. f_equal. apply IH.
    - rewrite filter_cons_False by discriminate. apply IH. }
  destruct (mask_any pending_mask) eqn:Hany; [exact Hsum|].
  rewrite <- Hsum, (select_all_false pending_mask sent_dates Hany). reflexivity.
Qed.

Lemma pending_overdue_count_rows
    (to_datetime : list cell -> list (option Z)) (threshold : Z)
    (mean_round2 : list Z -> float) (now : Z) (df : DataFrame) :
  has_column df SIGNATURE_COLUMN = true ->
  has_column df SENT_TO_PHYSICIAN_COLUMN = true ->
  pending_overdue_count (compute_sla_metrics to_datetime threshold mean_round2 now df)
  = Some (Z.of_nat (length (List.filter (overdue threshold now) (date_pairs to_datetime df)))).
Proof.
  intros Hsig Hsent. unfold compute_sla_metrics, date_pairs. rewrite Hsig, Hsent. cbn [negb orb].
  rewrite <- pending_count_closed_form.
  destruct (dropna _); reflexivity.
Qed.

(** When the run of [calculate_stats] returns, it returns the record that
    [calculate_stats] gives for the instants of the parsed columns. *)
Lemma calculate_stats_returns
    (to_datetime : list cell -> Exn.DatetimeSeries) (threshold : Z)
    (mean_round2 : list Z -> float) (format_rate : float -> string)
    (now : Z) (df : DataFrame) (agency_config : AgencyConfig) (s : FileStats) :
  Exn.calculate_stats to_datetime threshold mean_round2 format_rate now df agency_config
  = Exn.Returns s ->
  s = calculate_stats (fun col => Exn.stamps (to_datetime col)) threshold mean_round2
        format_rate now df agency_config.
Proof.
  unfold Exn.calculate_stats.
  destruct (Exn.compute_sla_metrics _ _ _ _ _); cbn [mbind Exn.Outcome_bind];
    [intros H; injection H as <-; reflexivity | discriminate].
Qed.

(** C4.  [compute_sla_metrics] does not report on every table.  When one
    of the two date columns is missing it returns four nulls.  With both
    columns there, it raises [TypeError] exactly when one parsed column is
    tz-aware and the other is not, or when both are tz-aware and some row
    has a sent date without a signed date; then nothing is reported.  When
    it returns, the overdue count is a number, the number of overdue rows
    (zero when no row has a sent date without a signed date), also when no
    row gives a latency; the latency fields are null exactly when no row
    has both dates parsed, the rows with a date that does not parse being
    left out, and otherwise the maximum and the minimum are taken over the
    rows whose two dates parsed. *)
Theorem compute_sla_metrics_null_handling
    (to_datetime : list cell -> Exn.DatetimeSeries) (threshold : Z)
    (mean_round2 : list Z -> float) (now : Z) (df : DataFrame) :
  let run := Exn.compute_sla_metrics to_datetime threshold mean_round2 now df in
  let sent_dates := to_datetime (df_column df SENT_TO_PHYSICIAN_COLUMN) in
  let signed_dates := to_datetime (df_column df SIGNATURE_COLUMN) in
  let pairs := zip (Exn.stamps signed_dates) (Exn.stamps sent_dates) in
  let parsed (a b : Z) := (Some a, Some b) ∈ pairs in
  (has_column df SIGNATURE_COLUMN = false \/ has_column df SENT_TO_PHYSICIAN_COLUMN = false ->
   run = Exn.Returns (mkSlaMetrics None None None None))
  /\ (has_column df SIGNATURE_COLUMN = true ->
      has_column df SENT_TO_PHYSICIAN_COLUMN = true ->
      (run = Exn.Raises Exn.TypeError
       <-> (Exn.tz_aware signed_dates <> Exn.tz_aware sent_dates
            \/ (Exn.tz_aware sent_dates = true /\ exists st, (None, Some st) ∈ pairs)))
      /\ forall m, run = Exn.Returns m ->
           pending_overdue_count m
           = Some (Z.of_nat (length (List.filter (overdue threshold now) pairs)))
           /\ (exists n, pending_overdue_count m = Some n /\ 0 <= n)
           /\ ((forall sg st, (sg, st) ∈ pairs -> sg = None -> st = None) ->
               pending_overdue_count m = Some 0)
           /\ ((forall sg st, (sg, st) ∈ pairs -> sg = None \/ st = None)
               <-> (average_days_to_sign m = None /\ max_days_to_sign m = None
                    /\ min_days_to_sign m = None))
           /\ (forall x, max_days_to_sign m = Some x ->
                 (exists a b, parsed a b /\ x = (a - b) / NS_PER_DAY)
                 /\ forall a b, parsed a b -> (a - b) / NS_PER_DAY <= x)
           /\ (forall x, min_days_to_sign m = Some x ->
                 (exists a b, parsed a b /\ x = (a - b) / NS_PER_DAY)
                 /\ forall a b, parsed a b -> x <= (a - b) / NS_PER_DAY)).
Proof.
  intros run sent_dates signed_dates pairs parsed. split.
  - intros Hmissing. subst run. unfold Exn.compute_sla_metrics.
    destruct Hmissing as [-> | ->]; [reflexivity|].
    destruct (has_column df SIGNATURE_COLUMN); reflexivity.
  - intros Hsig Hsent. split.
    + apply (compute_sla_metrics_raises_iff to_datetime threshold mean_round2 now df Hsig Hsent).
    + intros m Hm. apply compute_sla_metrics_returns in Hm.
      pose proof (sla_metrics_null_handling (fun col => Exn.stamps (to_datetime col))
                    threshold mean_round2 now df) as H.
      pose proof (pending_overdue_count_rows (fun col => Exn.stamps (to_datetime col))
                    threshold mean_round2 now df Hsig Hsent) as Hcount.
      cbv zeta in H. rewrite <- Hm in H, Hcount. destruct H as [_ H].
      split; [exact Hcount | exact (H Hsig Hsent)].
Qed.

Lemma compute_sla_metrics_null_handling_witness :
  has_column utc_dates_table SIGNATURE_COLUMN = true
  /\ has_column utc_dates_table SENT_TO_PHYSICIAN_COLUMN = true
  /\ Exn.compute_sla_metrics sample_to_datetime_tz 5 sample_mean_round2 sample_later
       utc_dates_table = Exn.Raises Exn.TypeError
  /\ Exn.compute_sla_metrics sample_to_datetime_tz 5 sample_mean_round2 sample_later
       utc_unsigned_table = Exn.Raises Exn.TypeError.
Proof.
  split; [reflexivity|]. split; [reflexivity|]. split.
  - destruct (compute_sla_metrics_null_handling sample_to_datetime_tz 5 sample_mean_round2
                sample_later utc_dates_table) as [_ H].
    apply (proj1 (H eq_refl eq_refl)). right. split; [reflexivity|].
    exists (midnight 2024 3 2 + 9 * 3600 * 1000000000). vm_compute. right. left.
  - destruct (compute_sla_metrics_null_handling sample_to_datetime_tz 5 sample_mean_round2
                sample_later utc_unsigned_table) as [_ H].
    apply (proj1 (H eq_refl eq_refl)). left. vm_compute. discriminate.
Defined.

(** ** The table without rows *)

(** C3.  On a table without rows, whatever its columns, [calculate_stats]
    returns zero for the five counts, ["0.0%"] for both rates, no failure
    reason, no reason count, no inspected column, and the SLA metrics that
    [compute_sla_metrics] gives for that table; the key [failure_details]
    is not part of the returned record. *)
Theorem calculate_stats_zero_rows
    (to_datetime : list cell -> list (option Z)) (threshold : Z)
    (mean_round2 : list Z -> float) (format_rate : float -> string)
    (now : Z) (cols : list string) (dts : list Dtype) (agency_config : AgencyConfig) :
  let df := mkDataFrame cols dts [] in
  let s := calculate_stats to_datetime threshold mean_round2 format_rate now df agency_config in
  total_rows s = 0 /\ success_count s = 0 /\ failure_count s = 0
  /\ signed_count s = 0 /\ unsigned_count s = 0
  /\ success_rate s = "0.0%" /\ failure_rate s = "0.0%"
  /\ unique_failure_reasons s = [] /\ failure_reason_counts s = ∅
  /\ inspected_status_columns s = []
  /\ sla_metrics s = compute_sla_metrics to_datetime threshold mean_round2 now df
  /\ failure_details s = None.
Proof.
  intros df s. subst df s. unfold calculate_stats, df_len. simpl.
  repeat split; reflexivity.
Qed.

(** On a table with rows the key [failure_details] is always there, also
    when no row fails. *)
Lemma calculate_stats_details_present
    (to_datetime : list cell -> list (option Z)) (threshold : Z)
    (mean_round2 : list Z -> float) (format_rate : float -> string)
    (now : Z) (df : DataFrame) (agency_config : AgencyConfig) :
  rows df <> [] ->
  is_Some (failure_details
             (calculate_stats to_datetime threshold mean_round2 format_rate now df agency_config)).
Proof.
  intros Hrows. unfold calculate_stats.
  assert (Hpos : (df_len df =? 0) = false).
  { apply Z.eqb_neq. unfold df_len. destruct (rows df); [done | simpl; lia]. }
  rewrite Hpos. destruct (build_failure_mask _ _ _) as [[failure_mask inspected] pattern].
  simpl. eexists. reflexivity.
Qed.

(** ** Dependence on the clock *)

(** Two runs over the sample table, on the fourth and on the last day of
    March 2024, both return, and they do not return the same statistics:
    the order sent on the second of March is not overdue at the first
    reading of the clock and is overdue at the second. *)
Lemma calculate_stats_clock_dependent :
  let s1 := calculate_stats sample_to_datetime 5 sample_mean_round2 sample_format_rate
              sample_now sample_table sample_config in
  let s2 := calculate_stats sample_to_datetime 5 sample_mean_round2 sample_format_rate
              sample_later sample_table sample_config in
  Exn.calculate_stats sample_to_datetime_tz 5 sample_mean_round2 sample_format_rate
    sample_now sample_table sample_config = Exn.Returns s1
  /\ Exn.calculate_stats sample_to_datetime_tz 5 sample_mean_round2 sample_format_rate
       sample_later sample_table sample_config = Exn.Returns s2
  /\ pending_overdue_count (sla_metrics s1) = Some 0
  /\ pending_overdue_count (sla_metrics s2) = Some 1
  /\ s1 <> s2.
Proof.
  cbv zeta.
  split; [vm_compute; reflexivity|]. split; [vm_compute; reflexivity|].
  split; [vm_compute; reflexivity|]. split; [vm_compute; reflexivity|].
  intros H.
  apply (f_equal (fun s => pending_overdue_count (sla_metrics s))) in H.
  vm_compute in H. discriminate H.
Qed.

Lemma compute_sla_metrics_clock (to_datetime : list cell -> list (option Z)) (threshold : Z)
    (mean_round2 : list Z -> float) (now1 now2 : Z) (df : DataFrame) :
  let m1 := compute_sla_metrics to_datetime threshold mean_round2 now1 df in
  let m2 := compute_sla_metrics to_datetime threshold mean_round2 now2 df in
  average_days_to_sign m1 = average_days_to_sign m2
  /\ max_days_to_sign m1 = max_days_to_sign m2
  /\ min_days_to_sign m1 = min_days_to_sign m2.
Proof.
  unfold compute_sla_metrics.
  destruct (_ || _)%bool; simpl; [auto|].
  destruct (dropna _); simpl; auto.
Qed.

(** C9.  The statistics depend on the table, the agency configuration and
    the reading of the clock only through [pending_overdue_count]: two
    runs at any two instants agree on every other field. *)
Theorem calculate_stats_deterministic_up_to_clock
    (to_datetime : list cell -> list (option Z)) (threshold : Z)
    (mean_round2 : list Z -> float) (format_rate : float -> string)
    (now1 now2 : Z) (df : DataFrame) (agency_config : AgencyConfig) :
  forget_pending_overdue
    (calculate_stats to_datetime threshold mean_round2 format_rate now1 df agency_config)
  = forget_pending_overdue
      (calculate_stats to_datetime threshold mean_round2 format_rate now2 df agency_config).
Proof.
  pose proof (compute_sla_metrics_clock to_datetime threshold mean_round2 now1 now2 df)
    as (Havg & Hmax & Hmin).
  unfold calculate_stats.
  destruct (df_len df =? 0).
  - unfold forget_pending_overdue. simpl. rewrite Havg, Hmax, Hmin. reflexivity.
  - destruct (build_failure_mask _ _ _) as [[failure_mask inspected] pattern].
    unfold forget_pending_overdue. simpl. rewrite Havg, Hmax, Hmin. reflexivity.
Qed.

(** ** Searching in strings *)

Lemma append_cons (c : ascii) (a b : string) : String c a +:+ b = String c (a +:+ b).
Proof. reflexivity. Qed.

Lemma append_nil (b : string) : EmptyString +:+ b = b.
Proof. reflexivity. Qed.

Lemma startswith_app (p s : string) :
  Py.startswith p s = true <-> exists post, s = p +:+ post.
Proof.
  revert s. induction p as [|a p IH]; intros s; simpl.
  - split; [intros _; exists s; reflexivity | reflexivity].
  - destruct s as [|b s].
    + split; [discriminate | intros [post H]; rewrite append_cons in H; discriminate].
    + destruct (Ascii.eqb a b) eqn:E.
      * apply Ascii.eqb_eq in E as ->. rewrite IH. split.
        -- intros [post ->]. exists post. reflexivity.
        -- intros [post H]. rewrite append_cons in H. injection H as ->.
           exists post. reflexivity.
      * apply Ascii.eqb_neq in E. split; [discriminate|].
        intros [post H]. rewrite append_cons in H. injection H as <- _. congruence.
Qed.

Lemma take_drop (n : nat) (s : string) : Py.take n s +:+ Py.drop n s = s.
Proof.
  revert s. induction n as [|n IH]; intros [|c s]; simpl; try reflexivity.
  rewrite append_cons. f_equal. apply IH.
Qed.

Lemma take_length_le (n : nat) (s : string) : (String.length (Py.take n s) <= n)%nat.
Proof.
  revert s. induction n as [|n IH]; intros [|c s]; simpl; try lia.
  specialize (IH s). lia.
Qed.

Lemma drop_app_length (pre post : string) :
  Py.drop (String.length pre) (pre +:+ post) = post.
Proof.
  induction pre as [|c pre IH]; [reflexivity|].
  rewrite append_cons. simpl. exact IH.
Qed.

Lemma lower_app (a b : string) : Py.lower (a +:+ b) = Py.lower a +:+ Py.lower b.
Proof.
  induction a as [|c a IH]; [reflexivity|].
  rewrite append_cons. simpl. rewrite append_cons. f_equal. exact IH.
Qed.

Lemma lower_length (s : string) : String.length (Py.lower s) = String.length s.
Proof. induction s as [|c s IH]; simpl; [reflexivity | f_equal; exact IH]. Qed.

Lemma lower_drop (n : nat) (s : string) : Py.lower (Py.drop n s) = Py.drop n (Py.lower s).
Proof.
  revert s. induction n as [|n IH]; intros [|c s]; simpl; try reflexivity. apply IH.
Qed.

(** [find] answers [-1] when the text occurs nowhere, and otherwise the
    offset of its first occurrence. *)
Lemma find_from_spec (sub s : string) (i : Z) :
  (Py.find_from sub s i = -1 /\ forall j, Py.startswith sub (Py.drop j s) = false)
  \/ (exists k : nat,
        Py.find_from sub s i = i + Z.of_nat k
        /\ Py.startswith sub (Py.drop k s) = true
        /\ forall j, (j < k)%nat -> Py.startswith sub (Py.drop j s) = false).
Proof.
  revert i. induction s as [|c s IH]; intros i; simpl.
  - destruct (Py.startswith sub EmptyString) eqn:E.
    + right. exists O. simpl. split; [lia|]. split; [exact E | intros j Hj; lia].
    + left. split; [reflexivity|]. intros [|j]; exact E.
  - destruct (Py.startswith sub (String c s)) eqn:E.
    + right. exists O. simpl. split; [lia|]. split; [exact E | intros j Hj; lia].
    + destruct (IH (i + 1)) as [[Hr Hno] | (k & Hr & Hk & Hlt)].
      * left. split; [exact Hr|]. intros [|j]; [exact E | apply Hno].
      * right. exists (S k). split; [rewrite Hr; lia|]. split; [exact Hk|].
        intros [|j] Hj; [exact E | apply Hlt; lia].
Qed.

Lemma find_spec (s sub : string) :
  (Py.find s sub = -1 /\ forall j, Py.startswith sub (Py.drop j s) = false)
  \/ (exists k : nat,
        Py.find s sub = Z.of_nat k
        /\ Py.startswith sub (Py.drop k s) = true
        /\ forall j, (j < k)%nat -> Py.startswith sub (Py.drop j s) = false).
Proof.
  unfold Py.find. destruct (find_from_spec sub s 0) as [H | (k & Hr & H)];
    [left; exact H | right; exists k; split; [rewrite Hr; lia | exact H]].
Qed.

(** [sub in s] holds exactly when [s] can be cut around a copy of [sub]. *)
Lemma contains_spec (s sub : string) :
  Py.contains s sub = true <-> exists pre post, s = pre +:+ sub +:+ post.
Proof.
  unfold Py.contains. destruct (find_spec s sub) as [[Hr Hno] | (k & Hr & Hk & _)].
  - rewrite Hr. simpl. split; [discriminate|].
    intros (pre & post & ->).
    specialize (Hno (String.length pre)). rewrite drop_app_length in Hno.
    assert (Py.startswith sub (sub +:+ post) = true) as Ht
      by (apply startswith_app; exists post; reflexivity).
    congruence.
  - rewrite Hr. replace (Z.of_nat k =? -1) with false by (symmetry; apply Z.eqb_neq; lia).
    split; [intros _ | reflexivity].
    apply startswith_app in Hk as [post Hpost].
    exists (Py.take k s), post. rewrite <- Hpost. symmetry. apply take_drop.
Qed.

(** What is cut off by [rstrip_by] is made of characters to strip, and what
    is left does not end with one. *)
Lemma rstrip_by_spec (p : ascii -> bool) (s : string) :
  exists t, s = Py.rstrip_by p s +:+ t
            /\ Forall (fun c => p c = true) (list_ascii_of_string t)
            /\ (Py.rstrip_by p s = EmptyString
                \/ exists r c, Py.rstrip_by p s = r +:+ String c EmptyString /\ p c = false).
Proof.
  induction s as [|c s (t & Hs & Ht & Hlast)]; simpl.
  - exists EmptyString. split; [reflexivity|]. split; [constructor | left; reflexivity].
  - destruct (Py.is_empty (Py.rstrip_by p s)) eqn:Hemp; simpl.
    + destruct (Py.rstrip_by p s) as [|? ?] eqn:Hr; [|discriminate].
      rewrite append_nil in Hs. subst t.
      destruct (p c) eqn:Hpc.
      * exists (String c s). split; [reflexivity|].
        split; [simpl; constructor; assumption | left; reflexivity].
      * exists s. split; [reflexivity|]. split; [exact Ht|].
        right. exists EmptyString, c. split; [reflexivity | exact Hpc].
    + exists t. split; [rewrite append_cons; f_equal; exact Hs|]. split; [exact Ht|].
      right. destruct Hlast as [Hnil | (r & c' & Hr & Hpc)].
      * rewrite Hnil in Hemp. discriminate.
      * exists (String c r), c'. rewrite Hr. split; [reflexivity | exact Hpc].
Qed.

(** ** Pair keys *)

Lemma derive_pair_key_loop_skip (base_name lowered : string) (skipped rest : list string) :
  (forall m, m ∈ skipped -> Py.contains lowered m = false) ->
  derive_pair_key_loop base_name lowered (skipped ++ rest)
  = derive_pair_key_loop base_name lowered rest.
Proof.
  induction skipped as [|m skipped IH]; intros Hno; simpl; [reflexivity|].
  assert (Hm : Py.contains lowered m = false) by (apply Hno; left).
  unfold Py.contains in Hm. rewrite Hm.
  apply IH. intros m' Hm'. apply Hno. right. exact Hm'.
Qed.

(** The pair key of a name read as a text of the ASCII range.  With
    [base_name] the file name without its extension: when no marker occurs
    in the lowered base name the pair key is the base name; otherwise, for
    the first marker of the priority list that occurs, the base name is
    cut at the first place where the marker matches, ignoring case, the
    trailing ['-'], ['_'] and spaces of the part before it are removed,
    and the base name is used instead when nothing is left. *)
Lemma derive_pair_key_cut (file_name : string) :
  let base_name := (Py.splitext file_name).1 in
  let lowered := Py.lower base_name in
  ((forall m, m ∈ pair_key_markers -> Py.contains lowered m = false) ->
   derive_pair_key file_name = base_name)
  /\ (forall earlier marker later,
        pair_key_markers = earlier ++ marker :: later ->
        (forall m, m ∈ earlier -> Py.contains lowered m = false) ->
        Py.contains lowered marker = true ->
        exists pre post,
          base_name = pre +:+ post
          /\ Py.startswith marker (Py.lower post) = true
          /\ (forall pre' post',
                base_name = pre' +:+ post' ->
                (String.length pre' < String.length pre)%nat ->
                Py.startswith marker (Py.lower post') = false)
          /\ derive_pair_key file_name
             = (if Py.is_empty (Py.rstrip pre "-_ ") then base_name
                else Py.rstrip pre "-_ "))
  /\ derive_pair_key "Agency_SignedOrderTemplate.csv" = "Agency"
  /\ derive_pair_key "Agency_Unsigned.xlsx" = "Agency".
Proof.
  intros base_name lowered. split; [|split; [|split; reflexivity]].
  - intros Hno. unfold derive_pair_key. fold base_name. fold lowered.
    rewrite <- (app_nil_r pair_key_markers).
    rewrite derive_pair_key_loop_skip by exact Hno. reflexivity.
  - intros earlier marker later Hsplit Hno Hyes.
    unfold derive_pair_key. fold base_name. fold lowered.
    rewrite Hsplit, derive_pair_key_loop_skip by exact Hno. simpl.
    unfold Py.contains in Hyes. rewrite Hyes.
    destruct (find_spec lowered marker) as [[Hr _] | (k & Hr & Hk & Hlt)].
    { rewrite Hr in Hyes. discriminate. }
    rewrite Hr. unfold Py.slice_to. rewrite Nat2Z.id.
    exists (Py.take k base_name), (Py.drop k base_name).
    split; [symmetry; apply take_drop|].
    split; [rewrite lower_drop; exact Hk|].
    split; [|reflexivity].
    intros pre' post' Hcut Hshort.
    pose proof (take_length_le k base_name) as Hle.
    replace post' with (Py.drop (String.length pre') base_name)
      by (rewrite Hcut; apply drop_app_length).
    rewrite lower_drop. apply Hlt. lia.
Qed.

(** ** Pair keys of names with any code points *)

Lemma split_last (c : Z) (s : Uni.ustring) :
  c ∉ s \/ exists pre post, s = pre ++ c :: post /\ c ∉ post.
Proof.
  induction s as [|a s IH]; [left; intros H; inversion H|].
  destruct IH as [Hno | (pre & post & -> & Hpost)].
  - destruct (decide (a = c)) as [-> | Hne].
    + right. exists [], s. split; [reflexivity | exact Hno].
    + left. intros Hin. apply elem_of_cons in Hin as [Heq | Hin]; [congruence | contradiction].
  - right. exists (a :: pre), post. split; [reflexivity | exact Hpost].
Qed.

Lemma rfind_from_notin (c : Z) (s : Uni.ustring) (i best : Z) :
  c ∉ s -> Uni.rfind_from c s i best = best.
Proof.
  revert i best. induction s as [|a s IH]; intros i best Hno; simpl; [reflexivity|].
  apply not_elem_of_cons in Hno as [Hne Hno].
  rewrite IH by exact Hno. destruct (Z.eqb_spec a c); [congruence | reflexivity].
Qed.

Lemma rfind_from_last (c : Z) (pre post : Uni.ustring) (i best : Z) :
  c ∉ post -> Uni.rfind_from c (pre ++ c :: post) i best = i + Z.of_nat (length pre).
Proof.
  intros Hpost. revert i best. induction pre as [|a pre IH]; intros i best; simpl.
  - rewrite rfind_from_notin by exact Hpost. rewrite Z.eqb_refl. lia.
  - rewrite IH. lia.
Qed.

Lemma rfind_notin (c : Z) (s : Uni.ustring) : c ∉ s -> Uni.rfind s c = -1.
Proof. apply rfind_from_notin. Qed.

Lemma rfind_last (c : Z) (pre post : Uni.ustring) :
  c ∉ post -> Uni.rfind (pre ++ c :: post) c = Z.of_nat (length pre).
Proof. intros H. unfold Uni.rfind. rewrite rfind_from_last by exact H. lia. Qed.

Lemma take_while_all (p : Z -> bool) (s : Uni.ustring) :
  (forall a, a ∈ s -> p a = true) -> Uni.take_while p s = s.
Proof.
  induction s as [|a s IH]; intros Hall; simpl; [reflexivity|].
  rewrite (Hall a) by left. f_equal. apply IH. intros b Hb. apply Hall. right. exact Hb.
Qed.

Lemma take_while_stop (p : Z -> bool) (s rest : Uni.ustring) (c : Z) :
  (forall a, a ∈ s -> p a = true) -> p c = false -> Uni.take_while p (s ++ c :: rest) = s.
Proof.
  induction s as [|a s IH]; intros Hall Hc; simpl; [rewrite Hc; reflexivity|].
  rewrite (Hall a) by left. f_equal. apply IH; [|exact Hc].
  intros b Hb. apply Hall. right. exact Hb.
Qed.

Lemma after_last_notin (c : Z) (s : Uni.ustring) : c ∉ s -> Uni.after_last c s = s.
Proof.
  intros Hno. unfold Uni.after_last. rewrite take_while_all; [apply reverse_involutive|].
  intros a Ha. rewrite elem_of_reverse in Ha.
  apply negb_true_iff, Z.eqb_neq. intros Heq. apply Hno. rewrite <- Heq. exact Ha.
Qed.

Lemma after_last_last (c : Z) (pre post : Uni.ustring) :
  c ∉ post -> Uni.after_last c (pre ++ c :: post) = post.
Proof.
  intros Hno. unfold Uni.after_last. rewrite reverse_app, reverse_cons, <- app_assoc. simpl.
  rewrite take_while_stop; [apply reverse_involutive | | rewrite Z.eqb_refl; reflexivity].
  intros a Ha. rewrite elem_of_reverse in Ha.
  apply negb_true_iff, Z.eqb_neq. intros Heq. apply Hno. rewrite <- Heq. exact Ha.
Qed.

Lemma drop_while_suffix (p : Z -> bool) (s : Uni.ustring) (a : Z) :
  a ∈ Uni.drop_while p s -> a ∈ s.
Proof.
  induction s as [|b s IH]; simpl; [auto|].
  destruct (p b); [intros H; right; apply IH, H | auto].
Qed.

Lemma existsb_notin (c : Z) (s : Uni.ustring) : c ∉ s -> existsb (Z.eqb c) s = false.
Proof.
  intros Hno. apply not_true_is_false. intros H.
  apply existsb_exists in H as (a & Ha & Heq). apply Z.eqb_eq in Heq. subst a.
  apply Hno, list_elem_of_In, Ha.
Qed.

Lemma existsb_in (c : Z) (s : Uni.ustring) : c ∈ s -> existsb (Z.eqb c) s = true.
Proof.
  intros Hin. apply existsb_exists. exists c. split; [apply list_elem_of_In, Hin | apply Z.eqb_refl].
Qed.

(** The leading dots of a text and what follows them. *)
Lemma leading_dots (s : Uni.ustring) :
  exists dots, s = dots ++ Uni.drop_while (Z.eqb 46) s
               /\ forallb (Z.eqb 46) dots = true
               /\ (forallb (Z.eqb 46) s = true -> Uni.drop_while (Z.eqb 46) s = [])
               /\ (forallb (Z.eqb 46) s = false ->
                   exists x rest, Uni.drop_while (Z.eqb 46) s = x :: rest /\ x <> 46).
Proof.
  induction s as [|a s (dots & Hs & Hdots & Hall & Hsome)].
  - exists []. repeat split; try reflexivity. discriminate.
  - cbn [Uni.drop_while forallb]. destruct (Z.eqb_spec 46 a) as [<- | Hne]; cbn [andb].
    + exists (46 :: dots). split; [cbn [app]; f_equal; exact Hs|].
      split; [cbn [forallb]; rewrite Z.eqb_refl; exact Hdots|]. split; assumption.
    + exists []. split; [reflexivity|]. split; [reflexivity|]. split; [discriminate|].
      intros _. exists a, s. split; [reflexivity | congruence].
Qed.

Lemma splitext_scan_spec (a b c : Uni.ustring) :
  Uni.splitext_scan (a ++ b ++ c) (Z.of_nat (length a)) (length b)
  = negb (forallb (Z.eqb 46) b).
Proof.
  revert a. induction b as [|x b IH]; intros a; [reflexivity|].
  cbn [length Uni.splitext_scan forallb]. unfold Uni.slice_from.
  rewrite Nat2Z.id, list.drop_app_length. cbn [app].
  rewrite (Z.eqb_sym 46 x).
  destruct (x =? 46); [|reflexivity]. cbn [andb].
  specialize (IH (a ++ [x])). rewrite length_app in IH. simpl in IH.
  rewrite <- app_assoc in IH. simpl in IH.
  replace (Z.of_nat (length a) + 1) with (Z.of_nat (length a + 1)) by lia.
  exact IH.
Qed.

(** The root that [os.path.splitext] returns is the name without its
    extension. *)
Lemma splitext_stem (p : Uni.ustring) : (Uni.splitext p).1 = Uni.stem p.
Proof.
  assert (Hdecomp : exists d comp, p = d ++ comp /\ (47 ∉ comp)
                      /\ Uni.rfind p 47 + 1 = Z.of_nat (length d)
                      /\ (d = [] \/ exists d', d = d' ++ [47])).
  { destruct (split_last 47 p) as [Hno | (pre & post & -> & Hpost)].
    - exists [], p. rewrite rfind_notin by exact Hno. auto.
    - exists (pre ++ [47]), post. rewrite <- app_assoc. simpl.
      rewrite rfind_last by exact Hpost. rewrite length_app. simpl.
      repeat split; [exact Hpost | lia | right; exists pre; reflexivity]. }
  destruct Hdecomp as (d & comp & -> & Hcomp & Hsep & Hd).
  unfold Uni.stem, Uni.splitext.
  assert (Hafter : Uni.after_last 47 (d ++ comp) = comp).
  { destruct Hd as [-> | (d' & ->)]; [apply after_last_notin, Hcomp|].
    rewrite <- app_assoc. simpl. apply after_last_last, Hcomp. }
  rewrite Hafter.
  destruct (split_last 46 comp) as [Hno | (cpre & post & -> & Hpost)].
  - (* no dot in the last component *)
    assert (Hbody : existsb (Z.eqb 46) (Uni.drop_while (Z.eqb 46) comp) = false).
    { apply existsb_notin. intros Hin. apply Hno. eapply drop_while_suffix, Hin. }
    rewrite Hbody.
    assert (Hdot : (Uni.rfind (d ++ comp) 47 <? Uni.rfind (d ++ comp) 46) = false).
    { apply Z.ltb_ge.
      destruct Hd as [-> | (d' & ->)].
      - simpl. rewrite (rfind_notin 46 comp) by exact Hno.
        simpl in Hsep. lia.
      - destruct (split_last 46 d') as [Hno' | (pre' & post' & -> & Hpost')].
        + rewrite (rfind_notin 46).
          * rewrite length_app in Hsep. simpl in Hsep. lia.
          * rewrite !not_elem_of_app. repeat split; try assumption.
            intros H. apply list_elem_of_singleton in H. discriminate.
        + replace ((pre' ++ 46 :: post') ++ [47]) with (pre' ++ 46 :: (post' ++ [47]))
            in * by (rewrite <- app_assoc; reflexivity).
          rewrite <- app_assoc. simpl.
          rewrite (rfind_last 46).
          * rewrite !length_app in Hsep. simpl in Hsep. rewrite length_app in Hsep.
            simpl in Hsep. rewrite <- app_assoc in Hsep. simpl in Hsep. lia.
          * rewrite !not_elem_of_app. repeat split; try assumption.
            intros H. apply list_elem_of_singleton in H. discriminate. }
    rewrite Hdot. reflexivity.
  - (* the last dot is in the last component *)
    apply not_elem_of_app in Hcomp as [Hcpre Hcomp].
    apply not_elem_of_cons in Hcomp as [_ Hpost47].
    assert (Hdot : Uni.rfind (d ++ cpre ++ 46 :: post) 46 = Z.of_nat (length (d ++ cpre))).
    { rewrite app_assoc. apply rfind_last, Hpost. }
    rewrite Hdot. rewrite length_app in *.
    replace (Uni.rfind (d ++ cpre ++ 46 :: post) 47 <? Z.of_nat (length d + length cpre))
      with true by (symmetry; apply Z.ltb_lt; lia).
    replace (Z.to_nat (Z.of_nat (length d + length cpre)
                       - (Uni.rfind (d ++ cpre ++ 46 :: post) 47 + 1)))
      with (length cpre) by lia.
    rewrite Hsep. cbn [andb].
    rewrite (splitext_scan_spec d cpre (46 :: post)).
    destruct (leading_dots cpre) as (dots & Hcut & Hdots & Hall & Hsome).
    destruct (forallb (Z.eqb 46) cpre) eqn:Eall; cbn [negb fst].
    + (* only dots before the last dot: no extension *)
      assert (Hbody : Uni.drop_while (Z.eqb 46) (cpre ++ 46 :: post)
                      = Uni.drop_while (Z.eqb 46) post).
      { clear -Eall. induction cpre as [|a cpre IH].
        - cbn [app Uni.drop_while]. rewrite Z.eqb_refl. reflexivity.
        - cbn [app Uni.drop_while forallb] in *.
          apply andb_prop in Eall as [Ha Eall]. rewrite Ha. apply IH, Eall. }
      rewrite Hbody.
      rewrite existsb_notin; [reflexivity|].
      intros Hin. apply Hpost. eapply drop_while_suffix, Hin.
    + destruct (Hsome eq_refl) as (x & rest & Hdrop & Hx).
      assert (Hbody : Uni.drop_while (Z.eqb 46) (cpre ++ 46 :: post)
                      = (x :: rest) ++ 46 :: post).
      { rewrite Hcut at 1. rewrite Hdrop. clear -Hdots Hx.
        induction dots as [|a dots IH].
        - cbn [app Uni.drop_while]. destruct (Z.eqb_spec 46 x); [congruence | reflexivity].
        - cbn [app Uni.drop_while forallb] in *.
          apply andb_prop in Hdots as [Ha Hdots]. rewrite Ha. apply IH, Hdots. }
      rewrite Hbody.
      rewrite existsb_in by (apply elem_of_app; right; left).
      rewrite after_last_last by exact Hpost.
      unfold Uni.slice_to. rewrite Nat2Z.id. f_equal.
      rewrite !length_app. simpl. lia.
Qed.

Lemma rstrip_by_reverse (p : Z -> bool) (s : Uni.ustring) :
  Uni.rstrip_by p s = reverse (Uni.drop_while p (reverse s)).
Proof.
  induction s as [|c s IH] using rev_ind; [reflexivity|].
  rewrite reverse_app. simpl.
  assert (Hsnoc : forall t, Uni.rstrip_by p (t ++ [c])
                            = if p c then Uni.rstrip_by p t else t ++ [c]).
  { clear. induction t as [|a t IHt]; simpl; [destruct (p c); reflexivity|].
    rewrite IHt. destruct (p c) eqn:E; [reflexivity|].
    destruct (t ++ [c]) eqn:Et; [destruct t; discriminate | reflexivity]. }
  rewrite Hsnoc. destruct (p c); [exact IH|].
  rewrite reverse_cons, reverse_involutive. reflexivity.
Qed.


Lemma lower_point_single (lower_other : Uni.ustring -> Z -> Uni.ustring -> Z)
    (before : Uni.ustring) (c : Z) (after : Uni.ustring) :
  (forall b x a, 128 <= x -> 128 <= lower_other b x a) ->
  c <> 304 ->
  exists l, Uni.lower_point lower_other before c after = [l]
            /\ forall m, Uni.marker_point m -> (m =? l) = Uni.same_letter m c.
Proof.
  intros Hother Hc. unfold Uni.lower_point, Uni.same_letter.
  destruct ((65 <=? c) && (c <=? 90))%bool eqn:Hup.
  - exists (c + 32). split; [reflexivity|]. intros m (Hm & Hcap & Hk).
    apply andb_prop in Hup as [H1 H2]. apply Z.leb_le in H1, H2.
    replace (c =? m) with false by (symmetry; apply Z.eqb_neq; lia).
    cbn [orb andb]. apply Z.eqb_sym.
  - cbn [andb]. destruct (c <? 128) eqn:Hascii.
    + exists c. split; [reflexivity|]. intros m _.
      rewrite orb_false_r. apply Z.eqb_sym.
    + apply Z.ltb_ge in Hascii.
      assert (Hno : forall m, Uni.marker_point m -> ((c =? m) || false)%bool = false).
      { intros m (Hm & _). rewrite orb_false_r. apply Z.eqb_neq. lia. }
      destruct (Z.eqb_spec c 304) as [-> | _]; [contradiction|].
      destruct (Z.eqb_spec c 8490) as [-> | _].
      * exists 107. split; [reflexivity|]. intros m Hm. rewrite (Hno m Hm).
        apply Z.eqb_neq. destruct Hm as (_ & _ & Hk). exact Hk.
      * exists (lower_other before c after). split; [reflexivity|].
        intros m Hm. rewrite (Hno m Hm). specialize (Hother before c after Hascii).
        apply Z.eqb_neq. destruct Hm as (Hm & _). lia.
Qed.

(** In the lowered text of a name without U+0130 a marker stands where it
    stands in the name itself, the case of the letters set aside. *)
Lemma startswith_lower (lower_other : Uni.ustring -> Z -> Uni.ustring -> Z)
    (marker s before : Uni.ustring) :
  (forall b x a, 128 <= x -> 128 <= lower_other b x a) ->
  Forall Uni.marker_point marker ->
  304 ∉ s ->
  Uni.startswith marker (Uni.lower_from lower_other before s) = Uni.occurs_at marker s.
Proof.
  intros Hother Hmarker. revert s before.
  induction Hmarker as [|m marker Hm Hmarker IH]; intros s before Hs.
  - destruct s; reflexivity.
  - destruct s as [|c s]; [reflexivity|].
    apply not_elem_of_cons in Hs as [Hc Hs].
    destruct (lower_point_single lower_other before c s Hother) as (l & Hl & Hsame);
      [congruence|].
    cbn [Uni.lower_from Uni.occurs_at]. rewrite Hl. cbn [app Uni.startswith].
    rewrite (Hsame m Hm), (IH s (before ++ [c]) Hs).
    destruct (Uni.same_letter m c); reflexivity.
Qed.

Lemma find_from_lower (lower_other : Uni.ustring -> Z -> Uni.ustring -> Z)
    (marker s before : Uni.ustring) (i : Z) :
  (forall b x a, 128 <= x -> 128 <= lower_other b x a) ->
  Forall Uni.marker_point marker ->
  304 ∉ s ->
  Uni.find_from marker (Uni.lower_from lower_other before s) i
  = match Uni.first_occurrence marker s with
    | Some k => i + Z.of_nat k
    | None => -1
    end.
Proof.
  intros Hother Hmarker. revert before i.
  induction s as [|c s IH]; intros before i Hs.
  - cbn [Uni.lower_from Uni.find_from Uni.first_occurrence].
    destruct marker; cbn [Uni.startswith Uni.occurs_at]; [lia | reflexivity].
  - pose proof (startswith_lower lower_other marker (c :: s) before Hother Hmarker Hs) as Hhead.
    apply not_elem_of_cons in Hs as [Hc Hs].
    destruct (lower_point_single lower_other before c s Hother) as (l & Hl & _);
      [congruence|].
    cbn [Uni.first_occurrence]. rewrite <- Hhead.
    cbn [Uni.lower_from] in *. rewrite Hl in *. cbn [app] in *.
    cbn [Uni.find_from]. destruct (Uni.startswith marker _); [lia|].
    rewrite (IH (before ++ [c]) (i + 1) Hs).
    destruct (Uni.first_occurrence marker s); simpl; lia.
Qed.

Lemma markers_points : Forall (Forall Uni.marker_point) Uni.markers.
Proof.
  set (ms := Uni.markers). vm_compute in ms. subst ms.
  repeat first [apply List.Forall_nil | apply List.Forall_cons];
    unfold Uni.marker_point; lia.
Qed.

Lemma drop_while_ext (p q : Z -> bool) (s : Uni.ustring) :
  (forall c, p c = q c) -> Uni.drop_while p s = Uni.drop_while q s.
Proof.
  intros Hpq. induction s as [|c s IH]; simpl; [reflexivity|].
  rewrite Hpq, IH. reflexivity.
Qed.

Lemma rstrip_strip_trailing (s seps : Uni.ustring) :
  Uni.rstrip s seps = Uni.strip_trailing seps s.
Proof.
  unfold Uni.rstrip, Uni.strip_trailing. rewrite rstrip_by_reverse. f_equal.
  apply drop_while_ext. intros c.
  destruct (decide (c ∈ seps)) as [Hin | Hno].
  - rewrite bool_decide_eq_true_2 by exact Hin. apply existsb_in, Hin.
  - rewrite bool_decide_eq_false_2 by exact Hno. apply existsb_notin, Hno.
Qed.

Lemma derive_pair_key_loop_spec (lower_other : Uni.ustring -> Z -> Uni.ustring -> Z)
    (base_name : Uni.ustring) (markers : list Uni.ustring) :
  (forall b x a, 128 <= x -> 128 <= lower_other b x a) ->
  Forall (Forall Uni.marker_point) markers ->
  304 ∉ base_name ->
  Uni.derive_pair_key_loop base_name (Uni.lower lower_other base_name) markers
  = match Uni.cut_at_first_marker base_name markers with
    | None => base_name
    | Some head =>
        match Uni.strip_trailing (Uni.of_string "-_ ") head with
        | [] => base_name
        | key => key
        end
    end.
Proof.
  intros Hother Hmarkers Hbase.
  induction Hmarkers as [|marker markers Hmarker Hmarkers IH]; [reflexivity|].
  cbn [Uni.derive_pair_key_loop Uni.cut_at_first_marker].
  unfold Uni.find, Uni.lower.
  rewrite (find_from_lower lower_other marker base_name [] 0 Hother Hmarker Hbase).
  destruct (Uni.first_occurrence marker base_name) as [k|].
  - replace (0 + Z.of_nat k =? -1) with false by (symmetry; apply Z.eqb_neq; lia).
    cbn [negb]. unfold Uni.slice_to. replace (Z.to_nat (0 + Z.of_nat k)) with k by lia.
    rewrite rstrip_strip_trailing. unfold Uni.str_or.
    destruct (Uni.strip_trailing _ _); reflexivity.
  - cbn [Z.eqb negb]. exact IH.
Qed.

Lemma stem_prefix (file_name : Uni.ustring) (c : Z) :
  c ∈ Uni.stem file_name -> c ∈ file_name.
Proof.
  unfold Uni.stem. destruct (existsb _ _); [|auto].
  intros Hin. eapply subseteq_take, Hin.
Qed.

(** On a name without U+0130 the code computes the pair key of the
    specification. *)
Lemma derive_pair_key_spec (lower_other : Uni.ustring -> Z -> Uni.ustring -> Z)
    (file_name : Uni.ustring) :
  (forall b x a, 128 <= x -> 128 <= lower_other b x a) ->
  304 ∉ file_name ->
  Uni.derive_pair_key lower_other file_name = Uni.pair_key_spec file_name.
Proof.
  intros Hother Hname. unfold Uni.derive_pair_key, Uni.pair_key_spec.
  rewrite splitext_stem.
  apply derive_pair_key_loop_spec; [exact Hother | apply markers_points|].
  intros Hin. apply Hname, (stem_prefix _ _ Hin).
Qed.


(** ** Names in the ASCII range *)

Lemma of_string_cons (c : ascii) (s : string) :
  Uni.of_string (String c s) = Z.of_nat (nat_of_ascii c) :: Uni.of_string s.
Proof. reflexivity. Qed.

Lemma code_eqb (a b : ascii) :
  (Z.of_nat (nat_of_ascii a) =? Z.of_nat (nat_of_ascii b)) = Ascii.eqb a b.
Proof.
  destruct (Ascii.eqb_spec a b) as [-> | Hne]; [apply Z.eqb_refl|].
  apply Z.eqb_neq. intros Heq. apply Hne.
  rewrite <- (ascii_nat_embedding a), <- (ascii_nat_embedding b). f_equal. lia.
Qed.

Lemma lower_ascii_code (lower_other : Uni.ustring -> Z -> Uni.ustring -> Z)
    (before after : Uni.ustring) (c : ascii) :
  Z.of_nat (nat_of_ascii c) < 128 ->
  Uni.lower_point lower_other before (Z.of_nat (nat_of_ascii c)) after
  = [Z.of_nat (nat_of_ascii (Py.lower_ascii c))].
Proof.
  intros Hc. unfold Uni.lower_point, Py.lower_ascii.
  replace (65 <=? Z.of_nat (nat_of_ascii c)) with (65 <=? nat_of_ascii c)%nat
    by (destruct (Nat.leb_spec 65 (nat_of_ascii c)), (Z.leb_spec 65 (Z.of_nat (nat_of_ascii c)));
        (reflexivity || lia)).
  replace (Z.of_nat (nat_of_ascii c) <=? 90) with (nat_of_ascii c <=? 90)%nat
    by (destruct (Nat.leb_spec (nat_of_ascii c) 90), (Z.leb_spec (Z.of_nat (nat_of_ascii c)) 90);
        (reflexivity || lia)).
  destruct ((65 <=? nat_of_ascii c)%nat && (nat_of_ascii c <=? 90)%nat)%bool eqn:Hup.
  - apply andb_prop in Hup as [H1 H2]. apply Nat.leb_le in H1, H2.
    rewrite nat_ascii_embedding by lia. f_equal. lia.
  - replace (Z.of_nat (nat_of_ascii c) <? 128) with true by (symmetry; apply Z.ltb_lt; lia).
    reflexivity.
Qed.

Lemma lower_from_ascii (lower_other : Uni.ustring -> Z -> Uni.ustring -> Z)
    (before : Uni.ustring) (s : string) :
  (forall c, c ∈ Uni.of_string s -> c < 128) ->
  Uni.lower_from lower_other before (Uni.of_string s) = Uni.of_string (Py.lower s).
Proof.
  revert before. induction s as [|c s IH]; intros before Hascii; [reflexivity|].
  rewrite of_string_cons in *. cbn [Uni.lower_from Py.lower].
  rewrite lower_ascii_code by (apply Hascii; left).
  rewrite of_string_cons. cbn [app]. f_equal.
  apply IH. intros x Hx. apply Hascii. right. exact Hx.
Qed.

Lemma startswith_code (p s : string) :
  Uni.startswith (Uni.of_string p) (Uni.of_string s) = Py.startswith p s.
Proof.
  revert s. induction p as [|a p IH]; intros [|b s]; try reflexivity.
  rewrite !of_string_cons. cbn [Uni.startswith Py.startswith].
  rewrite code_eqb, IH. reflexivity.
Qed.

Lemma find_from_code (sub s : string) (i : Z) :
  Uni.find_from (Uni.of_string sub) (Uni.of_string s) i = Py.find_from sub s i.
Proof.
  revert i. induction s as [|c s IH]; intros i.
  - cbn [Uni.find_from Py.find_from]. rewrite <- startswith_code. reflexivity.
  - rewrite of_string_cons. cbn [Uni.find_from Py.find_from].
    rewrite <- of_string_cons, startswith_code, IH. reflexivity.
Qed.

Lemma rfind_from_code (c : ascii) (s : string) (i best : Z) :
  Uni.rfind_from (Z.of_nat (nat_of_ascii c)) (Uni.of_string s) i best
  = Py.rfind_char_from c s i best.
Proof.
  revert i best. induction s as [|a s IH]; intros i best; [reflexivity|].
  rewrite of_string_cons. cbn [Uni.rfind_from Py.rfind_char_from].
  rewrite code_eqb, IH. reflexivity.
Qed.

Lemma take_code (n : nat) (s : string) :
  Uni.of_string (Py.take n s) = take n (Uni.of_string s).
Proof.
  revert s. induction n as [|n IH]; intros [|c s]; try reflexivity.
  cbn [Py.take]. rewrite !of_string_cons. cbn [take]. f_equal. apply IH.
Qed.

Lemma drop_code (n : nat) (s : string) :
  Uni.of_string (Py.drop n s) = drop n (Uni.of_string s).
Proof.
  revert s. induction n as [|n IH]; intros [|c s]; try reflexivity.
  cbn [Py.drop]. rewrite of_string_cons. cbn [drop]. apply IH.
Qed.

Lemma mem_ascii_code (c : ascii) (chars : string) :
  existsb (Z.eqb (Z.of_nat (nat_of_ascii c))) (Uni.of_string chars) = Py.mem_ascii c chars.
Proof.
  induction chars as [|a chars IH]; [reflexivity|].
  rewrite of_string_cons. cbn [existsb Py.mem_ascii].
  rewrite code_eqb, IH, (Ascii.eqb_sym c a). destruct (Ascii.eqb a c); reflexivity.
Qed.

Lemma rstrip_code (s chars : string) :
  Uni.of_string (Py.rstrip s chars) = Uni.rstrip (Uni.of_string s) (Uni.of_string chars).
Proof.
  unfold Py.rstrip, Uni.rstrip. induction s as [|c s IH]; [reflexivity|].
  rewrite of_string_cons. cbn [Py.rstrip_by Uni.rstrip_by]. rewrite <- IH.
  rewrite mem_ascii_code.
  destruct (Py.rstrip_by _ s) as [|d r]; cbn [Py.is_empty andb].
  - change (Uni.of_string EmptyString) with (@nil Z).
    destruct (Py.mem_ascii c chars); reflexivity.
  - rewrite !of_string_cons. reflexivity.
Qed.

Lemma splitext_scan_code (p : string) (i : Z) (n : nat) :
  Uni.splitext_scan (Uni.of_string p) i n = Py.splitext_scan p i n.
Proof.
  revert i. induction n as [|n IH]; intros i; [reflexivity|].
  cbn [Uni.splitext_scan Py.splitext_scan]. unfold Uni.slice_from, Py.char_at.
  rewrite <- drop_code, IH.
  destruct (Py.drop (Z.to_nat i) p) as [|c t]; [reflexivity|].
  rewrite of_string_cons. cbn [Py.take].
  change 46 with (Z.of_nat (nat_of_ascii ".")). rewrite code_eqb.
  destruct (Ascii.eqb_spec c ".") as [-> | Hne]; [reflexivity|].
  replace (String c EmptyString =? ".")%string with false; [reflexivity|].
  symmetry. apply String.eqb_neq. congruence.
Qed.

Lemma splitext_code (p : string) :
  (Uni.splitext (Uni.of_string p)).1 = Uni.of_string (Py.splitext p).1.
Proof.
  unfold Uni.splitext, Py.splitext, Uni.rfind, Py.rfind_char.
  change 47 with (Z.of_nat (nat_of_ascii "/")). change 46 with (Z.of_nat (nat_of_ascii ".")).
  rewrite !rfind_from_code, splitext_scan_code.
  destruct (_ && _)%bool; [|reflexivity].
  cbn [fst]. unfold Uni.slice_to, Py.slice_to. symmetry. apply take_code.
Qed.

Lemma derive_pair_key_loop_code (base_name lowered : string) (markers : list string) :
  Uni.derive_pair_key_loop (Uni.of_string base_name) (Uni.of_string lowered)
    (map Uni.of_string markers)
  = Uni.of_string (derive_pair_key_loop base_name lowered markers).
Proof.
  induction markers as [|marker markers IH]; [reflexivity|].
  cbn [map Uni.derive_pair_key_loop derive_pair_key_loop].
  unfold Uni.find, Py.find. rewrite find_from_code.
  destruct (negb _); [|exact IH].
  unfold Uni.slice_to, Py.slice_to. rewrite <- take_code, <- rstrip_code.
  unfold Uni.str_or, Py.str_or.
  destruct (Py.rstrip _ _); reflexivity.
Qed.

(** On a name written in the ASCII range the pair key is the one that
    [derive_pair_key] computes on the text itself. *)
Lemma derive_pair_key_ascii (lower_other : Uni.ustring -> Z -> Uni.ustring -> Z)
    (file_name : string) :
  (forall c, c ∈ Uni.of_string file_name -> c < 128) ->
  Uni.derive_pair_key lower_other (Uni.of_string file_name)
  = Uni.of_string (derive_pair_key file_name).
Proof.
  intros Hascii. unfold Uni.derive_pair_key, derive_pair_key, Uni.lower.
  rewrite splitext_code, lower_from_ascii.
  - apply derive_pair_key_loop_code.
  - intros c Hc. apply Hascii. rewrite <- splitext_code, splitext_stem in Hc.
    apply (stem_prefix _ _ Hc).
Qed.

(** C8.  [derive_pair_key] cuts the name where the marker stands in the
    lowered name, which is not always where it stands in the name.  On a
    name without U+0130 (capital I with a dot above), whatever its other
    code points, the pair key is the one of the specification: the name
    without its extension, cut at the first marker of the priority list
    that occurs in it, the case of the letters set aside, and without the
    ['-'], ['_'] and spaces at the end of what is left; the name without
    its extension when nothing is left or no marker occurs.  On a name of
    the ASCII range it is the key that [derive_pair_key] gives for the
    text.  The two names of the specification give ["Agency"]; the first
    marker of the list wins over one that stands earlier in the name; a
    name that starts with its marker and a name without marker keep all
    but the extension.  [str.lower] writes U+0130 as two code points, so
    the names ["İZMİR_Signed.csv"] and ["İİ_signed.csv"], with two of them
    before the marker, are cut two places too far: their keys are
    ["İZMİR_S"] and ["İİ_s"], not ["İZMİR"] and ["İİ"]. *)
Theorem derive_pair_key_first_marker (lower_other : Uni.ustring -> Z -> Uni.ustring -> Z) :
  (forall before c after, 128 <= c -> 128 <= lower_other before c after) ->
  let key := Uni.derive_pair_key lower_other in
  (forall file_name, 304 ∉ file_name -> key file_name = Uni.pair_key_spec file_name)
  /\ (forall file_name : string,
        (forall c, c ∈ Uni.of_string file_name -> c < 128) ->
        key (Uni.of_string file_name) = Uni.of_string (derive_pair_key file_name))
  /\ key (Uni.of_string "Agency_SignedOrderTemplate.csv") = Uni.of_string "Agency"
  /\ key (Uni.of_string "Agency_Unsigned.xlsx") = Uni.of_string "Agency"
  /\ key (Uni.of_string "Visit Notes - _Unsigned_SignedOrder.v2.xlsx")
     = Uni.of_string "Visit Notes - _Unsigned"
  /\ key (Uni.of_string "Luna - _Signed.csv") = Uni.of_string "Luna"
  /\ key (Uni.of_string "_signed.csv") = Uni.of_string "_signed"
  /\ key (Uni.of_string "report.final.csv") = Uni.of_string "report.final"
  /\ (let name := [304; 90; 77; 304; 82] ++ Uni.of_string "_Signed.csv" in
      key name = [304; 90; 77; 304; 82] ++ Uni.of_string "_S"
      /\ Uni.pair_key_spec name = [304; 90; 77; 304; 82])
  /\ (let name := [304; 304] ++ Uni.of_string "_signed.csv" in
      key name = [304; 304] ++ Uni.of_string "_s"
      /\ Uni.pair_key_spec name = [304; 304]).
Proof.
  intros Hother key. subst key.
  split; [intros file_name Hname; apply derive_pair_key_spec; assumption|].
  split; [intros file_name Hascii; apply derive_pair_key_ascii; assumption|].
  repeat split; vm_compute; reflexivity.
Qed.

Lemma derive_pair_key_first_marker_witness :
  let name := Uni.of_string "Jos" ++ [233] ++ Uni.of_string " - _Signed.csv" in
  (304 ∉ name)
  /\ Uni.derive_pair_key (fun _ c _ => c) name = Uni.of_string "Jos" ++ [233]
  /\ Uni.pair_key_spec name = Uni.of_string "Jos" ++ [233].
Proof.
  intros name.
  assert (Hname : 304 ∉ name).
  { intros Hin. apply list_elem_of_In in Hin. vm_compute in Hin.
    repeat (destruct Hin as [Hin | Hin]; [discriminate Hin|]). exact Hin. }
  destruct (derive_pair_key_first_marker (fun _ c _ => c)) as [Hspec _];
    [intros _ c _ Hc; exact Hc|].
  split; [exact Hname|]. split; [rewrite (Hspec name Hname)|]; vm_compute; reflexivity.
Defined.


(** ** Identifier extraction *)

Lemma extract_order_identifiers_loop_skip (df : DataFrame) (skipped rest : list string) :
  (forall c, c ∈ skipped -> has_column df c = false) ->
  extract_order_identifiers_loop df (skipped ++ rest) = extract_order_identifiers_loop df rest.
Proof.
  induction skipped as [|c skipped IH]; intros Hno; simpl; [reflexivity|].
  rewrite (Hno c) by left. apply IH. intros c' Hc'. apply Hno. right. exact Hc'.
Qed.

(** The identifiers come from the first candidate column of the table
    alone: they are the trimmed texts of its cells that are not missing. *)
Lemma extract_order_identifiers_first_present (df : DataFrame)
    (earlier : list string) (column : string) (later : list string) :
  IDENTIFIER_COLUMNS = earlier ++ column :: later ->
  (forall c, c ∈ earlier -> has_column df c = false) ->
  has_column df column = true ->
  forall v, v ∈ extract_order_identifiers df
            <-> exists s, Some s ∈ df_column df column /\ v = Py.strip s.
Proof.
  intros Hsplit Hno Hyes v. unfold extract_order_identifiers.
  rewrite Hsplit, extract_order_identifiers_loop_skip by exact Hno. simpl. rewrite Hyes.
  rewrite elem_of_list_to_set, list_elem_of_In, in_map_iff. unfold dropna. split.
  - intros (s & <- & Hin). exists s. split; [|reflexivity].
    apply list_elem_of_In, list_elem_of_omap in Hin as (c & Hc & Hs).
    simpl in Hs. subst c. exact Hc.
  - intros (s & Hin & ->). exists s. split; [reflexivity|].
    apply list_elem_of_In, list_elem_of_omap. exists (Some s). split; [exact Hin | reflexivity].
Qed.

Lemma extract_order_identifiers_none_present (df : DataFrame) :
  (forall c, c ∈ IDENTIFIER_COLUMNS -> has_column df c = false) ->
  extract_order_identifiers df = ∅.
Proof.
  intros Hno. unfold extract_order_identifiers.
  rewrite <- (app_nil_r IDENTIFIER_COLUMNS).
  rewrite extract_order_identifiers_loop_skip by exact Hno. reflexivity.
Qed.

(** C2.  On the table [blank_identifier_table] the identifiers are taken
    from ["OrderId"] only, trimmed, and the missing cell is left out, but
    the cell made of blanks is kept, as the empty string. *)
Theorem extract_order_identifiers_keeps_blank :
  extract_order_identifiers blank_identifier_table = {[ "1001"; "" ]}
  /\ EmptyString ∈ extract_order_identifiers blank_identifier_table.
Proof.
  assert (H : extract_order_identifiers blank_identifier_table = {[ "1001"; "" ]}).
  { apply set_eq. intros v.
    rewrite (extract_order_identifiers_first_present blank_identifier_table
               [] "OrderId" ["Order Number"; "Document Id"] eq_refl);
      [|intros c Hc; inversion Hc | reflexivity].
    cbn. split.
    - intros (s & Hin & ->).
      apply list_elem_of_In in Hin. simpl in Hin.
      destruct Hin as [Heq | [Heq | [Heq | []]]]; inversion Heq; subst; cbn; set_solver.
    - intros Hv. apply elem_of_union in Hv as [Hv | Hv]; apply elem_of_singleton in Hv; subst v.
      + exists " 1001 ". split; [left | reflexivity].
      + exists "   ". split; [right; left | reflexivity]. }
  split; [exact H|]. rewrite H. set_solver.
Qed.

(** ** Sorted listings of identifier sets *)

Lemma py_sorted_elem_of (s : gset string) (x : string) : x ∈ py_sorted s <-> x ∈ s.
Proof.
  unfold py_sorted. rewrite (merge_sort_Permutation String.le (elements s)).
  apply elem_of_elements.
Qed.

Lemma py_sorted_sorted (s : gset string) : StronglySorted String.le (py_sorted s).
Proof. unfold py_sorted. apply StronglySorted_merge_sort; apply _. Qed.

Lemma py_sorted_NoDup (s : gset string) : NoDup (py_sorted s).
Proof.
  unfold py_sorted. rewrite (merge_sort_Permutation String.le (elements s)).
  apply NoDup_elements.
Qed.

Lemma py_sorted_length (s : gset string) : length (py_sorted s) = size s.
Proof.
  unfold py_sorted. rewrite (merge_sort_Permutation String.le (elements s)). reflexivity.
Qed.

(** ** Pairing *)

(** A pair that is emitted has at least one side, and its summary is
    that of its two sides. *)
Lemma pair_emit_summary (pair_map : gmap (string * string) PairSlots)
    (composite_key : string * string) (p : PairResult) :
  p ∈ pair_emit pair_map composite_key ->
  combined_summary p = summarize_pair_entries (pr_signed p) (pr_unsigned p)
  /\ (pr_signed p <> None \/ pr_unsigned p <> None).
Proof.
  unfold pair_emit.
  destruct (default _ (pair_map !! composite_key)) as [sg us]. simpl.
  destruct sg as [s|], us as [u|]; intros Hin.
  4: inversion Hin.
  all: apply list_elem_of_singleton in Hin; subst p; simpl;
    split; [reflexivity | auto; try (left; discriminate); right; discriminate].
Qed.

Lemma build_pair_results_summary (results : list FileAnalysis) (p : PairResult) :
  p ∈ build_pair_results results ->
  combined_summary p = summarize_pair_entries (pr_signed p) (pr_unsigned p)
  /\ (pr_signed p <> None \/ pr_unsigned p <> None).
Proof.
  unfold build_pair_results.
  destruct (fold_left pair_step results (∅, [])) as [pair_map ordered_keys].
  intros Hin. apply list_elem_of_In, in_concat in Hin as (ps & Hps & Hp).
  apply in_map_iff in Hps as (key & <- & _).
  apply (pair_emit_summary pair_map key). apply list_elem_of_In. exact Hp.
Qed.


Lemma slots_from_weaken (results : list FileAnalysis) (entry : FileAnalysis)
    (pair_map : gmap (string * string) PairSlots) :
  slots_from results pair_map -> slots_from (results ++ [entry]) pair_map.
Proof.
  intros Hinv key slots Hlook. destruct (Hinv key slots Hlook) as [Hs Hu]. split.
  - intros s Hsl. destruct (Hs s Hsl) as (Hin & Hrest).
    split; [apply elem_of_app; left; exact Hin | exact Hrest].
  - intros u Hsl. destruct (Hu u Hsl) as (Hin & Hrest).
    split; [apply elem_of_app; left; exact Hin | exact Hrest].
Qed.

Lemma pair_step_slots_from (results : list FileAnalysis) (entry : FileAnalysis)
    (st : gmap (string * string) PairSlots * list (string * string)) :
  slots_from results st.1 -> slots_from (results ++ [entry]) (pair_step st entry).1.
Proof.
  destruct st as [pair_map ordered_keys]. simpl. intros Hinv.
  apply (slots_from_weaken results entry) in Hinv.
  assert (Hlast : entry ∈ results ++ [entry]) by (apply elem_of_app; right; left).
  unfold pair_step. fold (composite_key_of entry). fold (in_signed_slot entry).
  set (ck := composite_key_of entry).
  destruct (pair_map !! ck) as [old|] eqn:Hold; simpl.
  - rewrite Hold. simpl. intros key slots Hlook.
    destruct (decide (ck = key)) as [<- | Hne].
    + rewrite lookup_insert_eq in Hlook. injection Hlook as <-.
      destruct (Hinv ck old Hold) as [Hs Hu].
      destruct (in_signed_slot entry) eqn:Hslot; simpl; split.
      * intros s Heq. injection Heq as <-. auto.
      * exact Hu.
      * exact Hs.
      * intros u Heq. injection Heq as <-. auto.
    + rewrite lookup_insert_ne in Hlook by exact Hne. exact (Hinv key slots Hlook).
  - rewrite lookup_insert_eq. simpl. intros key slots Hlook.
    destruct (decide (ck = key)) as [<- | Hne].
    + rewrite lookup_insert_eq in Hlook. injection Hlook as <-.
      destruct (in_signed_slot entry) eqn:Hslot; simpl; split.
      * intros s Heq. injection Heq as <-. auto.
      * intros u Heq. discriminate.
      * intros s Heq. discriminate.
      * intros u Heq. injection Heq as <-. auto.
    + rewrite !lookup_insert_ne in Hlook by exact Hne. exact (Hinv key slots Hlook).
Qed.

Lemma fold_pair_step_slots_from (results : list FileAnalysis) :
  slots_from results (fold_left pair_step results (∅, [])).1.
Proof.
  induction results as [|entry results IH] using rev_ind.
  - simpl. intros key slots Hlook. rewrite lookup_empty in Hlook. discriminate.
  - rewrite fold_left_app. simpl. apply pair_step_slots_from. exact IH.
Qed.

Lemma build_pair_results_sides (results : list FileAnalysis) (p : PairResult) :
  p ∈ build_pair_results results ->
  (forall s, pr_signed p = Some s ->
     s ∈ results /\ composite_key_of s = (pr_agency p, pr_pair_key p)
     /\ in_signed_slot s = true)
  /\ (forall u, pr_unsigned p = Some u ->
       u ∈ results /\ composite_key_of u = (pr_agency p, pr_pair_key p)
       /\ in_signed_slot u = false).
Proof.
  unfold build_pair_results.
  pose proof (fold_pair_step_slots_from results) as Hinv.
  destruct (fold_left pair_step results (∅, [])) as [pair_map ordered_keys].
  simpl in Hinv. intros Hin.
  apply list_elem_of_In, in_concat in Hin as (ps & Hps & Hp).
  apply in_map_iff in Hps as (key & <- & _).
  unfold pair_emit in Hp.
  destruct (pair_map !! key) as [slots|] eqn:Hlook; simpl in Hp; [|destruct Hp].
  destruct (Hinv key slots Hlook) as [Hs Hu].
  destruct key as [a k].
  destruct (slot_signed slots) as [s|] eqn:Es, (slot_unsigned slots) as [u|] eqn:Eu;
    simpl in Hp; [destruct Hp as [<- | []] .. | destruct Hp]; simpl;
    split; intros x Hx; try discriminate; injection Hx as <-; auto.
Qed.

(** C6.  For every pair that [build_pair_results] returns, with a missing
    side counting as the empty set: the pending signature orders are the
    sorted listing of the unsigned identifiers that are not signed, the
    signed orders without unsigned source are the sorted listing of the
    signed identifiers that are not unsigned, and each side of the pair is
    an analysis of the batch bucketed under the agency and pair key of the
    pair. *)
Theorem build_pair_results_differences (results : list FileAnalysis) (p : PairResult) :
  p ∈ build_pair_results results ->
  let signed_ids := coerce_order_ids (pr_signed p) in
  let unsigned_ids := coerce_order_ids (pr_unsigned p) in
  let summary := combined_summary p in
  pending_signature_orders summary = py_sorted (unsigned_ids ∖ signed_ids)
  /\ signed_without_unsigned_source summary = py_sorted (signed_ids ∖ unsigned_ids)
  /\ StronglySorted String.le (pending_signature_orders summary)
  /\ StronglySorted String.le (signed_without_unsigned_source summary)
  /\ (forall x, x ∈ pending_signature_orders summary <-> x ∈ unsigned_ids /\ x ∉ signed_ids)
  /\ (forall x, x ∈ signed_without_unsigned_source summary
                <-> x ∈ signed_ids /\ x ∉ unsigned_ids)
  /\ (forall s, pr_signed p = Some s ->
        s ∈ results /\ composite_key_of s = (pr_agency p, pr_pair_key p)
        /\ in_signed_slot s = true)
  /\ (forall u, pr_unsigned p = Some u ->
        u ∈ results /\ composite_key_of u = (pr_agency p, pr_pair_key p)
        /\ in_signed_slot u = false).
Proof.
  intros Hin signed_ids unsigned_ids summary.
  destruct (build_pair_results_summary results p Hin) as [Hsum _].
  destruct (build_pair_results_sides results p Hin) as [Hs Hu].
  assert (Hpend : pending_signature_orders summary = py_sorted (unsigned_ids ∖ signed_ids))
    by (subst summary; rewrite Hsum; reflexivity).
  assert (Hswu : signed_without_unsigned_source summary = py_sorted (signed_ids ∖ unsigned_ids))
    by (subst summary; rewrite Hsum; reflexivity).
  split; [exact Hpend|]. split; [exact Hswu|].
  rewrite Hpend, Hswu.
  split; [apply py_sorted_sorted|]. split; [apply py_sorted_sorted|].
  split; [intros x; rewrite py_sorted_elem_of; apply elem_of_difference|].
  split; [intros x; rewrite py_sorted_elem_of; apply elem_of_difference|].
  split; [exact Hs | exact Hu].
Qed.

Lemma build_pair_results_differences_witness :
  let signed := sample_analysis "Luna Vista" "Batch7_SignedOrderTemplate.csv" "signed"
                  ["A"; "B"] in
  let unsigned := sample_analysis "Luna Vista" "Batch7_UnsignedOrderTemplate.xlsx" "unsigned"
                    ["B"; "C"] in
  exists p, build_pair_results [signed; unsigned] = [p]
            /\ pr_pair_key p = "Batch7"
            /\ pending_signature_orders (combined_summary p) = ["C"]
            /\ signed_without_unsigned_source (combined_summary p) = ["A"].
Proof.
  intros signed unsigned.
  set (p := {| pr_pair_key := "Batch7"; pr_agency := "Luna Vista";
               pr_signed := Some signed; pr_unsigned := Some unsigned;
               combined_summary := summarize_pair_entries (Some signed) (Some unsigned) |}).
  assert (Hrun : build_pair_results [signed; unsigned] = [p]) by (vm_compute; reflexivity).
  assert (Hin : p ∈ build_pair_results [signed; unsigned]) by (rewrite Hrun; left).
  destruct (build_pair_results_differences [signed; unsigned] p Hin) as (Hpend & Hswu & _).
  exists p. split; [exact Hrun|]. split; [reflexivity|].
  split; [rewrite Hpend | rewrite Hswu]; vm_compute; reflexivity.
Defined.


(** ** First occurrences *)

Lemma unique_from_elem_of (seen xs : list string) (x : string) :
  x ∈ unique_from seen xs <-> x ∈ xs /\ x ∉ seen.
Proof.
  revert seen. induction xs as [|y xs IH]; intros seen; simpl.
  - split; [intros H; inversion H | intros [H _]; inversion H].
  - case_bool_decide as Hy.
    + rewrite IH. split.
      * intros [Hin Hns]. split; [right; exact Hin | exact Hns].
      * intros [Hin Hns]. split; [|exact Hns].
        apply elem_of_cons in Hin as [-> | Hin]; [contradiction | exact Hin].
    + rewrite elem_of_cons, IH. split.
      * intros [-> | [Hin Hns]]; [split; [left | exact Hy]|].
        split; [right; exact Hin|]. intros Hs. apply Hns. right. exact Hs.
      * intros [Hin Hns]. apply elem_of_cons in Hin as [-> | Hin]; [left; reflexivity|].
        destruct (decide (x = y)) as [-> | Hne]; [left; reflexivity|].
        right. split; [exact Hin|]. intros Hs.
        apply elem_of_cons in Hs as [-> | Hs]; [apply Hne; reflexivity | apply Hns; exact Hs].
Qed.

Lemma unique_from_NoDup (seen xs : list string) : NoDup (unique_from seen xs).
Proof.
  revert seen. induction xs as [|y xs IH]; intros seen; simpl; [constructor|].
  case_bool_decide as Hy; [apply IH|].
  constructor; [|apply IH].
  rewrite unique_from_elem_of. intros [_ Hns]. apply Hns. left.
Qed.

Lemma unique_from_snoc (seen xs : list string) (x : string) :
  unique_from seen (xs ++ [x])
  = unique_from seen xs ++ (if bool_decide (x ∈ seen \/ x ∈ xs) then [] else [x]).
Proof.
  revert seen. induction xs as [|y xs IH]; intros seen; simpl.
  - rewrite (bool_decide_ext (x ∈ seen \/ x ∈ []) (x ∈ seen)).
    + case_bool_decide; reflexivity.
    + split; [intros [H | H]; [exact H | inversion H] | intros H; left; exact H].
  - case_bool_decide as Hy.
    + rewrite IH.
      rewrite (bool_decide_ext (x ∈ seen \/ x ∈ y :: xs) (x ∈ seen \/ x ∈ xs)); [reflexivity|].
      split.
      * intros [H | H]; [left; exact H|].
        apply elem_of_cons in H as [-> | H]; [left; exact Hy | right; exact H].
      * intros [H | H]; [left; exact H | right; right; exact H].
    + simpl. rewrite IH.
      rewrite (bool_decide_ext (x ∈ seen \/ x ∈ y :: xs) (x ∈ y :: seen \/ x ∈ xs));
        [reflexivity|].
      split.
      * intros [H | H]; [left; right; exact H|].
        apply elem_of_cons in H as [-> | H]; [left; left | right; exact H].
      * intros [H | H]; [|right; right; exact H].
        apply elem_of_cons in H as [-> | H]; [right; left | left; exact H].
Qed.

Lemma unique_snoc (xs : list string) (x : string) :
  unique (xs ++ [x]) = unique xs ++ (if bool_decide (x ∈ unique xs) then [] else [x]).
Proof.
  unfold unique. rewrite unique_from_snoc.
  rewrite (bool_decide_ext (x ∈ [] \/ x ∈ xs) (x ∈ unique_from [] xs)); [reflexivity|].
  rewrite unique_from_elem_of. split.
  - intros [H | H]; [inversion H | split; [exact H | intros H'; inversion H']].
  - intros [H _]. right. exact H.
Qed.

(** ** Reconciliation *)

Lemma ids_of_snoc (template agency_name : string) (results : list FileAnalysis)
    (entry : FileAnalysis) :
  ids_of template agency_name (results ++ [entry])
  = ids_of template agency_name results
    ∪ (if (String.eqb (template_type entry) template
           && String.eqb (agency entry) agency_name)%bool
       then order_ids entry else ∅).
Proof.
  induction results as [|e results IH]; simpl.
  - apply (comm_L (∪)).
  - rewrite IH. apply (assoc_L (∪)).
Qed.

Lemma grouped_update_keys (f : Grouped -> Grouped) (a : string)
    (grouped : list (string * Grouped)) :
  map fst (grouped_update f a grouped)
  = map fst grouped ++ (if bool_decide (a ∈ map fst grouped) then [] else [a]).
Proof.
  induction grouped as [|[b payload] grouped IH]; simpl.
  - reflexivity.
  - destruct (String.eqb_spec b a) as [-> | Hne]; simpl.
    + rewrite bool_decide_eq_true_2 by left. rewrite app_nil_r. reflexivity.
    + rewrite IH. f_equal.
      rewrite (bool_decide_ext (a ∈ b :: map fst grouped) (a ∈ map fst grouped));
        [reflexivity|].
      rewrite elem_of_cons. split; [intros [-> | H]; [contradiction | exact H] | auto].
Qed.

Lemma grouped_get_update_eq (f : Grouped -> Grouped) (a : string)
    (grouped : list (string * Grouped)) :
  grouped_get a (grouped_update f a grouped) = f (grouped_get a grouped).
Proof.
  induction grouped as [|[b payload] grouped IH]; simpl.
  - rewrite String.eqb_refl. reflexivity.
  - destruct (String.eqb_spec b a) as [-> | Hne]; simpl.
    + rewrite String.eqb_refl. reflexivity.
    + destruct (String.eqb_spec b a); [contradiction | exact IH].
Qed.

Lemma grouped_get_update_ne (f : Grouped -> Grouped) (a b : string)
    (grouped : list (string * Grouped)) :
  a <> b -> grouped_get b (grouped_update f a grouped) = grouped_get b grouped.
Proof.
  intros Hab. induction grouped as [|[c payload] grouped IH]; simpl.
  - destruct (String.eqb_spec a b); [contradiction | reflexivity].
  - destruct (String.eqb_spec c a) as [-> | Hne]; simpl.
    + destruct (String.eqb_spec a b); [contradiction | reflexivity].
    + destruct (String.eqb_spec c b); [reflexivity | exact IH].
Qed.

Lemma grouped_get_elem_of (a : string) (payload : Grouped) (grouped : list (string * Grouped)) :
  NoDup (map fst grouped) -> (a, payload) ∈ grouped -> grouped_get a grouped = payload.
Proof.
  induction grouped as [|[b q] grouped IH]; simpl; intros Hnd Hin; [inversion Hin|].
  apply NoDup_cons in Hnd as [Hnotin Hnd].
  apply elem_of_cons in Hin as [Heq | Hin].
  - injection Heq as <- <-. rewrite String.eqb_refl. reflexivity.
  - destruct (String.eqb_spec b a) as [-> | Hne]; [|apply IH; assumption].
    exfalso. apply Hnotin. apply list_elem_of_In, in_map_iff.
    exists (a, payload). split; [reflexivity | apply list_elem_of_In; exact Hin].
Qed.

Lemma reconcile_step_grouped_from (processed : list FileAnalysis) (entry : FileAnalysis)
    (grouped : list (string * Grouped)) :
  grouped_from processed grouped ->
  grouped_from (processed ++ [entry]) (reconcile_step grouped entry).
Proof.
  intros [Hkeys Hsets]. unfold grouped_from, reconcile_step.
  rewrite List.filter_app, map_app. simpl. unfold reconciled at 2.
  destruct (String.eqb_spec (template_type entry) "signed") as [Hsg | Hnsg]; simpl.
  - split.
    + rewrite grouped_update_keys, unique_snoc, Hkeys. reflexivity.
    + intros a. rewrite !ids_of_snoc, Hsg. simpl.
      destruct (String.eqb_spec (agency entry) a) as [<- | Hne].
      * rewrite grouped_get_update_eq. simpl.
        destruct (Hsets (agency entry)) as [-> ->]. split; rewrite ?union_empty_r_L; reflexivity.
      * rewrite grouped_get_update_ne by exact Hne.
        destruct (Hsets a) as [-> ->]. split; rewrite ?union_empty_r_L; reflexivity.
  - destruct (String.eqb_spec (template_type entry) "unsigned") as [Hus | Hnus]; simpl.
    + split.
      * rewrite grouped_update_keys, unique_snoc, Hkeys. reflexivity.
      * intros a. rewrite !ids_of_snoc, Hus. simpl.
        destruct (String.eqb_spec (agency entry) a) as [<- | Hne].
        -- rewrite grouped_get_update_eq. simpl.
           destruct (Hsets (agency entry)) as [-> ->]. split; rewrite ?union_empty_r_L; reflexivity.
        -- rewrite grouped_get_update_ne by exact Hne.
           destruct (Hsets a) as [-> ->]. split; rewrite ?union_empty_r_L; reflexivity.
    + split.
      * rewrite app_nil_r. exact Hkeys.
      * intros a. rewrite !ids_of_snoc.
        destruct (String.eqb_spec (template_type entry) "signed"); [contradiction|].
        destruct (String.eqb_spec (template_type entry) "unsigned"); [contradiction|].
        simpl. destruct (Hsets a) as [-> ->]. split; rewrite ?union_empty_r_L; reflexivity.
Qed.

Lemma fold_reconcile_step_grouped_from (results : list FileAnalysis) :
  grouped_from results (fold_left reconcile_step results []).
Proof.
  induction results as [|entry results IH] using rev_ind.
  - split; [reflexivity | intros a; split; reflexivity].
  - rewrite fold_left_app. simpl. apply reconcile_step_grouped_from. exact IH.
Qed.

Lemma build_reconciliation_summary_fold (results : list FileAnalysis) :
  build_reconciliation_summary results
  = map reconcile_emit (fold_left reconcile_step results []).
Proof. destruct results; reflexivity. Qed.

Lemma reconcile_emit_agency (grouped : list (string * Grouped)) :
  map re_agency (map reconcile_emit grouped) = map fst grouped.
Proof.
  induction grouped as [|[a payload] grouped IH]; simpl; [reflexivity | f_equal; exact IH].
Qed.

(** C7.  The reconciliation of the empty batch is empty.  For any batch,
    the entries are, in order of first appearance and without repetition,
    the agencies that have a file whose template type is exactly ["signed"]
    or ["unsigned"]; the entry of an agency counts and compares the union
    of the identifiers of all its unsigned files and the union of those of
    all its signed files.  Two unsigned files with identifiers {1,2} and
    {2,3} and one signed file with {2} give 3 unsigned, 1 signed and the
    pending orders 1 and 3; a file of another type adds nothing. *)
Theorem build_reconciliation_summary_per_agency (results : list FileAnalysis) :
  build_reconciliation_summary [] = []
  /\ map re_agency (build_reconciliation_summary results)
     = unique (map agency (List.filter reconciled results))
  /\ NoDup (map re_agency (build_reconciliation_summary results))
  /\ (forall a, a ∈ map re_agency (build_reconciliation_summary results)
                <-> exists x, x ∈ results /\ agency x = a
                              /\ (template_type x = "signed" \/ template_type x = "unsigned"))
  /\ (forall e, e ∈ build_reconciliation_summary results ->
        let unsigned_ids := ids_of "unsigned" (re_agency e) results in
        let signed_ids := ids_of "signed" (re_agency e) results in
        unsigned_total e = Z.of_nat (size unsigned_ids)
        /\ signed_total e = Z.of_nat (size signed_ids)
        /\ re_pending_signature_orders e = py_sorted (unsigned_ids ∖ signed_ids)
        /\ re_signed_without_unsigned_source e = py_sorted (signed_ids ∖ unsigned_ids))
  /\ (let batch := [ sample_analysis "X" "a_unsigned.csv" "unsigned" ["1"; "2"];
                     sample_analysis "X" "b_unsigned.csv" "unsigned" ["2"; "3"];
                     sample_analysis "X" "a_signed.csv" "signed" ["2"];
                     sample_analysis "Y" "notes.csv" "mixed" ["9"] ] in
      build_reconciliation_summary batch
      = [ {| re_agency := "X"; unsigned_total := 3; signed_total := 1;
             re_pending_signature_orders := ["1"; "3"];
             re_signed_without_unsigned_source := [] |} ]).
Proof.
  pose proof (fold_reconcile_step_grouped_from results) as [Hkeys Hsets].
  assert (Hagencies : map re_agency (build_reconciliation_summary results)
                      = unique (map agency (List.filter reconciled results))).
  { rewrite build_reconciliation_summary_fold, reconcile_emit_agency. exact Hkeys. }
  split; [reflexivity|]. split; [exact Hagencies|].
  split; [rewrite Hagencies; apply unique_from_NoDup|].
  split; [|split; [|vm_compute; reflexivity]].
  - intros a. rewrite Hagencies. unfold unique. rewrite unique_from_elem_of.
    rewrite list_elem_of_In, in_map_iff. split.
    + intros [(x & Hx & Hin) _]. apply filter_In in Hin as [Hin Hrec].
      exists x. split; [apply list_elem_of_In; exact Hin|]. split; [exact Hx|].
      unfold reconciled in Hrec. apply orb_true_iff in Hrec as [H | H];
        apply String.eqb_eq in H; auto.
    + intros (x & Hin & Hx & Htt). split; [|intros H; inversion H].
      exists x. split; [exact Hx|]. apply filter_In.
      split; [apply list_elem_of_In; exact Hin|].
      unfold reconciled. apply orb_true_iff.
      destruct Htt as [-> | ->]; [left | right]; reflexivity.
  - intros e He unsigned_ids signed_ids. subst unsigned_ids signed_ids.
    rewrite build_reconciliation_summary_fold in He.
    apply list_elem_of_In, in_map_iff in He as ([a payload] & <- & Hin).
    assert (Hget : grouped_get a (fold_left reconcile_step results []) = payload).
    { apply grouped_get_elem_of; [|apply list_elem_of_In; exact Hin].
      rewrite Hkeys. apply unique_from_NoDup. }
    destruct (Hsets a) as [Hs Hu]. rewrite Hget in Hs, Hu.
    simpl. rewrite Hs, Hu. repeat split; reflexivity.
Qed.

Lemma build_reconciliation_summary_per_agency_witness :
  let batch := [ sample_analysis "X" "a_unsigned.csv" "unsigned" ["1"; "2"];
                 sample_analysis "X" "b_unsigned.csv" "unsigned" ["2"; "3"];
                 sample_analysis "X" "a_signed.csv" "signed" ["2"] ] in
  exists e, e ∈ build_reconciliation_summary batch
            /\ re_agency e = "X" /\ unsigned_total e = 3 /\ signed_total e = 1
            /\ re_pending_signature_orders e = ["1"; "3"].
Proof.
  intros batch.
  set (e := {| re_agency := "X"; unsigned_total := 3; signed_total := 1;
               re_pending_signature_orders := ["1"; "3"];
               re_signed_without_unsigned_source := [] |}).
  assert (He : e ∈ build_reconciliation_summary batch).
  { replace (build_reconciliation_summary batch) with [e] by (vm_compute; reflexivity). left. }
  destruct (build_reconciliation_summary_per_agency batch) as (_ & _ & _ & _ & Hentry & _).
  destruct (Hentry e He) as (Hu & Hs & Hp & _).
  exists e. split; [exact He|]. split; [reflexivity|].
  split; [rewrite Hu; vm_compute; reflexivity|].
  split; [rewrite Hs; vm_compute; reflexivity|].
  rewrite Hp. vm_compute. reflexivity.
Defined.


(** ** The detail pass *)

Lemma details_append_lookup (details : gmap string (list string)) (reason identifier v : string) :
  default [] (details_append details reason identifier !! v)
  = default [] (details !! v) ++ map (fun _ => identifier) (hits v [reason]).
Proof.
  unfold details_append, hits. simpl.
  destruct (String.eqb_spec v reason) as [-> | Hne]; simpl.
  - rewrite lookup_insert_eq. reflexivity.
  - rewrite lookup_insert_ne by congruence. rewrite app_nil_r. reflexivity.
Qed.

Lemma details_append_no_empty (details : gmap string (list string)) (reason identifier : string) :
  no_empty_entry details -> no_empty_entry (details_append details reason identifier).
Proof.
  intros Hinv v ids. unfold details_append.
  destruct (decide (reason = v)) as [<- | Hne].
  - rewrite lookup_insert_eq. intros Heq. injection Heq as <-.
    destruct (default [] (details !! reason)); discriminate.
  - rewrite lookup_insert_ne by exact Hne. apply Hinv.
Qed.

Lemma hits_app (v : string) (xs ys : list string) : hits v (xs ++ ys) = hits v xs ++ hits v ys.
Proof. unfold hits. apply List.filter_app. Qed.

Lemma detail_column_lookup (df : DataFrame) (pattern : Pattern) (row : list cell)
    (identifier : string) (details : gmap string (list string)) (column v : string) :
  default [] (detail_column df pattern row identifier details column !! v)
  = default [] (details !! v)
    ++ map (fun _ => identifier) (hits v (column_reasons df pattern row column)).
Proof.
  unfold detail_column, column_reasons.
  destruct (_ || _)%bool; [simpl; rewrite app_nil_r; reflexivity|].
  destruct (_ && _)%bool; [apply details_append_lookup|].
  simpl. rewrite app_nil_r. reflexivity.
Qed.

Lemma detail_column_no_empty (df : DataFrame) (pattern : Pattern) (row : list cell)
    (identifier : string) (details : gmap string (list string)) (column : string) :
  no_empty_entry details ->
  no_empty_entry (detail_column df pattern row identifier details column).
Proof.
  intros Hinv. unfold detail_column.
  destruct (_ || _)%bool; [exact Hinv|].
  destruct (_ && _)%bool; [apply details_append_no_empty|]; exact Hinv.
Qed.

Lemma detail_columns_lookup (df : DataFrame) (pattern : Pattern) (row : list cell)
    (identifier : string) (columns : list string) (details : gmap string (list string))
    (v : string) :
  default [] (fold_left (detail_column df pattern row identifier) columns details !! v)
  = default [] (details !! v)
    ++ map (fun _ => identifier) (hits v (flat_map (column_reasons df pattern row) columns)).
Proof.
  revert details. induction columns as [|column columns IH]; intros details; simpl.
  - rewrite app_nil_r. reflexivity.
  - rewrite IH, detail_column_lookup, hits_app, map_app, app_assoc. reflexivity.
Qed.

Lemma detail_columns_no_empty (df : DataFrame) (pattern : Pattern) (row : list cell)
    (identifier : string) (columns : list string) (details : gmap string (list string)) :
  no_empty_entry details ->
  no_empty_entry (fold_left (detail_column df pattern row identifier) columns details).
Proof.
  revert details. induction columns as [|column columns IH]; intros details Hinv; simpl.
  - exact Hinv.
  - apply IH, detail_column_no_empty, Hinv.
Qed.

Lemma detail_row_lookup (df : DataFrame) (inspected_columns : list string) (pattern : Pattern)
    (details : gmap string (list string)) (ir : Z * list cell) (v : string) :
  default [] (detail_row df inspected_columns pattern details ir !! v)
  = default [] (details !! v)
    ++ map (fun _ => row_identifier df ir.1 ir.2)
           (hits v (row_reasons df inspected_columns pattern ir.2)).
Proof.
  destruct ir as [idx row]. unfold detail_row, row_reasons, remark_reasons. simpl.
  rewrite detail_columns_lookup, hits_app, map_app, app_assoc. f_equal.
  destruct (has_column df "Remarks"); [|simpl; rewrite app_nil_r; reflexivity].
  destruct (Py.is_empty _); simpl; [rewrite app_nil_r; reflexivity|].
  apply details_append_lookup.
Qed.

Lemma detail_row_no_empty (df : DataFrame) (inspected_columns : list string) (pattern : Pattern)
    (details : gmap string (list string)) (ir : Z * list cell) :
  no_empty_entry details ->
  no_empty_entry (detail_row df inspected_columns pattern details ir).
Proof.
  intros Hinv. destruct ir as [idx row]. unfold detail_row.
  apply detail_columns_no_empty.
  destruct (has_column df "Remarks"); [|exact Hinv].
  destruct (negb _); [apply details_append_no_empty|]; exact Hinv.
Qed.

Lemma detail_rows_lookup (df : DataFrame) (inspected_columns : list string) (pattern : Pattern)
    (irows : list (Z * list cell)) (details : gmap string (list string)) (v : string) :
  default [] (fold_left (detail_row df inspected_columns pattern) irows details !! v)
  = default [] (details !! v)
    ++ flat_map (fun ir : Z * list cell =>
                   map (fun _ => row_identifier df ir.1 ir.2)
                       (hits v (row_reasons df inspected_columns pattern ir.2))) irows.
Proof.
  revert details. induction irows as [|ir irows IH]; intros details; simpl.
  - rewrite app_nil_r. reflexivity.
  - rewrite IH, detail_row_lookup, app_assoc. reflexivity.
Qed.

Lemma detail_rows_no_empty (df : DataFrame) (inspected_columns : list string) (pattern : Pattern)
    (irows : list (Z * list cell)) (details : gmap string (list string)) :
  no_empty_entry details ->
  no_empty_entry (fold_left (detail_row df inspected_columns pattern) irows details).
Proof.
  revert details. induction irows as [|ir irows IH]; intros details Hinv; simpl.
  - exact Hinv.
  - apply IH, detail_row_no_empty, Hinv.
Qed.

(** The detail pass maps every reason to the identifiers attributed to
    it, in the order of the rows, and has no entry for the others. *)
Lemma collect_details_lookup (df : DataFrame) (failure_mask : list bool)
    (inspected_columns : list string) (pattern : Pattern) (v : string) :
  let details := collect_details df failure_mask inspected_columns pattern in
  let ids := attributed_identifiers df failure_mask inspected_columns pattern v in
  default [] (details !! v) = ids /\ (details !! v = None <-> ids = []).
Proof.
  intros details ids. subst details ids. unfold collect_details, attributed_identifiers.
  pose proof (detail_rows_lookup df inspected_columns pattern
                (select failure_mask (iterrows df)) ∅ v) as Hlook.
  pose proof (detail_rows_no_empty df inspected_columns pattern
                (select failure_mask (iterrows df)) ∅) as Hne.
  rewrite lookup_empty in Hlook. simpl in Hlook.
  split; [exact Hlook|].
  rewrite <- Hlook.
  destruct (fold_left _ _ _ !! v) as [ids|] eqn:E; simpl.
  - split; [discriminate|]. intros ->. exfalso.
    refine (Hne _ v [] E eq_refl).
    intros v' ids' H. rewrite lookup_empty in H. discriminate.
  - split; reflexivity.
Qed.

(** ** The frequency pass *)

Lemma select_map {A B : Type} (f : A -> B) (mask : list bool) (xs : list A) :
  select mask (map f xs) = map f (select mask xs).
Proof.
  revert xs. induction mask as [|[|] mask IH]; intros [|x xs]; simpl;
    try reflexivity; [f_equal|]; apply IH.
Qed.

Lemma imap_snd {A B C : Type} (g : nat -> B) (f : A -> C) (xs : list A) :
  map snd (imap (fun i x => (g i, f x)) xs) = map f xs.
Proof.
  revert g. induction xs as [|x xs IH]; intros g; simpl; [reflexivity|].
  f_equal. apply (IH (g ∘ S)).
Qed.

(** The rows that [df.iterrows()] yields are the rows of the table, each
    in its row view. *)
Lemma iterrows_rows (df : DataFrame) : map snd (iterrows df) = map (row_values df) (rows df).
Proof. unfold iterrows. apply imap_snd. Qed.

Lemma imap_keep {A : Type} (f : nat -> A -> A) (xs : list A) :
  (forall j x, f j x = x) -> imap f xs = xs.
Proof.
  revert f. induction xs as [|x xs IH]; intros f Hf; simpl; [reflexivity|].
  rewrite Hf. f_equal. apply IH. intros j y. apply Hf.
Qed.

Lemma common_type_float64 (a b : Dtype) :
  common_type a b = dtype_float64 ->
  (a = dtype_int64 \/ a = dtype_float64) /\ (b = dtype_int64 \/ b = dtype_float64).
Proof. destruct a, b; simpl; intros H; try discriminate; auto. Qed.

(** Unless the rows are turned into floats, the row view of a row is the
    row itself. *)
Lemma row_values_keep (df : DataFrame) (row : list cell) :
  upcasts_rows df = false -> row_values df row = row.
Proof.
  unfold upcasts_rows, row_values. intros Hkeep.
  apply imap_keep. intros j c.
  destruct (find_common_type (dtypes df)); try reflexivity.
  destruct (dtypes df !! j) as [dt|] eqn:Hj; simpl; [|reflexivity].
  destruct dt; try reflexivity.
  exfalso. apply not_true_iff_false in Hkeep. apply Hkeep.
  apply existsb_exists. exists dtype_int64. split; [|reflexivity].
  apply list_elem_of_In, list_elem_of_lookup. exists j. exact Hj.
Qed.

Lemma iterrows_rows_keep (df : DataFrame) :
  upcasts_rows df = false -> map snd (iterrows df) = rows df.
Proof.
  intros Hkeep. rewrite iterrows_rows.
  rewrite <- (map_id (rows df)) at 2. apply map_ext. intros row.
  apply row_values_keep, Hkeep.
Qed.

Lemma select_nothing {A : Type} (mask : list bool) (xs : list A) :
  mask_sum mask = 0 -> select mask xs = [].
Proof.
  unfold mask_sum. revert xs. induction mask as [|b mask IH]; intros xs Hsum; [reflexivity|].
  destruct b.
  - rewrite filter_cons_True in Hsum by reflexivity. simpl in Hsum. lia.
  - rewrite filter_cons_False in Hsum by discriminate.
    destruct xs as [|x xs]; simpl; [reflexivity | apply IH; exact Hsum].
Qed.

(** The failing values of a column, read row by row: each failing row
    gives the text of its cell unless that text is empty. *)
Lemma failing_values_rows (df : DataFrame) (failure_mask : list bool) (column : string) :
  failing_values df failure_mask column
  = flat_map (fun row => let t := cell_text (row_get df row column) in
                         if Py.is_empty t then [] else [t])
             (select failure_mask (rows df)).
Proof.
  unfold failing_values, df_column. rewrite select_map.
  induction (select failure_mask (rows df)) as [|row frows IH]; simpl; [reflexivity|].
  unfold dropna in *.
  destruct (row_get df row column) as [s|]; simpl; [|exact IH].
  destruct (Py.is_empty (Py.strip s)); simpl; [|f_equal]; exact IH.
Qed.

Lemma filter_flat_map {A B : Type} (p : B -> bool) (f : A -> list B) (xs : list A) :
  List.filter p (flat_map f xs) = flat_map (fun x => List.filter p (f x)) xs.
Proof.
  induction xs as [|x xs IH]; simpl; [reflexivity|].
  rewrite List.filter_app, IH. reflexivity.
Qed.

Lemma flat_map_nil {A B : Type} (xs : list A) : flat_map (fun _ : A => @nil B) xs = [].
Proof. induction xs; simpl; auto. Qed.

Lemma collect_column_concat (df : DataFrame) (failure_mask : list bool) (pattern : Pattern)
    (collected_series : list (list string)) (column : string) :
  concat (collect_column df failure_mask pattern collected_series column)
  = concat collected_series
    ++ flat_map (fun row => column_reasons df pattern row column)
                (select failure_mask (rows df)).
Proof.
  unfold collect_column, column_reasons.
  destruct (_ || _)%bool; [rewrite flat_map_nil, app_nil_r; reflexivity|].
  assert (Hfilter :
    List.filter (pattern_search pattern) (failing_values df failure_mask column)
    = flat_map (fun row =>
                  if (negb (Py.is_empty (cell_text (row_get df row column)))
                      && pattern_search pattern (cell_text (row_get df row column)))%bool
                  then [cell_text (row_get df row column)] else [])
               (select failure_mask (rows df))).
  { rewrite failing_values_rows, filter_flat_map.
    apply flat_map_ext. intros row. simpl.
    destruct (Py.is_empty (cell_text (row_get df row column))); simpl; [reflexivity|].
    destruct (pattern_search pattern _); reflexivity. }
  simpl. rewrite <- Hfilter.
  destruct (failing_values df failure_mask column) as [|x xs] eqn:E;
    [simpl; rewrite app_nil_r; reflexivity|].
  destruct (List.filter (pattern_search pattern) (x :: xs)) as [|y ys] eqn:F;
    [rewrite app_nil_r; reflexivity|].
  rewrite concat_app. simpl. rewrite app_nil_r. reflexivity.
Qed.

Lemma collect_columns_concat (df : DataFrame) (failure_mask : list bool) (pattern : Pattern)
    (columns : list string) (collected_series : list (list string)) :
  concat (fold_left (collect_column df failure_mask pattern) columns collected_series)
  = concat collected_series
    ++ flat_map (fun column =>
                   flat_map (fun row => column_reasons df pattern row column)
                            (select failure_mask (rows df)))
                columns.
Proof.
  revert collected_series. induction columns as [|column columns IH];
    intros collected_series; simpl.
  - rewrite app_nil_r. reflexivity.
  - rewrite IH, collect_column_concat, app_assoc. reflexivity.
Qed.

(** The values collected by the frequency pass, column after column. *)
Lemma collect_series_concat (df : DataFrame) (failure_mask : list bool)
    (inspected_columns : list string) (pattern : Pattern) :
  concat (collect_series df failure_mask inspected_columns pattern)
  = flat_map (remark_reasons df) (select failure_mask (rows df))
    ++ flat_map (fun column =>
                   flat_map (fun row => column_reasons df pattern row column)
                            (select failure_mask (rows df)))
                inspected_columns.
Proof.
  unfold collect_series. rewrite collect_columns_concat. f_equal.
  unfold remark_reasons.
  destruct (has_column df "Remarks"); [|rewrite flat_map_nil; reflexivity].
  rewrite <- failing_values_rows.
  destruct (failing_values df failure_mask "Remarks"); simpl;
    [reflexivity | rewrite app_nil_r; reflexivity].
Qed.

Lemma flat_map_app_perm {A B : Type} (f g : A -> list B) (xs : list A) :
  flat_map (fun x => f x ++ g x) xs ≡ₚ flat_map f xs ++ flat_map g xs.
Proof.
  induction xs as [|x xs IH]; simpl; [reflexivity|].
  rewrite IH. rewrite <- !app_assoc. apply Permutation_app_head.
  rewrite !app_assoc. apply Permutation_app_tail. apply Permutation_app_comm.
Qed.

Lemma flat_map_swap_perm {A B C : Type} (F : A -> B -> list C) (rs : list A) (cs : list B) :
  flat_map (fun c => flat_map (fun r => F r c) rs) cs
  ≡ₚ flat_map (fun r => flat_map (F r) cs) rs.
Proof.
  induction rs as [|r rs IH]; simpl; [rewrite flat_map_nil; reflexivity|].
  rewrite flat_map_app_perm, IH. reflexivity.
Qed.

(** Both passes see the same matched values: the frequency pass collects
    them column by column, the detail pass row by row. *)
Lemma collect_series_row_reasons (df : DataFrame) (failure_mask : list bool)
    (inspected_columns : list string) (pattern : Pattern) :
  concat (collect_series df failure_mask inspected_columns pattern)
  ≡ₚ flat_map (row_reasons df inspected_columns pattern) (select failure_mask (rows df)).
Proof.
  rewrite collect_series_concat. unfold row_reasons.
  rewrite flat_map_app_perm. apply Permutation_app_head.
  apply (flat_map_swap_perm (column_reasons df pattern)).
Qed.

Lemma hits_length_perm (v : string) (xs ys : list string) :
  xs ≡ₚ ys -> length (hits v xs) = length (hits v ys).
Proof.
  unfold hits. induction 1 as [|x xs ys _ IH|x y xs|xs ys zs _ IH1 _ IH2]; simpl.
  - reflexivity.
  - destruct (String.eqb v x); simpl; [f_equal|]; exact IH.
  - destruct (String.eqb v x), (String.eqb v y); reflexivity.
  - congruence.
Qed.

Lemma hits_nil_iff (v : string) (xs : list string) : hits v xs = [] <-> v ∉ xs.
Proof.
  unfold hits. induction xs as [|x xs IH]; simpl.
  - split; [intros _ H; inversion H | reflexivity].
  - destruct (String.eqb_spec v x) as [-> | Hne].
    + split; [discriminate | intros H; exfalso; apply H; left].
    + rewrite IH. split.
      * intros Hn Hin. apply elem_of_cons in Hin as [? | ?]; [contradiction | auto].
      * intros Hn Hin. apply Hn. right. exact Hin.
Qed.

Lemma attributed_identifiers_length (df : DataFrame) (failure_mask : list bool)
    (inspected_columns : list string) (pattern : Pattern) (v : string) :
  upcasts_rows df = false ->
  length (attributed_identifiers df failure_mask inspected_columns pattern v)
  = length (hits v (flat_map (row_reasons df inspected_columns pattern)
                             (select failure_mask (rows df)))).
Proof.
  intros Hkeep. unfold attributed_identifiers.
  rewrite <- (iterrows_rows_keep df Hkeep), select_map.
  induction (select failure_mask (iterrows df)) as [|ir irows IH]; simpl; [reflexivity|].
  rewrite length_app, length_map, hits_app, length_app, IH. reflexivity.
Qed.

Lemma value_counts_fold (xs : list string) (counts : gmap string Z) (v : string) :
  positive_counts counts ->
  let result :=
    fold_left (fun counts x => <[x := default 0 (counts !! x) + 1]> counts) xs counts in
  default 0 (result !! v) = default 0 (counts !! v) + Z.of_nat (length (hits v xs))
  /\ positive_counts result.
Proof.
  revert counts. induction xs as [|x xs IH]; intros counts Hpos; simpl.
  - split; [lia | exact Hpos].
  - assert (Hpos' : positive_counts (<[x := default 0 (counts !! x) + 1]> counts)).
    { intros w n. destruct (decide (x = w)) as [<- | Hne].
      - rewrite lookup_insert_eq. intros Heq. injection Heq as <-.
        destruct (counts !! x) as [m|] eqn:E; simpl; [specialize (Hpos x m E)|]; lia.
      - rewrite lookup_insert_ne by exact Hne. apply Hpos. }
    destruct (IH _ Hpos') as [Hval Hres]. split; [|exact Hres].
    cbv zeta in Hval. rewrite Hval. unfold hits. simpl.
    destruct (String.eqb_spec v x) as [-> | Hne].
    + rewrite lookup_insert_eq. simpl. lia.
    + rewrite lookup_insert_ne by congruence. lia.
Qed.

Lemma value_counts_lookup (xs : list string) (v : string) :
  default 0 (value_counts xs !! v) = Z.of_nat (length (hits v xs))
  /\ (value_counts xs !! v = None <-> hits v xs = []).
Proof.
  assert (Hempty : positive_counts ∅).
  { intros w n H. rewrite lookup_empty in H. discriminate. }
  destruct (value_counts_fold xs ∅ v Hempty) as [Hval Hpos].
  cbv zeta in Hval, Hpos. fold (value_counts xs) in Hval, Hpos.
  rewrite lookup_empty in Hval. simpl in Hval.
  split; [exact Hval|].
  destruct (value_counts xs !! v) as [n|] eqn:E; simpl in Hval.
  - specialize (Hpos v n E). split; [discriminate|].
    intros Hnil. rewrite Hnil in Hval. simpl in Hval. lia.
  - split; [intros _ | reflexivity].
    destruct (hits v xs); [reflexivity | simpl in Hval; lia].
Qed.


(** ** Agreement of the two passes *)

Lemma column_reasons_match (df : DataFrame) (pattern : Pattern) (row : list cell)
    (column v : string) :
  v ∈ column_reasons df pattern row column ->
  pattern_search pattern v = true /\ column <> "Remarks"%string /\ has_column df column = true
  /\ v = cell_text (row_get df row column) /\ v <> EmptyString.
Proof.
  unfold column_reasons.
  destruct (String.eqb_spec column "Remarks") as [-> | Hne]; simpl; [intros H; inversion H|].
  destruct (has_column df column); simpl; [|intros H; inversion H].
  destruct (Py.is_empty (cell_text (row_get df row column))) eqn:Hemp; simpl;
    [intros H; inversion H|].
  destruct (pattern_search pattern _) eqn:Hsearch; [|intros H; inversion H].
  intros H. apply list_elem_of_singleton in H. subst v.
  repeat split; try assumption; try reflexivity.
  intros Heq. rewrite Heq in Hemp. discriminate.
Qed.

(** The two passes on a table with rows that [df.iterrows()] yields as
    they are, or in which no row fails.  With [failure_mask],
    [inspected_columns] and [pattern] as returned by
    [build_failure_mask]: the record has a [failure_details]
    dict, and for every reason [v] the count of [v] in
    [failure_reason_counts] is the number of identifiers listed for [v] in
    [failure_details]; that list is, row after row of the failing rows, the
    identifier of each row whose matched values hold [v]; [v] has a count,
    has a list and is among the unique failure reasons exactly when that
    list is not empty.  A value of a column other than ["Remarks"] is among
    the matched values of a row only if it matches the pattern itself. *)
Lemma reason_passes_agree_on_kept_rows
    (to_datetime : list cell -> list (option Z)) (threshold : Z)
    (mean_round2 : list Z -> float) (format_rate : float -> string)
    (now : Z) (df : DataFrame) (agency_config : AgencyConfig) :
  rows df <> [] ->
  (upcasts_rows df = false
   \/ mask_sum (build_failure_mask df (failure_keywords agency_config)
                  (status_columns agency_config)).1.1 = 0) ->
  let s := calculate_stats to_datetime threshold mean_round2 format_rate now df agency_config in
  let '(failure_mask, inspected_columns, pattern) :=
    build_failure_mask df (failure_keywords agency_config) (status_columns agency_config) in
  (exists details,
     failure_details s = Some details
     /\ forall v,
          let ids := attributed_identifiers df failure_mask inspected_columns pattern v in
          default 0 (failure_reason_counts s !! v)
          = Z.of_nat (length (default [] (details !! v)))
          /\ default [] (details !! v) = ids
          /\ (failure_reason_counts s !! v = None <-> ids = [])
          /\ (details !! v = None <-> ids = [])
          /\ (v ∈ unique_failure_reasons s <-> ids <> []))
  /\ (forall row column v,
        v ∈ column_reasons df pattern row column -> pattern_search pattern v = true).
Proof.
  intros Hrows Hkeep s. subst s. unfold calculate_stats.
  assert (Hpos : (df_len df =? 0) = false).
  { apply Z.eqb_neq. unfold df_len. destruct (rows df); [done | simpl; lia]. }
  rewrite Hpos.
  destruct (build_failure_mask _ _ _) as [[failure_mask inspected_columns] pattern].
  cbn [fst] in Hkeep.
  split; [|intros row column v Hv; apply (column_reasons_match df pattern row column v Hv)].
  cbn [failure_details failure_reason_counts unique_failure_reasons].
  destruct (mask_sum failure_mask =? 0) eqn:Hcount; cbn [negb];
    (eexists; split; [reflexivity|]); intros v;
    set (ids := attributed_identifiers df failure_mask inspected_columns pattern v).
  - apply Z.eqb_eq in Hcount.
    assert (Hids : ids = []).
    { subst ids. unfold attributed_identifiers.
      rewrite (select_nothing failure_mask (iterrows df) Hcount). reflexivity. }
    rewrite Hids. simpl. rewrite !lookup_empty. simpl.
    repeat split; try reflexivity; try (intros H; inversion H); try congruence.
  - set (collected_series := collect_series df failure_mask inspected_columns pattern).
    assert (Hunique : match collected_series with
                      | [] => []
                      | _ => unique (concat collected_series)
                      end = unique (concat collected_series))
      by (destruct collected_series; reflexivity).
    assert (Hcounts : match collected_series with
                      | [] => ∅
                      | _ => value_counts (concat collected_series)
                      end = value_counts (concat collected_series))
      by (destruct collected_series; reflexivity).
    rewrite Hunique, Hcounts.
    destruct (collect_details_lookup df failure_mask inspected_columns pattern v)
      as [Hdetails Hnone].
    cbv zeta in Hdetails, Hnone. fold ids in Hdetails, Hnone.
    destruct (value_counts_lookup (concat collected_series) v) as [Hval Hvnone].
    assert (Hlen : length (hits v (concat collected_series)) = length ids).
    { destruct Hkeep as [Hkeep | Hzero];
        [|rewrite Hzero in Hcount; discriminate].
      subst ids collected_series. rewrite attributed_identifiers_length by exact Hkeep.
      apply hits_length_perm, collect_series_row_reasons. }
    assert (Hnil : hits v (concat collected_series) = [] <-> ids = []).
    { split; intros H; apply length_zero_iff_nil; apply length_zero_iff_nil in H; lia. }
    split; [rewrite Hval, Hdetails, Hlen; reflexivity|].
    split; [exact Hdetails|].
    split; [rewrite Hvnone; exact Hnil|].
    split; [exact Hnone|].
    unfold unique. rewrite unique_from_elem_of. rewrite <- Hnil, hits_nil_iff.
    split.
    + intros [Hin _] Hnot. contradiction.
    + intros Hnn. split; [|intros H; inversion H].
      destruct (decide (v ∈ concat collected_series)); [assumption | contradiction].
Qed.



(** * Further properties of the engine *)

(** ** Template type and EHR of a file name *)

Lemma append_assoc (a b c : string) : (a +:+ b) +:+ c = a +:+ (b +:+ c).
Proof.
  induction a as [|x a IH]; [reflexivity|].
  rewrite !append_cons. f_equal. exact IH.
Qed.

Lemma contains_inner (s outer inner : string) :
  Py.contains outer inner = true -> Py.contains s outer = true -> Py.contains s inner = true.
Proof.
  rewrite !contains_spec. intros (a & b & ->) (pre & post & ->).
  exists (pre +:+ a), (b +:+ post). rewrite !append_assoc. reflexivity.
Qed.

Lemma lower_ascii_idemp (c : ascii) : Py.lower_ascii (Py.lower_ascii c) = Py.lower_ascii c.
Proof. destruct c as [[] [] [] [] [] [] [] []]; reflexivity. Qed.

Lemma lower_idemp (s : string) : Py.lower (Py.lower s) = Py.lower s.
Proof.
  induction s as [|c s IH]; simpl; [reflexivity|]. rewrite lower_ascii_idemp, IH. reflexivity.
Qed.

(** X1.  The template type is ["unsigned"] exactly when the lowered name
    holds "unsigned", ["signed"] exactly when it holds "signed" but not
    "unsigned", and ["mixed"] exactly when it does not hold "signed" at
    all; the case of the letters of the name does not matter. *)
Theorem determine_template_type_cases (file_name : string) :
  let lowered := Py.lower file_name in
  (determine_template_type file_name = "unsigned"%string
   <-> Py.contains lowered "unsigned" = true)
  /\ (determine_template_type file_name = "signed"%string
      <-> Py.contains lowered "signed" = true /\ Py.contains lowered "unsigned" = false)
  /\ (determine_template_type file_name = "mixed"%string
      <-> Py.contains lowered "signed" = false)
  /\ determine_template_type (Py.lower file_name) = determine_template_type file_name.
Proof.
  intros lowered. unfold determine_template_type. rewrite lower_idemp. fold lowered.
  pose proof (contains_inner lowered "unsigned" "signed" eq_refl) as Hinner.
  destruct (Py.contains lowered "unsigned") eqn:Hu.
  - rewrite (Hinner eq_refl). repeat split; try discriminate; try reflexivity.
    intros [_ H]. discriminate.
  - destruct (Py.contains lowered "signed") eqn:Hs;
      repeat split; try discriminate; try reflexivity; auto.
    intros [H _]. discriminate.
Qed.

(** X2.  The EHR shown for a stored run by [fetch_recent] is the one that
    [infer_ehr_from_filename] gives for the file, except that a file of
    Athena is shown as ["Unknown"]. *)
Theorem fetch_recent_ehr_agrees (file_name : string) :
  fetch_recent_ehr file_name = infer_ehr_from_filename file_name
  \/ (infer_ehr_from_filename file_name = "Athena"%string
      /\ fetch_recent_ehr file_name = "Unknown"%string
      /\ Py.contains (Py.lower file_name) "athena" = true).
Proof.
  unfold fetch_recent_ehr, infer_ehr_from_filename.
  destruct (Py.contains (Py.lower file_name) "axxess"); [left; reflexivity|].
  destruct (Py.contains (Py.lower file_name) "kinnser"); [left; reflexivity|].
  destruct (Py.contains (Py.lower file_name) "athena"); [right | left]; auto.
Qed.

(** ** Agency rules *)

(** X3.  Whatever the agency, the rule that [resolve_agency_config] returns
    holds all the default failure keywords and all the default status
    columns; the case of the agency name does not matter, and an agency
    other than axxess and kinnser gets exactly the defaults. *)
Theorem resolve_agency_config_extends_defaults (agency_name : string) :
  let config := resolve_agency_config agency_name in
  (forall k, k ∈ DEFAULT_FAILURE_KEYWORDS -> k ∈ failure_keywords config)
  /\ (forall c, c ∈ DEFAULT_STATUS_COLUMNS -> c ∈ status_columns config)
  /\ failure_keywords config <> []
  /\ resolve_agency_config (Py.lower agency_name) = config
  /\ (Py.lower agency_name <> "axxess"%string -> Py.lower agency_name <> "kinnser"%string ->
      config = mkAgencyConfig DEFAULT_FAILURE_KEYWORDS DEFAULT_STATUS_COLUMNS).
Proof.
  intros config. subst config. unfold resolve_agency_config, AGENCY_CONFIG.
  rewrite lower_idemp.
  destruct (String.eqb_spec (Py.lower agency_name) "axxess") as [Ha | Ha];
    cbn [failure_keywords status_columns].
  - repeat split; try discriminate; try contradiction.
    + intros k Hk. apply elem_of_app. left. exact Hk.
    + auto.
  - destruct (String.eqb_spec (Py.lower agency_name) "kinnser") as [Hk | Hk];
      cbn [failure_keywords status_columns].
    + repeat split; try discriminate; try contradiction.
      * auto.
      * intros c Hc. apply elem_of_app. left. exact Hc.
    + repeat split; try discriminate; auto.
Qed.

Lemma resolve_agency_config_extends_defaults_witness :
  resolve_agency_config "Luna Vista"
  = mkAgencyConfig DEFAULT_FAILURE_KEYWORDS DEFAULT_STATUS_COLUMNS.
Proof.
  apply (resolve_agency_config_extends_defaults "Luna Vista"); discriminate.
Defined.

(** ** Pair keys are prefixes of file names *)

Lemma rfind_char_from_lower_bound (c : ascii) (s : string) (i best : Z) :
  0 <= i -> -1 <= best -> -1 <= Py.rfind_char_from c s i best.
Proof.
  revert i best. induction s as [|a s IH]; intros i best Hi Hbest; simpl; [exact Hbest|].
  apply IH; [lia|]. destruct (Ascii.eqb a c); lia.
Qed.

Lemma splitext_scan_positive (p : string) (i : Z) (n : nat) :
  Py.splitext_scan p i n = true -> (1 <= n)%nat.
Proof. destruct n; simpl; [discriminate | lia]. Qed.

Lemma take_empty (n : nat) (s : string) : (1 <= n)%nat -> Py.take n s = EmptyString -> s = EmptyString.
Proof. destruct n; [lia|]. destruct s; [reflexivity | discriminate]. Qed.

(** [os.path.splitext] cuts the path in two, and the root is empty only for
    the empty path. *)
Lemma splitext_spec (p : string) :
  p = (Py.splitext p).1 +:+ (Py.splitext p).2
  /\ ((Py.splitext p).1 = EmptyString -> p = EmptyString).
Proof.
  unfold Py.splitext.
  destruct (_ && _)%bool eqn:Hcond; simpl.
  - apply andb_true_iff in Hcond as [_ Hscan].
    apply splitext_scan_positive in Hscan.
    pose proof (rfind_char_from_lower_bound "/" p 0 (-1)) as Hsep.
    unfold Py.slice_to, Py.slice_from. split; [symmetry; apply take_drop|].
    apply take_empty. unfold Py.rfind_char in *. lia.
  - split; [|auto]. clear. induction p as [|c p IH]; [reflexivity|].
    rewrite append_cons. f_equal. exact IH.
Qed.

Lemma derive_pair_key_loop_prefix (base_name lowered : string) (markers : list string) :
  let key := derive_pair_key_loop base_name lowered markers in
  (exists rest, base_name = key +:+ rest) /\ (key = EmptyString -> base_name = EmptyString).
Proof.
  induction markers as [|marker markers IH]; simpl.
  - split; [|auto]. exists EmptyString. clear. induction base_name as [|c s IH]; [reflexivity|].
    rewrite append_cons. f_equal. exact IH.
  - destruct (negb _); [|exact IH].
    unfold Py.str_or, Py.rstrip.
    destruct (rstrip_by_spec (fun c => Py.mem_ascii c "-_ ")
                (Py.slice_to base_name (Py.find lowered marker))) as (t & Hcut & _).
    destruct (Py.is_empty _) eqn:Hemp.
    + split; [|auto]. exists EmptyString. clear. induction base_name as [|c s IH]; [reflexivity|].
      rewrite append_cons. f_equal. exact IH.
    + split.
      * exists (t +:+ Py.slice_from base_name (Py.find lowered marker)).
        rewrite <- append_assoc, <- Hcut. unfold Py.slice_to, Py.slice_from.
        symmetry. apply take_drop.
      * intros Hnil. rewrite Hnil in Hemp. discriminate.
Qed.

(** X4.  The pair key of a file is a prefix of its name, and it is empty
    only for the empty name: every named file has a usable pair key. *)
Theorem derive_pair_key_prefix (file_name : string) :
  (exists rest, file_name = derive_pair_key file_name +:+ rest)
  /\ (derive_pair_key file_name = EmptyString <-> file_name = EmptyString).
Proof.
  unfold derive_pair_key.
  destruct (derive_pair_key_loop_prefix (Py.splitext file_name).1
              (Py.lower (Py.splitext file_name).1) pair_key_markers) as [[rest Hrest] Hnil].
  destruct (splitext_spec file_name) as [Hsplit Hroot].
  cbv zeta in Hrest, Hnil. split.
  - exists (rest +:+ (Py.splitext file_name).2).
    rewrite <- append_assoc, <- Hrest. exact Hsplit.
  - split; [intros H; apply Hroot, Hnil, H | intros ->; reflexivity].
Qed.

(** ** The agency of a file name *)

Lemma span_not_underscore_clean (s : string) :
  Py.mem_ascii "_" (span_not_underscore s) = false.
Proof.
  induction s as [|c s IH]; simpl; [reflexivity|].
  destruct (Ascii.eqb c "_") eqn:E; simpl; [reflexivity|]. rewrite E. exact IH.
Qed.

Lemma match_agency_here_clean (s : string) (names : list string) (group : string) :
  match_agency_here s names = Some group ->
  group <> EmptyString /\ Py.mem_ascii "_" group = false.
Proof.
  induction names as [|name names IH]; simpl; [discriminate|].
  destruct (Py.startswith _ _); [|exact IH].
  destruct (Py.is_empty _) eqn:Hemp; [exact IH|].
  intros Heq. injection Heq as <-. split; [|apply span_not_underscore_clean].
  intros Hnil. rewrite Hnil in Hemp. discriminate.
Qed.

Lemma search_agency_clean (s group : string) :
  search_agency s = Some group ->
  group <> EmptyString /\ Py.mem_ascii "_" group = false.
Proof.
  induction s as [|c s IH]; intros H.
  - vm_compute in H. discriminate.
  - cbn [search_agency] in H.
    destruct (match_agency_here (String c s) EHR_PREFIXES) as [g|] eqn:E;
      [|exact (IH H)].
    injection H as <-. exact (match_agency_here_clean _ _ _ E).
Qed.

Lemma replace_hyphens_clean (s : string) :
  Py.mem_ascii "-" (replace_hyphens s) = false
  /\ (Py.mem_ascii "_" s = false -> Py.mem_ascii "_" (replace_hyphens s) = false)
  /\ (s <> EmptyString -> replace_hyphens s <> EmptyString).
Proof.
  induction s as [|c s (Hh & Hu & _)]; simpl; [repeat split; auto|].
  split; [|split; [|discriminate]].
  - destruct (Ascii.eqb c "-") eqn:E; [exact Hh | rewrite E; exact Hh].
  - destruct (Ascii.eqb c "_") eqn:E; [discriminate|]. intros H.
    destruct (Ascii.eqb c "-"); [exact (Hu H) | rewrite E; exact (Hu H)].
Qed.

Example infer_agency_from_filename_pattern :
  infer_agency_from_filename "OrderTemplate_kinnser-Loyal-HomeCare_Signed.csv" = "Loyal HomeCare".
Proof. reflexivity. Qed.

Example infer_agency_from_filename_fallback :
  infer_agency_from_filename "axxess-_signed.csv" = "Axxess".
Proof. reflexivity. Qed.

(** X5.  The agency inferred from a file name is never empty and holds
    neither an underscore nor a hyphen. *)
Theorem infer_agency_from_filename_clean (file_name : string) :
  infer_agency_from_filename file_name <> EmptyString
  /\ Py.mem_ascii "_" (infer_agency_from_filename file_name) = false
  /\ Py.mem_ascii "-" (infer_agency_from_filename file_name) = false.
Proof.
  unfold infer_agency_from_filename.
  destruct (search_agency file_name) as [group|] eqn:E.
  - destruct (search_agency_clean _ _ E) as [Hne Hu].
    destruct (replace_hyphens_clean group) as (Hh & Hu' & Hne').
    split; [exact (Hne' Hne)|]. split; [exact (Hu' Hu) | exact Hh].
  - destruct (Py.contains _ "axxess"); [repeat split; discriminate|].
    destruct (Py.contains _ "kinnser"); [repeat split; discriminate|].
    destruct (Py.contains _ "athena"); repeat split; discriminate.
Qed.


(** ** The failure mask is the match on the whole-row text *)

Lemma append_nil_r (s : string) : s +:+ EmptyString = s.
Proof. induction s as [|c s IH]; [reflexivity|]. rewrite append_cons. f_equal. exact IH. Qed.

Lemma join_part (sep x : string) (parts : list string) :
  x ∈ parts -> exists pre post, Py.join sep parts = pre +:+ x +:+ post.
Proof.
  induction parts as [|p parts IH]; intros Hin; [inversion Hin|].
  apply elem_of_cons in Hin as [-> | Hin].
  - destruct parts as [|q parts].
    + exists EmptyString, EmptyString. simpl. rewrite append_nil_r. reflexivity.
    + exists EmptyString, (sep +:+ Py.join sep (q :: parts)). reflexivity.
  - destruct (IH Hin) as (pre & post & Hjoin).
    destruct parts as [|q parts]; [inversion Hin|].
    exists (p +:+ sep +:+ pre), post.
    change (Py.join sep (p :: q :: parts)) with (p +:+ sep +:+ Py.join sep (q :: parts)).
    rewrite Hjoin, !append_assoc. reflexivity.
Qed.

(** A pattern that matches a piece of a text matches the text. *)
Lemma pattern_search_piece (pattern : Pattern) (pre v post : string) :
  pattern_search pattern v = true -> pattern_search pattern (pre +:+ v +:+ post) = true.
Proof.
  unfold pattern_search. destruct (alternatives pattern) as [|k alts]; [reflexivity|].
  rewrite !existsb_exists. intros (k' & Hin & Hk). exists k'. split; [exact Hin|].
  apply (contains_inner _ (Py.lower v)); [exact Hk|].
  apply contains_spec. exists (Py.lower pre), (Py.lower post).
  rewrite !lower_app. reflexivity.
Qed.

Lemma cell_in_row_text (df : DataFrame) (row : list cell) (column : string) :
  exists pre post, row_text row = pre +:+ fillna_str (row_get df row column) +:+ post.
Proof.
  unfold row_get, row_text.
  destruct (column_position column (columns df)) as [i|];
    [|exists EmptyString, (Py.join " " (map fillna_str row)); reflexivity].
  destruct (row !! i) as [c|] eqn:E; simpl;
    [|exists EmptyString, (Py.join " " (map fillna_str row)); reflexivity].
  apply join_part. apply list_elem_of_In, in_map, list_elem_of_In.
  apply list_elem_of_lookup. exists i. exact E.
Qed.

Lemma mask_or_implied {A : Type} (g h : A -> bool) (mask : list bool) (xs : list A) :
  (forall x, h x = true -> g x = true) ->
  Forall2 (fun b x => b = true -> g x = true) mask xs ->
  Forall2 (fun b x => b = true -> g x = true) (mask_or mask (map h xs)) xs.
Proof.
  intros Himp. unfold mask_or. induction 1 as [|b x mask xs Hb _ IH]; simpl; constructor.
  - intros Hor. apply orb_true_iff in Hor as [Ht | Ht]; auto.
  - exact IH.
Qed.

Lemma mask_or_absorbed {A : Type} (g : A -> bool) (mask : list bool) (xs : list A) :
  Forall2 (fun b x => b = true -> g x = true) mask xs ->
  mask_or mask (map g xs) = map g xs.
Proof.
  unfold mask_or. induction 1 as [|b x mask xs Hb _ IH]; simpl; [reflexivity|].
  rewrite IH. f_equal. destruct b; [symmetry; apply Hb; reflexivity | reflexivity].
Qed.

Lemma build_failure_mask_steps (df : DataFrame) (pattern : Pattern)
    (status_columns : list string) (st : list bool * list string) :
  Forall2 (fun b row => b = true -> pattern_search pattern (row_text row) = true)
          st.1 (rows df) ->
  let st' := fold_left (build_failure_mask_step df pattern) status_columns st in
  Forall2 (fun b row => b = true -> pattern_search pattern (row_text row) = true)
          st'.1 (rows df)
  /\ st'.2 = st.2 ++ List.filter (has_column df) status_columns.
Proof.
  revert st. induction status_columns as [|column status_columns IH]; intros st Hinv; simpl.
  - split; [exact Hinv | rewrite app_nil_r; reflexivity].
  - destruct (IH (build_failure_mask_step df pattern st column)) as [Hmask Hcols].
    { destruct st as [mask inspected]. unfold build_failure_mask_step.
      destruct (has_column df column); [|exact Hinv].
      simpl. unfold str_contains, df_column. rewrite !map_map.
      apply (mask_or_implied (fun row => pattern_search pattern (row_text row)));
        [|exact Hinv].
      intros row Hrow. destruct (cell_in_row_text df row column) as (pre & post & ->).
      apply pattern_search_piece. exact Hrow. }
    cbv zeta in Hmask, Hcols. split; [exact Hmask|]. rewrite Hcols.
    destruct st as [mask inspected]. unfold build_failure_mask_step.
    destruct (has_column df column); simpl; [rewrite <- app_assoc|]; reflexivity.
Qed.

(** The three results of [build_failure_mask] on a table that has rows and
    columns. *)
Lemma build_failure_mask_closed_form (df : DataFrame) (keywords status_columns : list string) :
  df_empty df = false ->
  build_failure_mask df keywords status_columns
  = (map (fun row => pattern_search (compile_failure_pattern (py_sorted (list_to_set keywords)))
                       (row_text row)) (rows df),
     List.filter (has_column df) status_columns,
     compile_failure_pattern (py_sorted (list_to_set keywords))).
Proof.
  intros Hne. unfold build_failure_mask. rewrite Hne.
  set (pattern := compile_failure_pattern (py_sorted (list_to_set keywords))).
  destruct (build_failure_mask_steps df pattern status_columns
              (map (fun _ => false) (rows df), [])) as [Hmask Hcols].
  { simpl. induction (rows df); simpl; constructor; [discriminate | assumption]. }
  cbv zeta in Hmask, Hcols.
  destruct (fold_left _ _ _) as [mask inspected]. simpl in Hmask, Hcols. subst inspected.
  f_equal. f_equal. unfold str_contains. rewrite map_map.
  apply (mask_or_absorbed (fun row => pattern_search pattern (row_text row))). exact Hmask.
Qed.

(** X6.  On a table with rows and columns, a row is flagged exactly when
    the pattern matches its whole-row text, so the list of status columns
    never changes the mask; it only decides the inspected columns, which
    are the status columns present in the table, in the order and with the
    repetitions of the configuration.  A table without rows or without
    columns gives the empty mask and no inspected column. *)
Theorem build_failure_mask_row_text (df : DataFrame) (keywords status_columns : list string) :
  let pattern := compile_failure_pattern (py_sorted (list_to_set keywords)) in
  build_failure_mask df keywords status_columns
  = if df_empty df then ([], [], pattern)
    else (map (fun row => pattern_search pattern (row_text row)) (rows df),
          List.filter (has_column df) status_columns,
          pattern).
Proof.
  intros pattern. destruct (df_empty df) eqn:Hemp.
  - unfold build_failure_mask. rewrite Hemp. reflexivity.
  - apply build_failure_mask_closed_form. exact Hemp.
Qed.

Lemma lookup_map {A B : Type} (f : A -> B) (xs : list A) (i : nat) :
  map f xs !! i = option_map f (xs !! i).
Proof.
  revert i. induction xs as [|x xs IH]; intros [|i]; simpl; try reflexivity. apply IH.
Qed.

Lemma pattern_search_more (p1 p2 : Pattern) (text : string) :
  alternatives p1 <> [] ->
  (forall k, k ∈ alternatives p1 -> k ∈ alternatives p2) ->
  pattern_search p1 text = true -> pattern_search p2 text = true.
Proof.
  unfold pattern_search. intros Hne Hsub.
  destruct (alternatives p1) as [|k1 alts1] eqn:E1; [contradiction|].
  destruct (alternatives p2) as [|k2 alts2]; [reflexivity|].
  rewrite !existsb_exists. intros (k & Hin & Hk). exists k. split; [|exact Hk].
  apply list_elem_of_In, Hsub, list_elem_of_In. exact Hin.
Qed.

(** X7.  With a keyword list that is not empty, adding keywords never
    clears a flag: a row that fails under the keywords [keywords1] fails
    under every list that holds them all. *)
Theorem build_failure_mask_more_keywords (df : DataFrame)
    (keywords1 keywords2 status_columns : list string) (i : nat) :
  keywords1 <> [] ->
  (forall k, k ∈ keywords1 -> k ∈ keywords2) ->
  (build_failure_mask df keywords1 status_columns).1.1 !! i = Some true ->
  (build_failure_mask df keywords2 status_columns).1.1 !! i = Some true.
Proof.
  intros Hne Hsub.
  destruct (df_empty df) eqn:Hemp.
  - unfold build_failure_mask. rewrite Hemp. simpl. intros H. inversion H.
  - rewrite !build_failure_mask_closed_form by exact Hemp. simpl. rewrite !lookup_map.
    destruct (rows df !! i) as [row|]; simpl; [|discriminate].
    intros Hrow. injection Hrow as Hrow. f_equal.
    revert Hrow. apply pattern_search_more; simpl.
    + destruct keywords1 as [|k ks]; [contradiction|].
      intros Hnil. assert (Hin : k ∈ py_sorted (list_to_set (k :: ks))).
      { apply py_sorted_elem_of, elem_of_list_to_set. left. }
      rewrite Hnil in Hin. inversion Hin.
    + intros k. rewrite !py_sorted_elem_of, !elem_of_list_to_set. apply Hsub.
Qed.

Lemma build_failure_mask_more_keywords_witness :
  (build_failure_mask sample_table (failure_keywords (resolve_agency_config "Axxess"))
     DEFAULT_STATUS_COLUMNS).1.1 !! 2%nat = Some true.
Proof.
  apply (build_failure_mask_more_keywords sample_table DEFAULT_FAILURE_KEYWORDS
           (failure_keywords (resolve_agency_config "Axxess")) DEFAULT_STATUS_COLUMNS 2).
  - discriminate.
  - intros k Hk.
    change (k ∈ DEFAULT_FAILURE_KEYWORDS ++ ["no patient"; "non da"]).
    apply elem_of_app. left. exact Hk.
  - vm_compute. reflexivity.
Defined.

Lemma py_sorted_empty : py_sorted ∅ = [].
Proof. unfold py_sorted. rewrite elements_empty. reflexivity. Qed.

Lemma mask_sum_all_true {A : Type} (xs : list A) :
  mask_sum (map (fun _ => true) xs) = Z.of_nat (length xs).
Proof.
  unfold mask_sum. f_equal. induction xs as [|x xs IH]; [reflexivity|].
  cbn [map]. rewrite filter_cons_True by reflexivity. cbn [length]. f_equal. exact IH.
Qed.

(** X8.  A rule without any failure keyword compiles to the empty pattern,
    which matches every text: on a table with rows and columns every row
    counts as failed and none as successful. *)
Theorem calculate_stats_no_keywords
    (to_datetime : list cell -> list (option Z)) (threshold : Z)
    (mean_round2 : list Z -> float) (format_rate : float -> string)
    (now : Z) (df : DataFrame) (columns_to_inspect : list string) :
  df_empty df = false ->
  let s := calculate_stats to_datetime threshold mean_round2 format_rate now df
             (mkAgencyConfig [] columns_to_inspect) in
  failure_count s = df_len df /\ success_count s = 0 /\ total_rows s = df_len df.
Proof.
  intros Hemp s. subst s. unfold calculate_stats.
  assert (Hpos : (df_len df =? 0) = false).
  { apply Z.eqb_neq. unfold df_len, df_empty in *.
    destruct (columns df); [discriminate|]. destruct (rows df); [discriminate | simpl; lia]. }
  rewrite Hpos. cbn [failure_keywords status_columns].
  rewrite build_failure_mask_closed_form by exact Hemp.
  cbn [failure_count success_count total_rows].
  replace (list_to_set [] : gset string) with (∅ : gset string) by reflexivity.
  rewrite py_sorted_empty. unfold pattern_search, compile_failure_pattern. simpl.
  rewrite mask_sum_all_true. unfold df_len. repeat split; lia.
Qed.

Lemma calculate_stats_no_keywords_witness :
  failure_count (calculate_stats sample_to_datetime 5 sample_mean_round2 sample_format_rate
                   sample_now sample_table (mkAgencyConfig [] DEFAULT_STATUS_COLUMNS)) = 3.
Proof.
  apply (calculate_stats_no_keywords sample_to_datetime 5 sample_mean_round2
           sample_format_rate sample_now sample_table DEFAULT_STATUS_COLUMNS).
  reflexivity.
Defined.


(** ** Trimmed texts *)

Lemma rstrip_by_idemp (p : ascii -> bool) (s : string) :
  Py.rstrip_by p (Py.rstrip_by p s) = Py.rstrip_by p s.
Proof.
  induction s as [|c s IH]; simpl; [reflexivity|].
  destruct (Py.is_empty (Py.rstrip_by p s) && p c)%bool eqn:E; [reflexivity|].
  simpl. rewrite IH, E. reflexivity.
Qed.

Lemma lstrip_by_head (p : ascii -> bool) (s : string) :
  Py.lstrip_by p s = EmptyString
  \/ exists c t, Py.lstrip_by p s = String c t /\ p c = false.
Proof.
  induction s as [|c s IH]; simpl; [left; reflexivity|].
  destruct (p c) eqn:E; [exact IH | right; exists c, s; auto].
Qed.

Lemma strip_idemp (s : string) : Py.strip (Py.strip s) = Py.strip s.
Proof.
  unfold Py.strip.
  destruct (lstrip_by_head Py.isspace s) as [-> | (c & t & -> & Hc)]; [reflexivity|].
  cbn [Py.rstrip_by]. rewrite Hc, andb_false_r.
  cbn [Py.lstrip_by]. rewrite Hc.
  cbn [Py.rstrip_by]. rewrite rstrip_by_idemp, Hc, andb_false_r. reflexivity.
Qed.

Lemma cell_text_clean (c : cell) : Py.strip (cell_text c) = cell_text c.
Proof. destruct c as [s|]; simpl; [apply strip_idemp | reflexivity]. Qed.

Lemma row_reasons_clean (df : DataFrame) (inspected_columns : list string) (pattern : Pattern)
    (row : list cell) (v : string) :
  v ∈ row_reasons df inspected_columns pattern row -> v <> EmptyString /\ Py.strip v = v.
Proof.
  unfold row_reasons. rewrite elem_of_app. intros [Hin | Hin].
  - unfold remark_reasons in Hin.
    destruct (has_column df "Remarks"); [|inversion Hin].
    destruct (Py.is_empty (cell_text (row_get df row "Remarks"))) eqn:Hemp; [inversion Hin|].
    apply list_elem_of_singleton in Hin. subst v.
    split; [intros Hnil; rewrite Hnil in Hemp; discriminate | apply cell_text_clean].
  - apply list_elem_of_In, in_flat_map in Hin as (column & _ & Hin).
    apply list_elem_of_In, column_reasons_match in Hin as (_ & _ & _ & Heq & Hne).
    split; [exact Hne | rewrite Heq; apply cell_text_clean].
Qed.

Lemma collect_series_elem_of (df : DataFrame) (failure_mask : list bool)
    (inspected_columns : list string) (pattern : Pattern) (v : string) :
  v ∈ concat (collect_series df failure_mask inspected_columns pattern) ->
  exists row, row ∈ select failure_mask (rows df)
              /\ v ∈ row_reasons df inspected_columns pattern row.
Proof.
  rewrite (collect_series_row_reasons df failure_mask inspected_columns pattern).
  intros Hin. apply list_elem_of_In, in_flat_map in Hin as (row & Hrow & Hv).
  exists row. split; apply list_elem_of_In; assumption.
Qed.

Lemma attributed_identifiers_elem_of (df : DataFrame) (failure_mask : list bool)
    (inspected_columns : list string) (pattern : Pattern) (v identifier : string) :
  identifier ∈ attributed_identifiers df failure_mask inspected_columns pattern v ->
  exists ir, ir ∈ select failure_mask (iterrows df)
             /\ identifier = row_identifier df ir.1 ir.2
             /\ v ∈ row_reasons df inspected_columns pattern ir.2.
Proof.
  unfold attributed_identifiers. intros Hin.
  apply list_elem_of_In, in_flat_map in Hin as (ir & Hir & Hin).
  apply in_map_iff in Hin as (w & <- & Hw).
  unfold hits in Hw. apply filter_In in Hw as [Hw Heq].
  apply String.eqb_eq in Heq. subst w.
  exists ir. repeat split; [apply list_elem_of_In; exact Hir | apply list_elem_of_In; exact Hw].
Qed.

Lemma row_identifier_loop_nonempty (df : DataFrame) (row : list cell)
    (candidates : list string) (identifier : string) :
  identifier <> EmptyString ->
  row_identifier_loop df row candidates identifier <> EmptyString.
Proof.
  intros Hne. induction candidates as [|col candidates IH]; simpl; [exact Hne|].
  destruct (_ && _)%bool; [|exact IH].
  destruct (Py.is_empty (cell_text (row_get df row col))) eqn:Hemp; simpl; [exact IH|].
  intros Hnil. rewrite Hnil in Hemp. discriminate.
Qed.

Lemma row_identifier_nonempty (df : DataFrame) (idx : Z) (row : list cell) :
  row_identifier df idx row <> EmptyString.
Proof. apply row_identifier_loop_nonempty. discriminate. Qed.

(** X9.  The failure reasons that [calculate_stats] reports are listed
    without repetition, are never empty and carry no blanks around them;
    the same holds for the keys of [failure_details], and every list of
    identifiers there is non-empty and made of non-empty identifiers. *)
Theorem calculate_stats_reasons_clean
    (to_datetime : list cell -> list (option Z)) (threshold : Z)
    (mean_round2 : list Z -> float) (format_rate : float -> string)
    (now : Z) (df : DataFrame) (agency_config : AgencyConfig) :
  let s := calculate_stats to_datetime threshold mean_round2 format_rate now df agency_config in
  NoDup (unique_failure_reasons s)
  /\ (forall v, v ∈ unique_failure_reasons s -> v <> EmptyString /\ Py.strip v = v)
  /\ (forall details v ids,
        failure_details s = Some details -> details !! v = Some ids ->
        v <> EmptyString /\ Py.strip v = v /\ ids <> []
        /\ forall identifier, identifier ∈ ids -> identifier <> EmptyString).
Proof.
  intros s. subst s. unfold calculate_stats.
  destruct (df_len df =? 0).
  { cbn [unique_failure_reasons failure_details].
    split; [constructor|]. split; [intros v H; inversion H | discriminate]. }
  destruct (build_failure_mask _ _ _) as [[failure_mask inspected_columns] pattern].
  cbn [unique_failure_reasons failure_details].
  destruct (mask_sum failure_mask =? 0); cbn [negb].
  { split; [constructor|]. split; [intros v H; inversion H|].
    intros details v ids Heq Hlook. injection Heq as <-.
    rewrite lookup_empty in Hlook. discriminate. }
  set (collected_series := collect_series df failure_mask inspected_columns pattern).
  assert (Hunique : match collected_series with
                    | [] => []
                    | _ => unique (concat collected_series)
                    end = unique (concat collected_series))
    by (destruct collected_series; reflexivity).
  rewrite Hunique. split; [apply unique_from_NoDup|]. split.
  - intros v Hv. unfold unique in Hv. apply unique_from_elem_of in Hv as [Hv _].
    apply collect_series_elem_of in Hv as (row & _ & Hv).
    exact (row_reasons_clean _ _ _ _ _ Hv).
  - intros details v ids Heq Hlook. injection Heq as <-.
    destruct (collect_details_lookup df failure_mask inspected_columns pattern v)
      as [Hids Hnone].
    cbv zeta in Hids, Hnone. rewrite Hlook in Hids, Hnone. simpl in Hids.
    assert (Hne : ids <> []).
    { intros Hnil. rewrite <- Hids in Hnone. destruct Hnone as [_ Hback].
      specialize (Hback Hnil). discriminate. }
    assert (Hall : forall identifier, identifier ∈ ids ->
                     identifier <> EmptyString
                     /\ exists row, v ∈ row_reasons df inspected_columns pattern row).
    { intros identifier Hin. rewrite Hids in Hin.
      apply attributed_identifiers_elem_of in Hin as (ir & _ & -> & Hv).
      split; [apply row_identifier_nonempty | exists ir.2; exact Hv]. }
    destruct ids as [|identifier ids]; [contradiction|].
    destruct (Hall identifier) as [_ [row Hv]]; [left|].
    destruct (row_reasons_clean _ _ _ _ _ Hv) as [Hvne Hvstrip].
    repeat split; try assumption. intros id Hid. apply Hall. exact Hid.
Qed.

Lemma calculate_stats_reasons_clean_witness :
  let s := calculate_stats sample_to_datetime 5 sample_mean_round2 sample_format_rate
             sample_now sample_table sample_config in
  "Upload failed"%string ∈ unique_failure_reasons s
  /\ "Upload failed"%string <> EmptyString
  /\ Py.strip "Upload failed" = "Upload failed"%string.
Proof.
  intros s.
  assert (Hin : "Upload failed"%string ∈ unique_failure_reasons s).
  { replace (unique_failure_reasons s) with ["Patient missing"; "Upload failed"]%string
      by (vm_compute; reflexivity).
    right. left. }
  split; [exact Hin|].
  apply (calculate_stats_reasons_clean sample_to_datetime 5 sample_mean_round2
           sample_format_rate sample_now sample_table sample_config). exact Hin.
Defined.

(** ** Identifiers of failing rows and extracted identifiers *)

Lemma row_identifier_loop_skip (df : DataFrame) (row : list cell)
    (skipped rest : list string) (identifier : string) :
  (forall c, c ∈ skipped -> has_column df c = false) ->
  row_identifier_loop df row (skipped ++ rest) identifier
  = row_identifier_loop df row rest identifier.
Proof.
  induction skipped as [|c skipped IH]; intros Hno; simpl; [reflexivity|].
  rewrite (Hno c) by left. simpl. apply IH. intros c' Hc'. apply Hno. right. exact Hc'.
Qed.

(** X10.  On a table whose rows [df.iterrows()] yields as they are: when
    the first identifier column of the table holds a value that is not
    blank in a row, the identifier under which that row is listed in
    [failure_details] is that value, trimmed, and it is one of the
    identifiers that [extract_order_identifiers] returns for the table.
    On [numeric_table], whose rows come out as floats, the first row is
    listed as ["1001.0"], which is not among the extracted identifiers. *)
Theorem row_identifier_extracted (df : DataFrame) (idx : Z) (row : list cell)
    (earlier : list string) (column : string) (later : list string) (value : string) :
  (upcasts_rows df = false ->
   IDENTIFIER_COLUMNS = earlier ++ column :: later ->
   (forall c, c ∈ earlier -> has_column df c = false) ->
   has_column df column = true ->
   row ∈ rows df ->
   row_get df row column = Some value ->
   Py.strip value <> EmptyString ->
   row_identifier df idx (row_values df row) = Py.strip value
   /\ row_identifier df idx (row_values df row) ∈ extract_order_identifiers df)
  /\ (upcasts_rows numeric_table = true
      /\ row_identifier numeric_table 0
           (row_values numeric_table [Some "1001"; Some "500"; Some "12.5"]) = "1001.0"
      /\ extract_order_identifiers numeric_table = {[ "1001"; "1002" ]}).
Proof.
  split.
  - intros Hkeep Hsplit Hno Hyes Hrow Hcell Hne.
    rewrite (row_values_keep df row Hkeep).
    assert (Hid : row_identifier df idx row = Py.strip value).
    { unfold row_identifier. rewrite Hsplit, row_identifier_loop_skip by exact Hno.
      simpl. rewrite Hyes, Hcell. simpl.
      destruct (Py.is_empty (Py.strip value)) eqn:Hemp; [|reflexivity].
      destruct (Py.strip value); [contradiction | discriminate]. }
    split; [exact Hid|]. rewrite Hid.
    apply (extract_order_identifiers_first_present df earlier column later Hsplit Hno Hyes).
    exists value. split; [|reflexivity].
    unfold df_column. apply list_elem_of_In, in_map_iff.
    exists row. split; [exact Hcell | apply list_elem_of_In; exact Hrow].
  - split; [reflexivity|]. split; [vm_compute; reflexivity|].
    vm_compute. reflexivity.
Qed.

Lemma row_identifier_extracted_witness :
  upcasts_rows sample_table = false
  /\ row_identifier sample_table 2
       (row_values sample_table
          [Some "A-3"; Some "Patient missing"; Some "Upload failed"; Some "n/a"; None])
     = "A-3"%string
  /\ "A-3"%string ∈ extract_order_identifiers sample_table.
Proof.
  destruct (proj1 (row_identifier_extracted sample_table 2
              [Some "A-3"; Some "Patient missing"; Some "Upload failed"; Some "n/a"; None]
              [] "OrderId" ["Order Number"; "Document Id"] "A-3")) as [Hid Hin].
  - reflexivity.
  - reflexivity.
  - intros c Hc. inversion Hc.
  - reflexivity.
  - right. right. left.
  - reflexivity.
  - discriminate.
  - split; [reflexivity|]. split; [exact Hid|]. rewrite Hid in Hin. exact Hin.
Defined.

(** ** Further properties of the SLA metrics *)

Lemma pending_count_mono (threshold now1 now2 : Z) (sent : list (option Z)) :
  now1 <= now2 ->
  mask_sum (map (fun d => match d with
                          | Some days => threshold <? days
                          | None => false
                          end) (map (timedelta_days (Some now1)) sent))
  <= mask_sum (map (fun d => match d with
                             | Some days => threshold <? days
                             | None => false
                             end) (map (timedelta_days (Some now2)) sent)).
Proof.
  intros Hle. unfold mask_sum. apply inj_le.
  induction sent as [|st sent IH]; [apply Nat.le_refl|].
  cbn [map].
  destruct st as [t|]; cbn [timedelta_days].
  - assert (Hdays : (now1 - t) / NS_PER_DAY <= (now2 - t) / NS_PER_DAY).
    { apply Z.div_le_mono; [unfold NS_PER_DAY; lia | lia]. }
    destruct (threshold <? (now1 - t) / NS_PER_DAY) eqn:E1.
    + apply Z.ltb_lt in E1.
      assert (E2 : (threshold <? (now2 - t) / NS_PER_DAY) = true) by (apply Z.ltb_lt; lia).
      rewrite E2, !filter_cons_True by reflexivity. cbn [length]. lia.
    + rewrite (filter_cons_False _ false) by discriminate.
      destruct (threshold <? (now2 - t) / NS_PER_DAY).
      * rewrite filter_cons_True by reflexivity. cbn [length]. lia.
      * rewrite filter_cons_False by discriminate. exact IH.
  - rewrite !filter_cons_False by discriminate. exact IH.
Qed.

(** X11.  When the latency fields are there, the minimum is at most the
    maximum; and the overdue count never goes down as the clock advances:
    a later run over the same table reports at least as many overdue
    pending rows. *)
Theorem compute_sla_metrics_order_and_clock
    (to_datetime : list cell -> list (option Z)) (threshold : Z)
    (mean_round2 : list Z -> float) (now1 now2 : Z) (df : DataFrame) :
  let m1 := compute_sla_metrics to_datetime threshold mean_round2 now1 df in
  let m2 := compute_sla_metrics to_datetime threshold mean_round2 now2 df in
  (forall lo hi, min_days_to_sign m1 = Some lo -> max_days_to_sign m1 = Some hi -> lo <= hi)
  /\ (now1 <= now2 ->
      forall n1 n2, pending_overdue_count m1 = Some n1 -> pending_overdue_count m2 = Some n2 ->
                    n1 <= n2).
Proof.
  intros m1 m2. subst m1 m2. unfold compute_sla_metrics.
  destruct (_ || _)%bool; [split; [discriminate | intros; discriminate]|].
  set (sent_dates := to_datetime (df_column df SENT_TO_PHYSICIAN_COLUMN)).
  set (signed_dates := to_datetime (df_column df SIGNATURE_COLUMN)).
  set (pending_mask :=
    zip_with (fun sg st : option Z => (negb (notna sg) && notna st)%bool) signed_dates sent_dates).
  assert (Hcount : forall n1 n2 : Z,
    now1 <= now2 ->
    Some (if mask_any pending_mask
          then mask_sum (map (fun d => match d with
                                       | Some days => threshold <? days
                                       | None => false
                                       end)
                             (map (timedelta_days (Some now1)) (select pending_mask sent_dates)))
          else 0) = Some n1 ->
    Some (if mask_any pending_mask
          then mask_sum (map (fun d => match d with
                                       | Some days => threshold <? days
                                       | None => false
                                       end)
                             (map (timedelta_days (Some now2)) (select pending_mask sent_dates)))
          else 0) = Some n2 ->
    n1 <= n2).
  { intros n1 n2 Hle H1 H2. injection H1 as <-. injection H2 as <-.
    destruct (mask_any pending_mask); [apply pending_count_mono; exact Hle | lia]. }
  destruct (dropna (zip_with timedelta_days signed_dates sent_dates)) as [|d latency] eqn:E;
    cbn [min_days_to_sign max_days_to_sign pending_overdue_count].
  - split; [discriminate|]. intros Hle n1 n2. apply (Hcount n1 n2 Hle).
  - split; [|intros Hle n1 n2; apply (Hcount n1 n2 Hle)].
    intros lo hi Hlo Hhi. injection Hlo as <-. injection Hhi as <-.
    destruct (series_min_spec d latency) as [Hin _].
    destruct (series_max_spec d latency) as [_ Hub]. apply Hub. exact Hin.
Qed.

Lemma compute_sla_metrics_order_and_clock_witness :
  let m1 := compute_sla_metrics sample_to_datetime 5 sample_mean_round2
              sample_now sample_table in
  let m2 := compute_sla_metrics sample_to_datetime 5 sample_mean_round2
              sample_later sample_table in
  pending_overdue_count m1 = Some 0 /\ pending_overdue_count m2 = Some 1 /\ 0 <= 1.
Proof.
  intros m1 m2.
  assert (H1 : pending_overdue_count m1 = Some 0) by (vm_compute; reflexivity).
  assert (H2 : pending_overdue_count m2 = Some 1) by (vm_compute; reflexivity).
  split; [exact H1|]. split; [exact H2|].
  refine (proj2 (compute_sla_metrics_order_and_clock sample_to_datetime 5 sample_mean_round2
                   sample_now sample_later sample_table) _ 0 1 H1 H2).
  vm_compute. discriminate.
Defined.


(** ** One pair per key, in order of first appearance, last file wins *)

Lemma first_seen_from_elem_of {A : Type} `{EqDecision A} (seen xs : list A) (x : A) :
  x ∈ first_seen_from seen xs <-> x ∈ xs /\ x ∉ seen.
Proof.
  revert seen. induction xs as [|y xs IH]; intros seen; simpl.
  - split; [intros Hx; inversion Hx | intros [Hx _]; inversion Hx].
  - case_bool_decide as Hy.
    + rewrite IH. split.
      * intros [Hin Hns]. split; [right; exact Hin | exact Hns].
      * intros [Hin Hns]. split; [|exact Hns].
        apply elem_of_cons in Hin as [-> | Hin]; [contradiction | exact Hin].
    + rewrite elem_of_cons, IH. split.
      * intros [-> | [Hin Hns]]; [split; [left | exact Hy]|].
        split; [right; exact Hin|]. intros Hs. apply Hns. right. exact Hs.
      * intros [Hin Hns]. apply elem_of_cons in Hin as [-> | Hin]; [left; reflexivity|].
        destruct (decide (x = y)) as [-> | Hne]; [left; reflexivity|].
        right. split; [exact Hin|]. intros Hs.
        apply elem_of_cons in Hs as [-> | Hs]; [apply Hne; reflexivity | apply Hns; exact Hs].
Qed.

Lemma first_seen_elem_of {A : Type} `{EqDecision A} (xs : list A) (x : A) :
  x ∈ first_seen xs <-> x ∈ xs.
Proof.
  unfold first_seen. rewrite first_seen_from_elem_of. split; [intros [Hx _]; exact Hx|].
  intros Hx. split; [exact Hx | intros Hn; inversion Hn].
Qed.

Lemma first_seen_from_NoDup {A : Type} `{EqDecision A} (seen xs : list A) :
  NoDup (first_seen_from seen xs).
Proof.
  revert seen. induction xs as [|y xs IH]; intros seen; simpl; [constructor|].
  case_bool_decide as Hy; [apply IH|].
  constructor; [|apply IH].
  rewrite first_seen_from_elem_of. intros [_ Hns]. apply Hns. left.
Qed.

Lemma first_seen_from_snoc {A : Type} `{EqDecision A} (seen xs : list A) (x : A) :
  first_seen_from seen (xs ++ [x])
  = first_seen_from seen xs ++ (if bool_decide (x ∈ seen \/ x ∈ xs) then [] else [x]).
Proof.
  revert seen. induction xs as [|y xs IH]; intros seen; simpl.
  - rewrite (bool_decide_ext (x ∈ seen \/ x ∈ []) (x ∈ seen)).
    + case_bool_decide; reflexivity.
    + split; [intros [Hx | Hx]; [exact Hx | inversion Hx] | intros Hx; left; exact Hx].
  - case_bool_decide as Hy.
    + rewrite IH.
      rewrite (bool_decide_ext (x ∈ seen \/ x ∈ y :: xs) (x ∈ seen \/ x ∈ xs)); [reflexivity|].
      split.
      * intros [Hx | Hx]; [left; exact Hx|].
        apply elem_of_cons in Hx as [-> | Hx]; [left; exact Hy | right; exact Hx].
      * intros [Hx | Hx]; [left; exact Hx | right; right; exact Hx].
    + simpl. rewrite IH.
      rewrite (bool_decide_ext (x ∈ seen \/ x ∈ y :: xs) (x ∈ y :: seen \/ x ∈ xs));
        [reflexivity|].
      split.
      * intros [Hx | Hx]; [left; right; exact Hx|].
        apply elem_of_cons in Hx as [-> | Hx]; [left; left | right; exact Hx].
      * intros [Hx | Hx]; [|right; right; exact Hx].
        apply elem_of_cons in Hx as [-> | Hx]; [right; left | left; exact Hx].
Qed.

Lemma first_seen_snoc {A : Type} `{EqDecision A} (xs : list A) (x : A) :
  first_seen (xs ++ [x])
  = first_seen xs ++ (if bool_decide (x ∈ first_seen xs) then [] else [x]).
Proof.
  unfold first_seen. rewrite first_seen_from_snoc.
  rewrite (bool_decide_ext (x ∈ [] \/ x ∈ xs) (x ∈ first_seen_from [] xs)); [reflexivity|].
  rewrite first_seen_from_elem_of. split.
  - intros [Hx | Hx]; [inversion Hx | split; [exact Hx | intros Hn; inversion Hn]].
  - intros [Hx _]. right. exact Hx.
Qed.

Lemma last_in_slot_snoc (signed_slot : bool) (key : string * string)
    (processed : list FileAnalysis) (entry : FileAnalysis) :
  last_in_slot signed_slot key (processed ++ [entry])
  = if (bool_decide (composite_key_of entry = key)
        && Bool.eqb (in_signed_slot entry) signed_slot)%bool
    then Some entry else last_in_slot signed_slot key processed.
Proof.
  unfold last_in_slot. rewrite List.filter_app. simpl.
  destruct (_ && _)%bool; [apply last_snoc | rewrite app_nil_r; reflexivity].
Qed.

Lemma last_in_slot_absent (signed_slot : bool) (key : string * string)
    (processed : list FileAnalysis) :
  key ∉ map composite_key_of processed -> last_in_slot signed_slot key processed = None.
Proof.
  intros Hno. unfold last_in_slot. apply last_None.
  induction processed as [|e processed IH]; [reflexivity|]. simpl.
  case_bool_decide as Hk; simpl.
  - exfalso. apply Hno. simpl. rewrite Hk. left.
  - apply IH. intros Hin. apply Hno. right. exact Hin.
Qed.

Lemma last_in_slot_present (key : string * string) (processed : list FileAnalysis) :
  key ∈ map composite_key_of processed ->
  last_in_slot true key processed <> None \/ last_in_slot false key processed <> None.
Proof.
  induction processed as [|e processed IH] using rev_ind; [intros Hin; inversion Hin|].
  rewrite map_app, elem_of_app, !last_in_slot_snoc. intros [Hin | Hin].
  - destruct (IH Hin) as [Hs | Hu].
    + left. destruct (_ && _)%bool; [discriminate | exact Hs].
    + right. destruct (_ && _)%bool; [discriminate | exact Hu].
  - apply list_elem_of_singleton in Hin. rewrite bool_decide_eq_true_2 by congruence.
    destruct (in_signed_slot e); simpl; [left | right]; discriminate.
Qed.

Lemma pair_step_pair_state (processed : list FileAnalysis) (entry : FileAnalysis)
    (st : gmap (string * string) PairSlots * list (string * string)) :
  pair_state processed st -> pair_state (processed ++ [entry]) (pair_step st entry).
Proof.
  destruct st as [pair_map ordered_keys]. intros [Hkeys Hmap]. simpl in Hkeys, Hmap.
  unfold pair_step. fold (composite_key_of entry). fold (in_signed_slot entry).
  set (ck := composite_key_of entry).
  assert (Hother : forall k b, ck <> k ->
            last_in_slot b k (processed ++ [entry]) = last_in_slot b k processed).
  { intros k b Hne. rewrite last_in_slot_snoc.
    fold ck. rewrite bool_decide_eq_false_2 by exact Hne. reflexivity. }
  assert (Hsame : forall b,
            last_in_slot b ck (processed ++ [entry])
            = if Bool.eqb (in_signed_slot entry) b then Some entry
              else last_in_slot b ck processed).
  { intros b. rewrite last_in_slot_snoc. fold ck.
    rewrite bool_decide_eq_true_2 by reflexivity. reflexivity. }
  pose proof (Hmap ck) as Hck.
  case_bool_decide as Hin.
  - rewrite Hck. cbn [fst snd]. rewrite Hck. cbn [default slot_signed slot_unsigned].
    split; cbn [fst snd].
    + rewrite map_app. cbn [map]. fold ck. rewrite first_seen_snoc, <- Hkeys.
      rewrite bool_decide_eq_true_2 by exact Hin. rewrite app_nil_r. reflexivity.
    + intros k. destruct (decide (ck = k)) as [<- | Hne].
      * rewrite lookup_insert_eq, bool_decide_eq_true_2 by exact Hin.
        rewrite !Hsame. destruct (in_signed_slot entry); reflexivity.
      * rewrite lookup_insert_ne by exact Hne. rewrite Hmap, !Hother by exact Hne.
        reflexivity.
  - rewrite Hck. cbn [fst snd]. rewrite lookup_insert_eq.
    cbn [default slot_signed slot_unsigned].
    assert (Habsent : forall b, last_in_slot b ck processed = None).
    { intros b. apply last_in_slot_absent. intros Hk. apply Hin. rewrite Hkeys.
      apply first_seen_elem_of. exact Hk. }
    split; cbn [fst snd].
    + rewrite map_app. cbn [map]. fold ck. rewrite first_seen_snoc, <- Hkeys.
      rewrite bool_decide_eq_false_2 by exact Hin. reflexivity.
    + intros k. destruct (decide (ck = k)) as [<- | Hne].
      * rewrite lookup_insert_eq.
        rewrite bool_decide_eq_true_2 by (apply elem_of_app; right; left).
        rewrite !Hsame, !Habsent. destruct (in_signed_slot entry); reflexivity.
      * rewrite !lookup_insert_ne by exact Hne. rewrite Hmap, !Hother by exact Hne.
        rewrite (bool_decide_ext (k ∈ ordered_keys ++ [ck]) (k ∈ ordered_keys));
          [reflexivity|].
        rewrite elem_of_app. split; [|auto].
        intros [Hk | Hk]; [exact Hk|]. apply list_elem_of_singleton in Hk. congruence.
Qed.

Lemma fold_pair_step_pair_state (results : list FileAnalysis) :
  pair_state results (fold_left pair_step results (∅, [])).
Proof.
  induction results as [|entry results IH] using rev_ind.
  - split; [reflexivity|]. intros k. cbn [fold_left fst snd]. rewrite lookup_empty.
    case_bool_decide as Hk; [inversion Hk | reflexivity].
  - rewrite fold_left_app. simpl. apply pair_step_pair_state. exact IH.
Qed.

(** What [build_pair_results] returns, key by key. *)
Lemma build_pair_results_closed_form (results : list FileAnalysis) :
  build_pair_results results
  = map (fun k : string * string =>
           {| pr_pair_key := k.2;
              pr_agency := k.1;
              pr_signed := last_in_slot true k results;
              pr_unsigned := last_in_slot false k results;
              combined_summary :=
                summarize_pair_entries (last_in_slot true k results)
                                       (last_in_slot false k results) |})
        (first_seen (map composite_key_of results)).
Proof.
  unfold build_pair_results.
  destruct (fold_pair_step_pair_state results) as [Hkeys Hmap].
  destruct (fold_left pair_step results (∅, [])) as [pair_map ordered_keys].
  simpl in Hkeys, Hmap. rewrite <- Hkeys.
  assert (Hemit : forall k, k ∈ ordered_keys ->
            pair_emit pair_map k
            = [ {| pr_pair_key := k.2;
                   pr_agency := k.1;
                   pr_signed := last_in_slot true k results;
                   pr_unsigned := last_in_slot false k results;
                   combined_summary :=
                     summarize_pair_entries (last_in_slot true k results)
                                            (last_in_slot false k results) |} ]).
  { intros k Hk. unfold pair_emit. rewrite Hmap, bool_decide_eq_true_2 by exact Hk.
    cbn [default slot_signed slot_unsigned].
    destruct (last_in_slot_present k results) as [Hs | Hu].
    - rewrite Hkeys in Hk. exact (proj1 (first_seen_elem_of _ _) Hk).
    - destruct (last_in_slot true k results); [reflexivity | contradiction].
    - destruct (last_in_slot true k results); [reflexivity|].
      destruct (last_in_slot false k results); [reflexivity | contradiction]. }
  clear Hkeys Hmap. induction ordered_keys as [|k keys IH]; [reflexivity|].
  cbn [map concat]. rewrite Hemit by left. rewrite IH; [reflexivity|].
  intros k' Hk'. apply Hemit. right. exact Hk'.
Qed.

(** X12.  [build_pair_results] returns one pair for each distinct
    (agency, pair key) of the batch, in the order in which the keys first
    appear; so no key is repeated, and the key of every file of the batch
    is the key of a returned pair.  (The file itself is on a side of that
    pair only if no later file of the batch took its place there.) *)
Theorem build_pair_results_keys (results : list FileAnalysis) :
  let keys := map (fun p => (pr_agency p, pr_pair_key p)) (build_pair_results results) in
  keys = first_seen (map composite_key_of results)
  /\ NoDup keys
  /\ (forall e, e ∈ results ->
        exists p, p ∈ build_pair_results results
                  /\ (pr_agency p, pr_pair_key p) = composite_key_of e).
Proof.
  intros keys.
  assert (Hkeys : keys = first_seen (map composite_key_of results)).
  { subst keys. rewrite build_pair_results_closed_form, map_map. simpl.
    induction (first_seen (map composite_key_of results)) as [|[a k] l IH];
      [reflexivity | simpl; f_equal; exact IH]. }
  split; [exact Hkeys|]. split; [rewrite Hkeys; apply first_seen_from_NoDup|].
  intros e He.
  assert (Hin : composite_key_of e ∈ keys).
  { rewrite Hkeys. apply first_seen_elem_of, list_elem_of_In, in_map, list_elem_of_In, He. }
  subst keys. apply list_elem_of_In, in_map_iff in Hin as (p & Hp & Hin).
  exists p. split; [apply list_elem_of_In; exact Hin | exact Hp].
Qed.

Lemma build_pair_results_keys_witness :
  let batch := [ sample_analysis "X" "Batch7_Unsigned.csv" "unsigned" ["1"];
                 sample_analysis "Y" "Batch9_Signed.csv" "signed" ["2"];
                 sample_analysis "X" "Batch7_Signed.csv" "signed" ["1"] ] in
  map (fun p => (pr_agency p, pr_pair_key p)) (build_pair_results batch)
  = [("X", "Batch7"); ("Y", "Batch9")]%string
  /\ exists p, p ∈ build_pair_results batch
               /\ (pr_agency p, pr_pair_key p) = ("X", "Batch7")%string.
Proof.
  intros batch.
  destruct (build_pair_results_keys batch) as (Hkeys & _ & Hcover).
  split; [rewrite Hkeys; vm_compute; reflexivity|].
  destruct (Hcover (sample_analysis "X" "Batch7_Signed.csv" "signed" ["1"])) as (p & Hp & Hk).
  - right. right. left.
  - exists p. split; [exact Hp | exact Hk].
Defined.

(** X13.  When several files of a batch fall into the same slot of the same
    pair, the last one wins: the signed side of a pair is the last file of
    the batch bucketed as signed under its key, the unsigned side the last
    one bucketed as unsigned, and a side is missing only when the batch has
    no such file. *)
Theorem build_pair_results_last_wins (results : list FileAnalysis) (p : PairResult) :
  p ∈ build_pair_results results ->
  pr_signed p = last_in_slot true (pr_agency p, pr_pair_key p) results
  /\ pr_unsigned p = last_in_slot false (pr_agency p, pr_pair_key p) results.
Proof.
  rewrite build_pair_results_closed_form.
  intros Hin. apply list_elem_of_In, in_map_iff in Hin as ([a k] & <- & _).
  split; reflexivity.
Qed.

Lemma build_pair_results_last_wins_witness :
  let first := sample_analysis "X" "Batch7_Signed.csv" "signed" ["1"] in
  let second := sample_analysis "X" "Batch7_SignedOrder.csv" "signed" ["2"] in
  exists p, p ∈ build_pair_results [first; second]
            /\ pr_signed p = Some second /\ pr_unsigned p = None.
Proof.
  intros first second.
  set (p := {| pr_pair_key := "Batch7"; pr_agency := "X";
               pr_signed := Some second; pr_unsigned := None;
               combined_summary := summarize_pair_entries (Some second) None |}).
  assert (Hin : p ∈ build_pair_results [first; second]).
  { replace (build_pair_results [first; second]) with [p] by (vm_compute; reflexivity). left. }
  destruct (build_pair_results_last_wins [first; second] p Hin) as [Hs Hu].
  exists p. split; [exact Hin|]. split; [rewrite Hs | rewrite Hu]; vm_compute; reflexivity.
Defined.

(** ** The summary of a pair *)

Lemma unique_from_app (seen xs ys : list string) :
  exists seen', (forall x, x ∈ seen' <-> x ∈ seen \/ x ∈ xs)
                /\ unique_from seen (xs ++ ys) = unique_from seen xs ++ unique_from seen' ys.
Proof.
  revert seen. induction xs as [|x xs IH]; intros seen.
  - exists seen. split; [|reflexivity].
    intros y. split; [auto | intros [Hy | Hy]; [exact Hy | inversion Hy]].
  - simpl. case_bool_decide as Hx.
    + destruct (IH seen) as (seen' & Hseen & Heq). exists seen'. split; [|exact Heq].
      intros y. rewrite Hseen, elem_of_cons. split; [intros [?|?]; auto|].
      intros [? | [-> | ?]]; auto.
    + destruct (IH (x :: seen)) as (seen' & Hseen & Heq). exists seen'.
      split; [|rewrite Heq; reflexivity].
      intros y. rewrite Hseen, !elem_of_cons. tauto.
Qed.

(** X14.  In the summary of a pair no identifier is both pending and
    signed without unsigned source.  The dominant failure reasons are at
    most five, without repetition, all taken from the reasons of the two
    sides, and the reasons of the unsigned side come first: those of the
    signed side only fill the places that are left. *)
Theorem summarize_pair_entries_lists (signed unsigned : option FileAnalysis) :
  let summary := summarize_pair_entries signed unsigned in
  let unsigned_reasons :=
    match unsigned with Some u => fa_unique_failure_reasons u | None => [] end in
  let signed_reasons :=
    match signed with Some s => fa_unique_failure_reasons s | None => [] end in
  (forall x, x ∈ pending_signature_orders summary ->
             x ∉ signed_without_unsigned_source summary)
  /\ (length (dominant_failure_reasons summary) <= 5)%nat
  /\ NoDup (dominant_failure_reasons summary)
  /\ (forall r, r ∈ dominant_failure_reasons summary ->
                r ∈ unsigned_reasons \/ r ∈ signed_reasons)
  /\ exists rest,
       dominant_failure_reasons summary = firstn 5 (unique unsigned_reasons ++ rest)
       /\ forall r, r ∈ rest -> r ∈ signed_reasons /\ r ∉ unsigned_reasons.
Proof.
  intros summary unsigned_reasons signed_reasons.
  assert (Hdom : dominant_failure_reasons summary
                 = firstn 5 (unique (unsigned_reasons ++ signed_reasons))) by reflexivity.
  split; [|split; [|split; [|split]]].
  - intros x. subst summary. cbn [pending_signature_orders signed_without_unsigned_source
                                    summarize_pair_entries].
    rewrite !py_sorted_elem_of, !elem_of_difference. tauto.
  - rewrite Hdom, length_take. lia.
  - rewrite Hdom.
    pose proof (unique_from_NoDup [] (unsigned_reasons ++ signed_reasons)) as Hnd.
    fold (unique (unsigned_reasons ++ signed_reasons)) in Hnd.
    rewrite <- (firstn_skipn 5 (unique (unsigned_reasons ++ signed_reasons))) in Hnd.
    apply NoDup_app in Hnd as [Hnd _]. exact Hnd.
  - intros r Hr. rewrite Hdom in Hr.
    apply (subseteq_take 5) in Hr.
    unfold unique in Hr. apply unique_from_elem_of in Hr as [Hr _].
    apply elem_of_app in Hr. exact Hr.
  - destruct (unique_from_app [] unsigned_reasons signed_reasons) as (seen' & Hseen & Heq).
    exists (unique_from seen' signed_reasons). split.
    + rewrite Hdom. unfold unique. rewrite Heq. reflexivity.
    + intros r Hr. apply unique_from_elem_of in Hr as [Hr Hns]. split; [exact Hr|].
      intros Hu. apply Hns, Hseen. right. exact Hu.
Qed.

Lemma summarize_pair_entries_lists_witness :
  let signed := sample_analysis "X" "Batch7_Signed.csv" "signed" ["A"; "B"] in
  let unsigned := sample_analysis "X" "Batch7_Unsigned.csv" "unsigned" ["B"; "C"] in
  "C"%string ∈ pending_signature_orders (summarize_pair_entries (Some signed) (Some unsigned))
  /\ "C"%string ∉ signed_without_unsigned_source
                    (summarize_pair_entries (Some signed) (Some unsigned)).
Proof.
  intros signed unsigned.
  assert (Hin : "C"%string
                ∈ pending_signature_orders
                    (summarize_pair_entries (Some signed) (Some unsigned))).
  { replace (pending_signature_orders (summarize_pair_entries (Some signed) (Some unsigned)))
      with ["C"%string] by (vm_compute; reflexivity). left. }
  split; [exact Hin|].
  apply (summarize_pair_entries_lists (Some signed) (Some unsigned)). exact Hin.
Defined.

(** ** Further properties of the reconciliation *)

Lemma reconcile_step_ignored (grouped : list (string * Grouped)) (entry : FileAnalysis) :
  reconciled entry = false -> reconcile_step grouped entry = grouped.
Proof.
  unfold reconciled, reconcile_step. intros H. apply orb_false_iff in H as [-> ->]. reflexivity.
Qed.

Lemma fold_reconcile_step_filter (results : list FileAnalysis) (grouped : list (string * Grouped)) :
  fold_left reconcile_step (List.filter reconciled results) grouped
  = fold_left reconcile_step results grouped.
Proof.
  revert grouped. induction results as [|e results IH]; intros grouped; simpl; [reflexivity|].
  destruct (reconciled e) eqn:E; simpl; [apply IH|].
  rewrite (reconcile_step_ignored grouped e E). apply IH.
Qed.

(** X15.  Files whose template type is neither ["signed"] nor ["unsigned"]
    never change the reconciliation: leaving them out of the batch gives
    the same entries. *)
Theorem build_reconciliation_summary_ignores_others (results : list FileAnalysis) :
  build_reconciliation_summary (List.filter reconciled results)
  = build_reconciliation_summary results.
Proof.
  rewrite !build_reconciliation_summary_fold, fold_reconcile_step_filter. reflexivity.
Qed.

(** X16.  In every reconciliation entry the two lists share no identifier,
    and the totals are consistent with them: the unsigned identifiers that
    are not pending are as many as the signed identifiers that have an
    unsigned source, and neither list is longer than its total. *)
Theorem build_reconciliation_summary_accounting (results : list FileAnalysis)
    (e : ReconciliationEntry) :
  e ∈ build_reconciliation_summary results ->
  unsigned_total e - Z.of_nat (length (re_pending_signature_orders e))
  = signed_total e - Z.of_nat (length (re_signed_without_unsigned_source e))
  /\ Z.of_nat (length (re_pending_signature_orders e)) <= unsigned_total e
  /\ Z.of_nat (length (re_signed_without_unsigned_source e)) <= signed_total e
  /\ (forall x, x ∈ re_pending_signature_orders e ->
                x ∉ re_signed_without_unsigned_source e).
Proof.
  rewrite build_reconciliation_summary_fold.
  intros He. apply list_elem_of_In, in_map_iff in He as ([a payload] & <- & _).
  cbn [reconcile_emit unsigned_total signed_total re_pending_signature_orders
       re_signed_without_unsigned_source].
  rewrite !py_sorted_length.
  rewrite (size_difference_alt (g_unsigned payload) (g_signed payload)).
  rewrite (size_difference_alt (g_signed payload) (g_unsigned payload)).
  assert (Hcomm : g_signed payload ∩ g_unsigned payload
                  = g_unsigned payload ∩ g_signed payload).
  { apply set_eq. intros x. rewrite !elem_of_intersection. tauto. }
  rewrite Hcomm.
  assert (Hu : (size (g_unsigned payload ∩ g_signed payload) <= size (g_unsigned payload))%nat).
  { apply subseteq_size. intros x Hx. apply elem_of_intersection in Hx as [Hx _]. exact Hx. }
  assert (Hs : (size (g_unsigned payload ∩ g_signed payload) <= size (g_signed payload))%nat).
  { apply subseteq_size. intros x Hx. apply elem_of_intersection in Hx as [_ Hx]. exact Hx. }
  split; [lia|]. split; [lia|]. split; [lia|].
  intros x. rewrite !py_sorted_elem_of, !elem_of_difference. tauto.
Qed.

Lemma build_reconciliation_summary_accounting_witness :
  let batch := [ sample_analysis "X" "a_unsigned.csv" "unsigned" ["1"; "2"];
                 sample_analysis "X" "b_unsigned.csv" "unsigned" ["2"; "3"];
                 sample_analysis "X" "a_signed.csv" "signed" ["2"; "7"] ] in
  exists e, e ∈ build_reconciliation_summary batch
            /\ unsigned_total e - Z.of_nat (length (re_pending_signature_orders e))
               = signed_total e - Z.of_nat (length (re_signed_without_unsigned_source e)).
Proof.
  intros batch.
  set (e := {| re_agency := "X"; unsigned_total := 3; signed_total := 2;
               re_pending_signature_orders := ["1"; "3"];
               re_signed_without_unsigned_source := ["7"] |}).
  assert (He : e ∈ build_reconciliation_summary batch).
  { replace (build_reconciliation_summary batch) with [e] by (vm_compute; reflexivity). left. }
  exists e. split; [exact He|].
  apply (build_reconciliation_summary_accounting batch e He).
Defined.

(** ** How an analyzed file is bucketed *)

Lemma str_or_same (x : string) : Py.str_or x x = x.
Proof. destruct x; reflexivity. Qed.

(** X17.  An analysis made by [analyze_file] is paired under the agency and
    the pair key of its file name.  It takes the signed slot of its pair
    exactly when the name holds "signed" but not "unsigned", and it
    counts in the reconciliation exactly when the name holds "signed":
    a file of type mixed sits on the unsigned side of its pair but leaves
    every reconciliation bucket as it is. *)
Theorem analyze_file_bucketing
    (to_datetime : list cell -> list (option Z)) (threshold : Z)
    (mean_round2 : list Z -> float) (format_rate : float -> string)
    (now : Z) (df : DataFrame) (fname agency_name : string) :
  let a := analyze_file to_datetime threshold mean_round2 format_rate now df
             fname agency_name in
  let lowered := Py.lower fname in
  composite_key_of a = (agency_name, derive_pair_key fname)
  /\ (in_signed_slot a = true
      <-> Py.contains lowered "signed" = true /\ Py.contains lowered "unsigned" = false)
  /\ (reconciled a = true <-> Py.contains lowered "signed" = true)
  /\ (Py.contains lowered "signed" = false ->
      in_signed_slot a = false /\ forall grouped, reconcile_step grouped a = grouped).
Proof.
  intros a lowered.
  pose proof (contains_inner lowered "unsigned" "signed" eq_refl) as Hinner.
  assert (Hslot : in_signed_slot a = true
                  <-> Py.contains lowered "signed" = true
                      /\ Py.contains lowered "unsigned" = false).
  { unfold in_signed_slot. subst a. cbn [analyze_file template_type].
    unfold determine_template_type. fold lowered.
    destruct (Py.contains lowered "unsigned") eqn:Hu.
    - cbn. split; [discriminate | intros [_ H]; discriminate].
    - destruct (Py.contains lowered "signed") eqn:Hs; cbn;
        [split; auto | split; [discriminate | intros [H _]; discriminate]]. }
  assert (Hrec : reconciled a = true <-> Py.contains lowered "signed" = true).
  { unfold reconciled. subst a. cbn [analyze_file template_type].
    unfold determine_template_type. fold lowered.
    destruct (Py.contains lowered "unsigned") eqn:Hu.
    - rewrite (Hinner eq_refl). cbn. split; reflexivity.
    - destruct (Py.contains lowered "signed") eqn:Hs; cbn; split; auto. }
  split; [|split; [exact Hslot|split; [exact Hrec|]]].
  - unfold composite_key_of. subst a. cbn [analyze_file agency pair_key file_name].
    rewrite str_or_same. reflexivity.
  - intros Hno. split.
    + apply not_true_is_false. intros E.
      destruct (proj1 Hslot E) as [Hs _]. congruence.
    + intros grouped. apply reconcile_step_ignored.
      apply not_true_is_false. intros E.
      rewrite (proj1 Hrec E) in Hno. discriminate.
Qed.

Lemma analyze_file_bucketing_witness :
  let a := analyze_file sample_to_datetime 5 sample_mean_round2 sample_format_rate sample_now
             sample_table "Axxess-LunaVista_OrderTemplate.csv" "LunaVista" in
  in_signed_slot a = false /\ reconcile_step [] a = [].
Proof.
  intros a.
  destruct (analyze_file_bucketing sample_to_datetime 5 sample_mean_round2 sample_format_rate sample_now
              sample_table "Axxess-LunaVista_OrderTemplate.csv" "LunaVista")
    as (_ & _ & _ & H).
  destruct (H eq_refl) as [Hslot Hstep]. split; [exact Hslot | apply Hstep].
Defined.

(** ** Comma-separated settings *)

Lemma split_char_nonempty (sep : ascii) (s : string) : split_char sep s <> [].
Proof.
  destruct s as [|c s]; simpl; [discriminate|].
  destruct (Ascii.eqb c sep); [discriminate|]. destruct (split_char sep s); discriminate.
Qed.

Lemma split_char_no_sep (sep : ascii) (s piece : string) :
  piece ∈ split_char sep s -> Py.mem_ascii sep piece = false.
Proof.
  revert piece. induction s as [|c s IH]; intros piece; simpl.
  - intros H. apply list_elem_of_singleton in H. subst piece. reflexivity.
  - destruct (Ascii.eqb c sep) eqn:E.
    + intros H. apply elem_of_cons in H as [-> | H]; [reflexivity | apply IH; exact H].
    + destruct (split_char sep s) as [|h t] eqn:Es.
      * intros H. apply list_elem_of_singleton in H. subst piece. simpl. rewrite E. reflexivity.
      * intros H. apply elem_of_cons in H as [-> | H].
        -- simpl. rewrite E. apply IH. left.
        -- apply IH. right. exact H.
Qed.

Lemma split_char_app (sep : ascii) (x rest : string) :
  Py.mem_ascii sep x = false ->
  split_char sep (x +:+ String sep rest) = x :: split_char sep rest.
Proof.
  induction x as [|c x IH]; intros Hfree.
  - rewrite append_nil. simpl. rewrite Ascii.eqb_refl. reflexivity.
  - simpl in Hfree. destruct (Ascii.eqb c sep) eqn:E; [discriminate|].
    rewrite append_cons. simpl. rewrite E, (IH Hfree). reflexivity.
Qed.

Lemma split_char_free (sep : ascii) (x : string) :
  Py.mem_ascii sep x = false -> split_char sep x = [x].
Proof.
  induction x as [|c x IH]; intros Hfree; [reflexivity|].
  simpl in Hfree. destruct (Ascii.eqb c sep) eqn:E; [discriminate|].
  simpl. rewrite E, (IH Hfree). reflexivity.
Qed.

Lemma lstrip_by_mem (p : ascii -> bool) (c : ascii) (s : string) :
  Py.mem_ascii c (Py.lstrip_by p s) = true -> Py.mem_ascii c s = true.
Proof.
  induction s as [|a s IH]; simpl; [auto|].
  destruct (p a); [|auto]. intros H. rewrite (IH H). destruct (Ascii.eqb a c); reflexivity.
Qed.

Lemma rstrip_by_mem (p : ascii -> bool) (c : ascii) (s : string) :
  Py.mem_ascii c (Py.rstrip_by p s) = true -> Py.mem_ascii c s = true.
Proof.
  induction s as [|a s IH]; simpl; [auto|].
  destruct (_ && _)%bool; simpl; [discriminate|].
  destruct (Ascii.eqb a c); [reflexivity | exact IH].
Qed.

Lemma strip_free (c : ascii) (s : string) :
  Py.mem_ascii c s = false -> Py.mem_ascii c (Py.strip s) = false.
Proof.
  intros Hfree. apply not_true_is_false. intros H.
  apply rstrip_by_mem, lstrip_by_mem in H. congruence.
Qed.

Lemma csv_items_elem_clean (text item : string) :
  item ∈ csv_items text -> clean_item item.
Proof.
  unfold csv_items. intros Hin.
  apply list_elem_of_In, in_map_iff in Hin as (piece & <- & Hin).
  apply filter_In in Hin as [Hin Hne].
  apply list_elem_of_In, split_char_no_sep in Hin.
  split; [|split].
  - intros Hnil. rewrite Hnil in Hne. discriminate.
  - apply strip_idemp.
  - apply strip_free. exact Hin.
Qed.

(** X18.  Every item read from a comma-separated setting is clean: it is
    not empty, has no blanks around it and holds no comma.  This holds for
    the folder ids of [_split_csv] and for the e-mail recipients. *)
Theorem csv_items_clean (text item : string) :
  (item ∈ _split_csv (CsvStr text) -> clean_item item)
  /\ (item ∈ EMAIL_SMTP_RECIPIENTS (Some text) -> clean_item item)
  /\ _split_csv CsvNone = [].
Proof.
  split; [apply csv_items_elem_clean|]. split; [apply csv_items_elem_clean | reflexivity].
Qed.

Lemma csv_items_clean_witness :
  "ops@example.org"%string ∈ EMAIL_SMTP_RECIPIENTS (Some " ops@example.org , ,qa@example.org,")
  /\ clean_item "ops@example.org".
Proof.
  assert (Hin : "ops@example.org"%string
                ∈ csv_items " ops@example.org , ,qa@example.org,").
  { replace (csv_items " ops@example.org , ,qa@example.org,")
      with ["ops@example.org"; "qa@example.org"]%string by (vm_compute; reflexivity).
    left. }
  split; [exact Hin|].
  apply (csv_items_clean " ops@example.org , ,qa@example.org," "ops@example.org"). exact Hin.
Defined.

Lemma csv_items_piece (x rest : string) :
  Py.mem_ascii "," x = false ->
  csv_items (x +:+ String "," rest)
  = (if Py.is_empty (Py.strip x) then [] else [Py.strip x]) ++ csv_items rest.
Proof.
  intros Hfree. unfold csv_items. rewrite (split_char_app "," x rest Hfree). simpl.
  destruct (Py.is_empty (Py.strip x)); reflexivity.
Qed.

Lemma csv_items_leading_space (s : string) : csv_items (String " " s) = csv_items s.
Proof.
  unfold csv_items. simpl.
  destruct (split_char "," s) as [|h t] eqn:E; [destruct (split_char_nonempty _ _ E)|].
  simpl. change (Py.strip (String " " h)) with (Py.strip h).
  destruct (negb (Py.is_empty (Py.strip h))); [|reflexivity].
  simpl. change (Py.strip (String " " h)) with (Py.strip h). reflexivity.
Qed.

Lemma csv_items_join_aux (items : list string) :
  (forall item, item ∈ items -> clean_item item) ->
  csv_items (Py.join ", " items) = items.
Proof.
  induction items as [|x items IH]; intros Hclean; [reflexivity|].
  destruct (Hclean x) as (Hne & Hstrip & Hfree); [left|].
  assert (Hx : (if Py.is_empty (Py.strip x) then [] else [Py.strip x]) = [x]).
  { rewrite Hstrip. destruct x; [contradiction | reflexivity]. }
  destruct items as [|y items].
  - simpl. unfold csv_items. rewrite (split_char_free "," x Hfree). simpl.
    destruct (Py.is_empty (Py.strip x)) eqn:E; simpl; [discriminate Hx|].
    injection Hx as ->. reflexivity.
  - change (Py.join ", " (x :: y :: items))
      with (x +:+ String "," (String " " (Py.join ", " (y :: items)))).
    rewrite (csv_items_piece x _ Hfree), Hx, csv_items_leading_space, IH; [reflexivity|].
    intros item Hitem. apply Hclean. right. exact Hitem.
Qed.

(** X19.  Reading back a list of clean items that was written with
    [", ".join], as the [To] header of the summary e-mail is, gives the
    list again: the recipients are recovered from the header one by one. *)
Theorem csv_items_join (items : list string) :
  (forall item, item ∈ items -> clean_item item) ->
  csv_items (Py.join ", " items) = items
  /\ EMAIL_SMTP_RECIPIENTS (Some (Py.join ", " items)) = items
  /\ _split_csv (CsvStr (Py.join ", " items)) = items.
Proof.
  intros Hclean. pose proof (csv_items_join_aux items Hclean) as H.
  split; [exact H|]. split; exact H.
Qed.

Lemma csv_items_join_witness :
  csv_items (Py.join ", " ["ops@example.org"; "qa@example.org"])
  = ["ops@example.org"; "qa@example.org"]%string.
Proof.
  apply (csv_items_join ["ops@example.org"; "qa@example.org"]%string).
  intros item Hitem. apply list_elem_of_In in Hitem.
  destruct Hitem as [<- | [<- | []]]; (split; [discriminate | split; reflexivity]).
Defined.

(** X20.  Reading a comma-separated setting is idempotent: the items, put
    together again with [", "], read back as the same items. *)
Theorem csv_items_idempotent (text : string) :
  csv_items (Py.join ", " (csv_items text)) = csv_items text.
Proof.
  apply csv_items_join_aux. intros item Hitem.
  exact (csv_items_elem_clean text item Hitem).
Qed.

(** ** Which rows the statistics count and list *)

Lemma select_imap_elem_of {A B C : Type} (g : nat -> B) (f : A -> C) (mask : list bool)
    (xs : list A) (b : B) (x : C) :
  (b, x) ∈ select mask (imap (fun i y => (g i, f y)) xs)
  <-> exists i y, b = g i /\ mask !! i = Some true /\ xs !! i = Some y /\ x = f y.
Proof.
  revert g mask. induction xs as [|y xs IH]; intros g mask.
  - simpl. destruct mask as [|[|] mask]; simpl;
      (split; [intros H; inversion H | intros (i & y & _ & _ & H & _); destruct i; discriminate]).
  - destruct mask as [|m mask].
    + simpl. split; [intros H; inversion H|].
      intros (i & y' & _ & H & _); destruct i; discriminate.
    + cbn [imap]. destruct m; cbn [select].
      * rewrite elem_of_cons, (IH (g ∘ S) mask). split.
        -- intros [Heq | (i & y' & Hb & Hm & Hx & Hf)].
           ++ injection Heq as -> ->. exists 0%nat, y. auto.
           ++ exists (S i), y'. auto.
        -- intros ([|i] & y' & Hb & Hm & Hx & Hf).
           ++ left. simpl in Hx. injection Hx as ->. rewrite Hb, Hf. reflexivity.
           ++ right. exists i, y'. auto.
      * rewrite (IH (g ∘ S) mask). split.
        -- intros (i & y' & Hb & Hm & Hx & Hf). exists (S i), y'. auto.
        -- intros ([|i] & y' & Hb & Hm & Hx & Hf); [discriminate|]. exists i, y'. auto.
Qed.

Lemma mask_sum_lookup (mask : list bool) (i : nat) :
  mask !! i = Some true -> mask_sum mask <> 0.
Proof.
  unfold mask_sum. revert i. induction mask as [|b mask IH]; intros i Hi; [destruct i; discriminate|].
  destruct i as [|i].
  - simpl in Hi. injection Hi as ->. rewrite filter_cons_True by reflexivity. simpl. lia.
  - destruct b.
    + rewrite filter_cons_True by reflexivity. simpl. lia.
    + rewrite filter_cons_False by discriminate. exact (IH i Hi).
Qed.

(** X21.  On a table with rows and columns, [failure_details] lists under
    a reason exactly the rows that fail and have that reason among their
    matched values: an identifier stands under the reason [v] if and only
    if some row of the table, at some position, has a whole-row text that
    matches the pattern, and, read as [df.iterrows()] yields it, holds [v]
    among its matched values and has that identifier.  No row that passed
    is ever listed.  What [df.iterrows()] yields is the row itself unless
    the rows are turned into floats. *)
Theorem calculate_stats_details_rows
    (to_datetime : list cell -> list (option Z)) (threshold : Z)
    (mean_round2 : list Z -> float) (format_rate : float -> string)
    (now : Z) (df : DataFrame) (agency_config : AgencyConfig) (v identifier : string) :
  df_empty df = false ->
  let s := calculate_stats to_datetime threshold mean_round2 format_rate now df agency_config in
  let pattern :=
    compile_failure_pattern (py_sorted (list_to_set (failure_keywords agency_config))) in
  let inspected := List.filter (has_column df) (status_columns agency_config) in
  (exists details,
     failure_details s = Some details
     /\ (identifier ∈ default [] (details !! v)
         <-> exists (i : nat) (row : list cell),
               rows df !! i = Some row
               /\ pattern_search pattern (row_text row) = true
               /\ v ∈ row_reasons df inspected pattern (row_values df row)
               /\ identifier = row_identifier df (Z.of_nat i) (row_values df row)))
  /\ (upcasts_rows df = false -> forall row, row_values df row = row).
Proof.
  intros Hemp s pattern inspected.
  split; [|intros Hkeep row; apply row_values_keep, Hkeep].
  subst s. unfold calculate_stats.
  assert (Hpos : (df_len df =? 0) = false).
  { apply Z.eqb_neq. unfold df_len, df_empty in *.
    destruct (columns df); [discriminate|]. destruct (rows df); [discriminate | simpl; lia]. }
  rewrite Hpos, build_failure_mask_closed_form by exact Hemp.
  fold pattern. fold inspected.
  set (failure_mask := map (fun row => pattern_search pattern (row_text row)) (rows df)).
  cbn [failure_details]. eexists. split; [reflexivity|].
  assert (Hrows : identifier ∈ attributed_identifiers df failure_mask inspected pattern v
                  <-> exists (i : nat) (row : list cell),
                        rows df !! i = Some row
                        /\ pattern_search pattern (row_text row) = true
                        /\ v ∈ row_reasons df inspected pattern (row_values df row)
                        /\ identifier = row_identifier df (Z.of_nat i) (row_values df row)).
  { split.
    - intros Hin. apply attributed_identifiers_elem_of in Hin as ([idx vals] & Hir & Hid & Hv).
      unfold iterrows in Hir.
      apply select_imap_elem_of in Hir as (i & row & -> & Hm & Hx & ->).
      exists i, row. subst failure_mask. rewrite lookup_map, Hx in Hm. simpl in Hm.
      injection Hm as Hm. auto.
    - intros (i & row & Hx & Hm & Hv & ->). unfold attributed_identifiers.
      apply list_elem_of_In, in_flat_map. exists (Z.of_nat i, row_values df row). split.
      + apply list_elem_of_In. unfold iterrows. apply select_imap_elem_of.
        exists i, row. split; [reflexivity|]. split; [|split; [exact Hx | reflexivity]].
        subst failure_mask. rewrite lookup_map, Hx. simpl. rewrite Hm. reflexivity.
      + apply in_map_iff. exists v. split; [reflexivity|].
        unfold hits. apply filter_In. split; [apply list_elem_of_In; exact Hv|].
        apply String.eqb_refl. }
  destruct (mask_sum failure_mask =? 0) eqn:Hcount; cbn [negb].
  - rewrite lookup_empty. simpl. rewrite <- Hrows. unfold attributed_identifiers.
    apply Z.eqb_eq in Hcount. rewrite (select_nothing failure_mask (iterrows df) Hcount).
    reflexivity.
  - destruct (collect_details_lookup df failure_mask inspected pattern v) as [Hids _].
    cbv zeta in Hids. rewrite Hids. exact Hrows.
Qed.

Lemma calculate_stats_details_rows_witness :
  let s := calculate_stats sample_to_datetime 5 sample_mean_round2 sample_format_rate
             sample_now numeric_table numeric_config in
  df_empty numeric_table = false
  /\ exists details, failure_details s = Some details
                     /\ "1001.0"%string ∈ default [] (details !! "500.0").
Proof.
  intros s. split; [reflexivity|].
  destruct (calculate_stats_details_rows sample_to_datetime 5 sample_mean_round2
              sample_format_rate sample_now numeric_table numeric_config "500.0" "1001.0" eq_refl)
    as [(details & Hdetails & Hiff) _].
  exists details. split; [exact Hdetails|]. apply Hiff.
  exists 0%nat, [Some "1001"; Some "500"; Some "12.5"].
  split; [reflexivity|]. split; [vm_compute; reflexivity|].
  split; [|vm_compute; reflexivity].
  replace (row_reasons _ _ _ _) with ["500.0"]%string by (vm_compute; reflexivity).
  left.
Defined.

Lemma mask_sum_map {A : Type} (f : A -> bool) (xs : list A) :
  mask_sum (map f xs) = Z.of_nat (length (List.filter f xs)).
Proof.
  unfold mask_sum. f_equal.
  induction xs as [|x xs IH]; [reflexivity|]. cbn [map List.filter].
  destruct (f x).
  - rewrite filter_cons_True by reflexivity. cbn [length]. f_equal. exact IH.
  - rewrite filter_cons_False by discriminate. exact IH.
Qed.

(** X22.  On a table with rows and columns the failure count is the number
    of rows whose whole-row text matches the pattern, whatever status
    columns are configured, and the inspected columns are the configured
    status columns that the table has.  On a table with rows but no column
    at all nothing is inspected and every row counts as a success. *)
Theorem calculate_stats_failure_count
    (to_datetime : list cell -> list (option Z)) (threshold : Z)
    (mean_round2 : list Z -> float) (format_rate : float -> string)
    (now : Z) (df : DataFrame) (agency_config : AgencyConfig) :
  rows df <> [] ->
  let s := calculate_stats to_datetime threshold mean_round2 format_rate now df agency_config in
  let pattern :=
    compile_failure_pattern (py_sorted (list_to_set (failure_keywords agency_config))) in
  (columns df <> [] ->
   failure_count s
   = Z.of_nat (length (List.filter (fun row => pattern_search pattern (row_text row)) (rows df)))
   /\ inspected_status_columns s
      = List.filter (has_column df) (status_columns agency_config))
  /\ (columns df = [] ->
      failure_count s = 0 /\ success_count s = df_len df /\ inspected_status_columns s = []
      /\ unique_failure_reasons s = []).
Proof.
  intros Hrows s pattern. subst s. unfold calculate_stats.
  assert (Hpos : (df_len df =? 0) = false).
  { apply Z.eqb_neq. unfold df_len. destruct (rows df); [done | simpl; lia]. }
  rewrite Hpos. split.
  - intros Hcols.
    assert (Hemp : df_empty df = false).
    { unfold df_empty. destruct (columns df); [contradiction|].
      destruct (rows df); [contradiction | reflexivity]. }
    rewrite build_failure_mask_closed_form by exact Hemp. fold pattern.
    cbn [failure_count inspected_status_columns]. split; [|reflexivity].
    apply mask_sum_map.
  - intros Hcols. unfold build_failure_mask, df_empty. rewrite Hcols.
    cbn [failure_count success_count inspected_status_columns unique_failure_reasons].
    unfold mask_sum. simpl. repeat split; try reflexivity. lia.
Qed.

Lemma calculate_stats_failure_count_witness :
  failure_count (calculate_stats sample_to_datetime 5 sample_mean_round2 sample_format_rate
                   sample_now (mkDataFrame [] [] [[]; []]) sample_config) = 0
  /\ failure_count (calculate_stats sample_to_datetime 5 sample_mean_round2 sample_format_rate
                      sample_now sample_table sample_config) = 1.
Proof.
  split.
  - apply (calculate_stats_failure_count sample_to_datetime 5 sample_mean_round2
             sample_format_rate sample_now (mkDataFrame [] [] [[]; []]) sample_config);
      [discriminate | reflexivity].
  - rewrite (proj1 (proj1 (calculate_stats_failure_count sample_to_datetime 5
                             sample_mean_round2 sample_format_rate sample_now sample_table
                             sample_config ltac:(discriminate)) ltac:(discriminate))).
    vm_compute. reflexivity.
Defined.

(** ** The two passes under the rules of the agencies *)

Lemma all_chars_app (p : ascii -> bool) (a b : string) :
  all_chars p (a +:+ b) = (all_chars p a && all_chars p b)%bool.
Proof.
  induction a as [|c a IH]; [reflexivity|].
  rewrite append_cons. cbn [all_chars]. rewrite IH, andb_assoc. reflexivity.
Qed.

Lemma all_chars_lower (s : string) :
  all_chars numeric_or_space s = true -> all_chars numeric_or_space (Py.lower s) = true.
Proof.
  induction s as [|c s IH]; [reflexivity|]. cbn [all_chars Py.lower].
  intros H. apply andb_prop in H as [Hc Hs]. rewrite (IH Hs), andb_true_r.
  revert Hc. destruct c as [[] [] [] [] [] [] [] []]; vm_compute; auto.
Qed.

Lemma all_chars_weaken (s : string) :
  all_chars numeric_char s = true -> all_chars numeric_or_space s = true.
Proof.
  induction s as [|c s IH]; [reflexivity|]. cbn [all_chars].
  intros H. apply andb_prop in H as [Hc Hs]. rewrite (IH Hs), andb_true_r.
  unfold numeric_or_space. rewrite Hc. reflexivity.
Qed.

Lemma all_chars_join (parts : list string) :
  Forall (fun part => all_chars numeric_or_space part = true) parts ->
  all_chars numeric_or_space (Py.join " " parts) = true.
Proof.
  induction 1 as [|part parts Hpart Hparts IH]; [reflexivity|].
  destruct parts as [|q parts]; [exact Hpart|].
  change (Py.join " " (part :: q :: parts)) with (part +:+ " " +:+ Py.join " " (q :: parts)).
  rewrite !all_chars_app, Hpart, IH. reflexivity.
Qed.

Lemma common_type_numeric (a b : Dtype) :
  numeric_dtype (common_type a b) = true -> numeric_dtype a = true /\ numeric_dtype b = true.
Proof. destruct a, b; simpl; intros H; try discriminate; auto. Qed.

Lemma fold_common_type_numeric (dts : list Dtype) (dt : Dtype) :
  numeric_dtype (fold_left common_type dts dt) = true ->
  numeric_dtype dt = true /\ Forall (fun d => numeric_dtype d = true) dts.
Proof.
  revert dt. induction dts as [|d dts IH]; intros dt H; simpl in *; [auto|].
  destruct (IH _ H) as [Hc Hrest]. apply common_type_numeric in Hc as [Hdt Hd].
  split; [exact Hdt | constructor; assumption].
Qed.

Lemma upcasts_rows_numeric (df : DataFrame) :
  upcasts_rows df = true -> Forall (fun d => numeric_dtype d = true) (dtypes df).
Proof.
  unfold upcasts_rows, find_common_type.
  destruct (dtypes df) as [|dt dts]; [discriminate|].
  destruct (fold_left common_type dts dt) eqn:E; try discriminate.
  intros _. assert (H : numeric_dtype (fold_left common_type dts dt) = true)
    by (rewrite E; reflexivity).
  apply fold_common_type_numeric in H as [Hdt Hdts]. constructor; assumption.
Qed.

Lemma typed_row_text (dts : list Dtype) (row : list cell) :
  Forall (fun d => numeric_dtype d = true) dts ->
  typed_row dts row = true ->
  all_chars numeric_or_space (row_text row) = true.
Proof.
  intros Hdts Hrow. unfold row_text. apply all_chars_join.
  revert row Hrow. induction Hdts as [|dt dts Hdt Hdts IH]; intros [|c row] Hrow;
    try discriminate; [constructor|].
  cbn [typed_row] in Hrow. apply andb_prop in Hrow as [Hc Hrow].
  cbn [map]. constructor; [|apply IH, Hrow].
  destruct c as [s|]; [|reflexivity]. cbn [typed_cell fillna_str default] in *.
  rewrite Hdt in Hc. apply all_chars_weaken, Hc.
Qed.

(** A keyword with a character that no number is printed with matches no
    row of numbers. *)
Lemma pattern_search_numbers (pattern : Pattern) (text : string) :
  alternatives pattern <> [] ->
  (forall k, k ∈ alternatives pattern -> all_chars numeric_or_space (Py.lower k) = false) ->
  all_chars numeric_or_space text = true ->
  pattern_search pattern text = false.
Proof.
  intros Hne Hkeys Htext. unfold pattern_search.
  destruct (alternatives pattern) as [|k alts] eqn:E; [contradiction|].
  apply not_true_is_false. intros H. apply existsb_exists in H as (k' & Hin & Hk).
  apply contains_spec in Hk as (pre & post & Hcut).
  apply all_chars_lower in Htext. rewrite Hcut, !all_chars_app in Htext.
  apply andb_prop in Htext as [_ Htext]. apply andb_prop in Htext as [Htext _].
  rewrite (Hkeys k') in Htext; [discriminate | apply list_elem_of_In, Hin].
Qed.

Lemma filter_none {A : Type} (f : A -> bool) (xs : list A) :
  (forall x, x ∈ xs -> f x = false) -> List.filter f xs = [].
Proof.
  induction xs as [|x xs IH]; intros H; simpl; [reflexivity|].
  rewrite (H x) by left. apply IH. intros y Hy. apply H. right. exact Hy.
Qed.

(** On a table of numbers, no row fails under keywords that hold a
    character no number is printed with. *)
Lemma build_failure_mask_numbers (df : DataFrame) (keywords status_columns : list string) :
  upcasts_rows df = true ->
  numeric_cells df = true ->
  keywords <> [] ->
  (forall k, k ∈ keywords -> all_chars numeric_or_space (Py.lower k) = false) ->
  mask_sum (build_failure_mask df keywords status_columns).1.1 = 0.
Proof.
  intros Hup Hcells Hne Hkeys.
  destruct (df_empty df) eqn:Hemp.
  { unfold build_failure_mask. rewrite Hemp. reflexivity. }
  rewrite build_failure_mask_closed_form by exact Hemp. cbn [fst].
  rewrite mask_sum_map, filter_none; [reflexivity|].
  intros row Hrow. apply pattern_search_numbers.
  - cbn [alternatives compile_failure_pattern].
    destruct keywords as [|k keywords]; [contradiction|].
    intros Hnil.
    assert (Hin : k ∈ py_sorted (list_to_set (k :: keywords)))
      by (apply py_sorted_elem_of, elem_of_list_to_set; left).
    rewrite Hnil in Hin. inversion Hin.
  - cbn [alternatives compile_failure_pattern]. intros k Hk.
    apply Hkeys. apply py_sorted_elem_of, elem_of_list_to_set in Hk. exact Hk.
  - apply (typed_row_text (dtypes df)); [apply upcasts_rows_numeric, Hup|].
    unfold numeric_cells in Hcells. rewrite forallb_forall in Hcells.
    apply Hcells, list_elem_of_In, Hrow.
Qed.

(** The keywords of every rule of [AGENCY_CONFIG] hold a letter that no
    number is printed with. *)
Lemma resolve_agency_config_letters (agency_name : string) :
  failure_keywords (resolve_agency_config agency_name) <> []
  /\ forall k, k ∈ failure_keywords (resolve_agency_config agency_name) ->
               all_chars numeric_or_space (Py.lower k) = false.
Proof.
  unfold resolve_agency_config, AGENCY_CONFIG.
  destruct (String.eqb (Py.lower agency_name) "axxess");
    [|destruct (String.eqb (Py.lower agency_name) "kinnser")];
    cbn [failure_keywords]; (split; [discriminate|]);
    intros k Hk; apply list_elem_of_In in Hk; cbn in Hk;
    repeat (destruct Hk as [<- | Hk]; [reflexivity|]); contradiction.
Qed.

(** X23.  Under the rule of any agency, as [resolve_agency_config] gives
    it, the two reason passes of [calculate_stats] agree on every table
    with rows whose numeric columns hold printed numbers: for every
    reason the count in [failure_reason_counts] is the number of
    identifiers listed in [failure_details], in the order of the rows.
    The keywords of the rules all hold a letter that no number is printed
    with, so on a table whose rows [df.iterrows()] would yield as floats
    no row fails. *)
Theorem calculate_stats_agency_rules_agree
    (to_datetime : list cell -> list (option Z)) (threshold : Z)
    (mean_round2 : list Z -> float) (format_rate : float -> string)
    (now : Z) (df : DataFrame) (agency_name : string) :
  rows df <> [] ->
  numeric_cells df = true ->
  let agency_config := resolve_agency_config agency_name in
  let s := calculate_stats to_datetime threshold mean_round2 format_rate now df agency_config in
  let '(failure_mask, inspected_columns, pattern) :=
    build_failure_mask df (failure_keywords agency_config) (status_columns agency_config) in
  (upcasts_rows df = true -> failure_count s = 0)
  /\ exists details,
       failure_details s = Some details
       /\ forall v,
            let ids := attributed_identifiers df failure_mask inspected_columns pattern v in
            default 0 (failure_reason_counts s !! v)
            = Z.of_nat (length (default [] (details !! v)))
            /\ default [] (details !! v) = ids
            /\ (failure_reason_counts s !! v = None <-> ids = [])
            /\ (details !! v = None <-> ids = [])
            /\ (v ∈ unique_failure_reasons s <-> ids <> []).
Proof.
  intros Hrows Hcells agency_config s.
  destruct (resolve_agency_config_letters agency_name) as [Hne Hkeys].
  fold agency_config in Hne, Hkeys.
  assert (Hzero : upcasts_rows df = true ->
                  mask_sum (build_failure_mask df (failure_keywords agency_config)
                              (status_columns agency_config)).1.1 = 0).
  { intros Hup. apply build_failure_mask_numbers; assumption. }
  assert (Hcase : upcasts_rows df = false
                  \/ mask_sum (build_failure_mask df (failure_keywords agency_config)
                                 (status_columns agency_config)).1.1 = 0).
  { destruct (upcasts_rows df); [right; apply Hzero; reflexivity | left; reflexivity]. }
  pose proof (reason_passes_agree_on_kept_rows to_datetime threshold mean_round2 format_rate
                now df agency_config Hrows Hcase) as Hagree.
  cbv zeta in Hagree. fold s in Hagree.
  assert (Hcount : upcasts_rows df = true -> failure_count s = 0).
  { intros Hup. specialize (Hzero Hup). subst s. unfold calculate_stats.
    replace (df_len df =? 0) with false
      by (symmetry; apply Z.eqb_neq; unfold df_len; destruct (rows df); [done | simpl; lia]).
    destruct (build_failure_mask _ _ _) as [[failure_mask inspected_columns] pattern].
    exact Hzero. }
  destruct (build_failure_mask _ _ _) as [[failure_mask inspected_columns] pattern].
  split; [exact Hcount | exact (proj1 Hagree)].
Qed.

Lemma calculate_stats_agency_rules_agree_witness :
  let s := calculate_stats sample_to_datetime 5 sample_mean_round2 sample_format_rate
             sample_now numeric_table (resolve_agency_config "Axxess") in
  rows numeric_table <> []
  /\ numeric_cells numeric_table = true
  /\ upcasts_rows numeric_table = true
  /\ failure_count s = 0
  /\ failure_reason_counts s = ∅
  /\ failure_details s = Some ∅.
Proof.
  intros s.
  assert (Hrows : rows numeric_table <> []) by discriminate.
  pose proof (calculate_stats_agency_rules_agree sample_to_datetime 5 sample_mean_round2
                sample_format_rate sample_now numeric_table "Axxess" Hrows eq_refl) as H.
  cbv zeta in H.
  destruct (build_failure_mask _ _ _) as [[failure_mask inspected_columns] pattern].
  destruct H as [Hcount _].
  split; [exact Hrows|]. split; [reflexivity|]. split; [reflexivity|].
  split; [exact (Hcount eq_refl)|]. split; vm_compute; reflexivity.
Defined.
